(** * AI Paper Review: a shallow embedding of the review client, the usage
    counters and the review core, with the properties of its specification.

    Layout of the development:
    - Part I    JavaScript values used by the client (numbers, truthiness,
                [endsWith]);
    - Part II   the review client [AppContent] and the earlier [App]
                (frontend App.jsx): state, handlers and rendered lists;
    - Part III  the usage counters of supabase_schema.sql;
    - Part IV   the review core (orchestrator, citation resolver,
                aggregator);
    - Part V    the properties. *)

From Stdlib Require Import ZArith QArith Qminmax List String Ascii Bool Lia.
From stdpp Require Import base option list gmap strings.
Import ListNotations.

Close Scope Q_scope.
Open Scope string_scope.
Open Scope Z_scope.

(* ===================================================================== *)
(** * Part I: JavaScript values                                           *)
(* ===================================================================== *)

(** JavaScript numbers that carry geometry or zoom are IEEE doubles.  The
    client only combines them with [/], [-], [+], [*], [Math.max] and
    [Math.min]; the embedding keeps the number type abstract behind this
    interface, so every statement below holds for whatever arithmetic the
    JavaScript engine implements (rounding, [Infinity] and [NaN] included). *)
Class JsNumber (num : Type) := {
  num_lit : Q -> num;            (* a decimal literal of the source *)
  num_add : num -> num -> num;
  num_sub : num -> num -> num;
  num_mul : num -> num -> num;
  num_div : num -> num -> num;
  num_max : num -> num -> num;   (* Math.max *)
  num_min : num -> num -> num    (* Math.min *)
}.

(** The exact rationals are one instance (division by zero yields 0 there,
    where a double yields an infinity or NaN). *)
#[local] Instance Q_JsNumber : JsNumber Q := {|
  num_lit := fun q => q;
  num_add := Qplus;
  num_sub := Qminus;
  num_mul := Qmult;
  num_div := Qdiv;
  num_max := Qmax;
  num_min := Qmin
|}.

(** Truthiness of the values the client tests in conditions: [null] and
    [undefined] are [None]; the number 0 and the empty string are falsy. *)
Definition truthy_num (v : option Z) : bool :=
  match v with
  | Some n => negb (n =? 0)
  | None => false
  end.

Definition truthy_str (v : option string) : bool :=
  match v with
  | Some s => negb (String.eqb s "")
  | None => false
  end.

(** [numPages || 1] *)
Definition or_default (v : option Z) (d : Z) : Z :=
  if truthy_num v then default d v else d.

(** [s.endsWith(suffix)] *)
Definition endsWith (s suffix : string) : bool :=
  let n := String.length s in
  let k := String.length suffix in
  (k <=? n)%nat && String.eqb (String.substring (n - k) k s) suffix.

(** [s.substring(0, n)] *)
Definition js_substring0 (n : nat) (s : string) : string :=
  String.substring 0 (Nat.min n (String.length s)) s.

(** Strict equality [a === b] where [a] may be [null]. *)
Definition strict_eq_str (a : option string) (b : string) : bool :=
  match a with
  | Some x => String.eqb x b
  | None => false
  end.

Definition strict_eq_num (a : option Z) (b : Z) : bool :=
  match a with
  | Some x => x =? b
  | None => false
  end.

(** What a handler does besides updating React state. *)
Inductive ElementId := CommentCard (comment_id : Z).

Inductive TimerAction := ClearActiveHighlight | RemoveHighlightPulse (element : ElementId).

Inductive Effect :=
| Alert (msg : string)
| HttpPost (url : string)
| ConsoleError
| SetTimeout (action : TimerAction) (ms : Z)
| ScrollIntoView (element : ElementId)
| AddHighlightPulse (element : ElementId).

(** A handler either returns or throws (a [TypeError] on reading a property
    of [null] or [undefined]). *)
Inductive JsResult (A : Type) :=
| Returned (a : A)
| Threw (what : string).
Arguments Returned {A} a.
Arguments Threw {A} what.

(* ===================================================================== *)
(** * Part II: the review client (frontend/src/App.jsx)                   *)
(* ===================================================================== *)

Module Client.

(** ** Data received from the API *)

Record File := { name : string }.

Record Highlight (num : Type) := {
  h_id : Z;
  h_page : Z;
  x0 : num;
  y0 : num;
  x1 : num;
  y1 : num;
  width : num;
  height : num;
  comment_id : Z
}.
Arguments h_id {num} _.
Arguments h_page {num} _.
Arguments x0 {num} _.
Arguments y0 {num} _.
Arguments x1 {num} _.
Arguments y1 {num} _.
Arguments width {num} _.
Arguments height {num} _.
Arguments comment_id {num} _.

(** An entry of [comment.highlight_rects]; the client reads [page] and [id]. *)
Record HighlightRect := { hr_id : Z; hr_page : Z }.

Record Citation := {
  quote : string;
  cit_page : option Z;
  highlight_id : option Z
}.

Record Comment := {
  c_id : Z;
  reviewer_type : string;
  title : string;
  content : string;
  severity : string;
  c_page : option Z;
  citations : option (list Citation);
  highlight_rects : option (list HighlightRect)
}.

Record ReviewerData := {
  r_type : string;
  r_status : string;
  r_summary : option string
}.

Record ReviewData (num : Type) := {
  rd_title : option string;
  rd_reviewers : option (list ReviewerData);
  rd_comments : option (list Comment);
  rd_highlights : option (list (Highlight num))
}.
Arguments rd_title {num} _.
Arguments rd_reviewers {num} _.
Arguments rd_comments {num} _.
Arguments rd_highlights {num} _.

(** Replies of the two requests [handleFileUpload] awaits. *)
Record UploadData := { up_id : string; up_title : option string }.

Record AnalyzeData (num : Type) := {
  an_title : option string;
  an_reviewers : option (list ReviewerData);
  an_comments : option (list Comment);
  an_highlights : option (list (Highlight num))
}.
Arguments an_title {num} _.
Arguments an_reviewers {num} _.
Arguments an_comments {num} _.
Arguments an_highlights {num} _.

(** A resolved or rejected request; the rejection carries
    [error.response?.data?.detail || error.message]. *)
Inductive Reply (A : Type) :=
| Resolved (data : A)
| Rejected (message : string).
Arguments Resolved {A} data.
Arguments Rejected {A} message.

Record Server (num : Type) := {
  post_upload : File -> Reply UploadData;
  post_analyze : string -> Reply (AnalyzeData num)
}.
Arguments post_upload {num} _ _.
Arguments post_analyze {num} _ _.

(** What [useAuth()] hands to [AppContent]. *)
Record AuthContext := {
  user : option string;
  plan_id : option string;        (* subscription?.plan_id *)
  isConfigured : bool
}.

(** The fixed reviewer table of the component (both versions list the same
    five types in the same order). *)
Record ReviewerInfo := {
  type : string;
  rname : string;
  description : string
}.

Definition reviewers : list ReviewerInfo := [
  {| type := "editor_overview"; rname := "Editor Overview";
     description := "High-level editorial assessment" |};
  {| type := "methodology_reviewer"; rname := "Methodology";
     description := "Research design evaluation" |};
  {| type := "novelty_reviewer"; rname := "Novelty";
     description := "Originality assessment" |};
  {| type := "clarity_reviewer"; rname := "Clarity & Writing";
     description := "Writing quality review" |};
  {| type := "reproducibility_reviewer"; rname := "Reproducibility";
     description := "Reproducibility check" |}
].

Definition API_BASE : string := "/api".
Definition FREE_REVIEWS_LIMIT : Z := 3.

(** ** Component state: one field per [useState] of [AppContent] *)

Record AppState (num : Type) := {
  reviewId : option string;
  reviewData : option (ReviewData num);
  selectedReviewer : option string;
  loading : bool;
  loadingMessage : string;
  numPages : option Z;
  currentPage : Z;
  scale : num;
  pdfUrl : option string;
  dragging : bool;
  activeHighlight : option Z;
  pageSize : num * num;
  showAuthModal : bool;
  showPricingModal : bool;
  reviewsThisMonth : Z
}.
Arguments reviewId {num} _.
Arguments reviewData {num} _.
Arguments selectedReviewer {num} _.
Arguments loading {num} _.
Arguments loadingMessage {num} _.
Arguments numPages {num} _.
Arguments currentPage {num} _.
Arguments scale {num} _.
Arguments pdfUrl {num} _.
Arguments dragging {num} _.
Arguments activeHighlight {num} _.
Arguments pageSize {num} _.
Arguments showAuthModal {num} _.
Arguments showPricingModal {num} _.
Arguments reviewsThisMonth {num} _.

Section Handlers.
Context {num : Type} `{JsNumber num}.

Definition initialState : AppState num := {|
  reviewId := None; reviewData := None; selectedReviewer := None;
  loading := false; loadingMessage := ""; numPages := None;
  currentPage := 1; scale := num_lit 1%Q; pdfUrl := None;
  dragging := false; activeHighlight := None;
  pageSize := (num_lit 612%Q, num_lit 792%Q);
  showAuthModal := false; showPricingModal := false;
  reviewsThisMonth := 0
|}.

(** The state setters returned by [useState]. *)
Definition setReviewId (v : option string) (s : AppState num) : AppState num :=
  {| reviewId := v; reviewData := reviewData s;
     selectedReviewer := selectedReviewer s; loading := loading s;
     loadingMessage := loadingMessage s; numPages := numPages s;
     currentPage := currentPage s; scale := scale s; pdfUrl := pdfUrl s;
     dragging := dragging s; activeHighlight := activeHighlight s;
     pageSize := pageSize s; showAuthModal := showAuthModal s;
     showPricingModal := showPricingModal s;
     reviewsThisMonth := reviewsThisMonth s |}.

Definition setReviewData (v : option (ReviewData num)) (s : AppState num) : AppState num :=
  {| reviewId := reviewId s; reviewData := v;
     selectedReviewer := selectedReviewer s; loading := loading s;
     loadingMessage := loadingMessage s; numPages := numPages s;
     currentPage := currentPage s; scale := scale s; pdfUrl := pdfUrl s;
     dragging := dragging s; activeHighlight := activeHighlight s;
     pageSize := pageSize s; showAuthModal := showAuthModal s;
     showPricingModal := showPricingModal s;
     reviewsThisMonth := reviewsThisMonth s |}.

Definition setSelectedReviewer (v : option string) (s : AppState num) : AppState num :=
  {| reviewId := reviewId s; reviewData := reviewData s;
     selectedReviewer := v; loading := loading s;
     loadingMessage := loadingMessage s; numPages := numPages s;
     currentPage := currentPage s; scale := scale s; pdfUrl := pdfUrl s;
     dragging := dragging s; activeHighlight := activeHighlight s;
     pageSize := pageSize s; showAuthModal := showAuthModal s;
     showPricingModal := showPricingModal s;
     reviewsThisMonth := reviewsThisMonth s |}.

Definition setLoading (v : bool) (s : AppState num) : AppState num :=
  {| reviewId := reviewId s; reviewData := reviewData s;
     selectedReviewer := selectedReviewer s; loading := v;
     loadingMessage := loadingMessage s; numPages := numPages s;
     currentPage := currentPage s; scale := scale s; pdfUrl := pdfUrl s;
     dragging := dragging s; activeHighlight := activeHighlight s;
     pageSize := pageSize s; showAuthModal := showAuthModal s;
     showPricingModal := showPricingModal s;
     reviewsThisMonth := reviewsThisMonth s |}.

Definition setLoadingMessage (v : string) (s : AppState num) : AppState num :=
  {| reviewId := reviewId s; reviewData := reviewData s;
     selectedReviewer := selectedReviewer s; loading := loading s;
     loadingMessage := v; numPages := numPages s;
     currentPage := currentPage s; scale := scale s; pdfUrl := pdfUrl s;
     dragging := dragging s; activeHighlight := activeHighlight s;
     pageSize := pageSize s; showAuthModal := showAuthModal s;
     showPricingModal := showPricingModal s;
     reviewsThisMonth := reviewsThisMonth s |}.

Definition setNumPages (v : option Z) (s : AppState num) : AppState num :=
  {| reviewId := reviewId s; reviewData := reviewData s;
     selectedReviewer := selectedReviewer s; loading := loading s;
     loadingMessage := loadingMessage s; numPages := v;
     currentPage := currentPage s; scale := scale s; pdfUrl := pdfUrl s;
     dragging := dragging s; activeHighlight := activeHighlight s;
     pageSize := pageSize s; showAuthModal := showAuthModal s;
     showPricingModal := showPricingModal s;
     reviewsThisMonth := reviewsThisMonth s |}.

Definition setCurrentPage (v : Z) (s : AppState num) : AppState num :=
  {| reviewId := reviewId s; reviewData := reviewData s;
     selectedReviewer := selectedReviewer s; loading := loading s;
     loadingMessage := loadingMessage s; numPages := numPages s;
     currentPage := v; scale := scale s; pdfUrl := pdfUrl s;
     dragging := dragging s; activeHighlight := activeHighlight s;
     pageSize := pageSize s; showAuthModal := showAuthModal s;
     showPricingModal := showPricingModal s;
     reviewsThisMonth := reviewsThisMonth s |}.

Definition setScale (v : num) (s : AppState num) : AppState num :=
  {| reviewId := reviewId s; reviewData := reviewData s;
     selectedReviewer := selectedReviewer s; loading := loading s;
     loadingMessage := loadingMessage s; numPages := numPages s;
     currentPage := currentPage s; scale := v; pdfUrl := pdfUrl s;
     dragging := dragging s; activeHighlight := activeHighlight s;
     pageSize := pageSize s; showAuthModal := showAuthModal s;
     showPricingModal := showPricingModal s;
     reviewsThisMonth := reviewsThisMonth s |}.

Definition setPdfUrl (v : option string) (s : AppState num) : AppState num :=
  {| reviewId := reviewId s; reviewData := reviewData s;
     selectedReviewer := selectedReviewer s; loading := loading s;
     loadingMessage := loadingMessage s; numPages := numPages s;
     currentPage := currentPage s; scale := scale s; pdfUrl := v;
     dragging := dragging s; activeHighlight := activeHighlight s;
     pageSize := pageSize s; showAuthModal := showAuthModal s;
     showPricingModal := showPricingModal s;
     reviewsThisMonth := reviewsThisMonth s |}.

Definition setDragging (v : bool) (s : AppState num) : AppState num :=
  {| reviewId := reviewId s; reviewData := reviewData s;
     selectedReviewer := selectedReviewer s; loading := loading s;
     loadingMessage := loadingMessage s; numPages := numPages s;
     currentPage := currentPage s; scale := scale s; pdfUrl := pdfUrl s;
     dragging := v; activeHighlight := activeHighlight s;
     pageSize := pageSize s; showAuthModal := showAuthModal s;
     showPricingModal := showPricingModal s;
     reviewsThisMonth := reviewsThisMonth s |}.

Definition setActiveHighlight (v : option Z) (s : AppState num) : AppState num :=
  {| reviewId := reviewId s; reviewData := reviewData s;
     selectedReviewer := selectedReviewer s; loading := loading s;
     loadingMessage := loadingMessage s; numPages := numPages s;
     currentPage := currentPage s; scale := scale s; pdfUrl := pdfUrl s;
     dragging := dragging s; activeHighlight := v;
     pageSize := pageSize s; showAuthModal := showAuthModal s;
     showPricingModal := showPricingModal s;
     reviewsThisMonth := reviewsThisMonth s |}.

Definition setPageSize (v : num * num) (s : AppState num) : AppState num :=
  {| reviewId := reviewId s; reviewData := reviewData s;
     selectedReviewer := selectedReviewer s; loading := loading s;
     loadingMessage := loadingMessage s; numPages := numPages s;
     currentPage := currentPage s; scale := scale s; pdfUrl := pdfUrl s;
     dragging := dragging s; activeHighlight := activeHighlight s;
     pageSize := v; showAuthModal := showAuthModal s;
     showPricingModal := showPricingModal s;
     reviewsThisMonth := reviewsThisMonth s |}.

Definition setShowAuthModal (v : bool) (s : AppState num) : AppState num :=
  {| reviewId := reviewId s; reviewData := reviewData s;
     selectedReviewer := selectedReviewer s; loading := loading s;
     loadingMessage := loadingMessage s; numPages := numPages s;
     currentPage := currentPage s; scale := scale s; pdfUrl := pdfUrl s;
     dragging := dragging s; activeHighlight := activeHighlight s;
     pageSize := pageSize s; showAuthModal := v;
     showPricingModal := showPricingModal s;
     reviewsThisMonth := reviewsThisMonth s |}.

Definition setShowPricingModal (v : bool) (s : AppState num) : AppState num :=
  {| reviewId := reviewId s; reviewData := reviewData s;
     selectedReviewer := selectedReviewer s; loading := loading s;
     loadingMessage := loadingMessage s; numPages := numPages s;
     currentPage := currentPage s; scale := scale s; pdfUrl := pdfUrl s;
     dragging := dragging s; activeHighlight := activeHighlight s;
     pageSize := pageSize s; showAuthModal := showAuthModal s;
     showPricingModal := v;
     reviewsThisMonth := reviewsThisMonth s |}.

Definition setReviewsThisMonth (v : Z) (s : AppState num) : AppState num :=
  {| reviewId := reviewId s; reviewData := reviewData s;
     selectedReviewer := selectedReviewer s; loading := loading s;
     loadingMessage := loadingMessage s; numPages := numPages s;
     currentPage := currentPage s; scale := scale s; pdfUrl := pdfUrl s;
     dragging := dragging s; activeHighlight := activeHighlight s;
     pageSize := pageSize s; showAuthModal := showAuthModal s;
     showPricingModal := showPricingModal s;
     reviewsThisMonth := v |}.

(** ** Derived values and handlers of [AppContent] *)

(** [!isConfigured || !user || plan === 'pro' || plan === 'team' ||
    reviewsThisMonth < FREE_REVIEWS_LIMIT] *)
Definition canReview (auth : AuthContext) (s : AppState num) : bool :=
  negb (isConfigured auth)
  || negb (bool_decide (is_Some (user auth)))
  || strict_eq_str (plan_id auth) "pro"
  || strict_eq_str (plan_id auth) "team"
  || (reviewsThisMonth s <? FREE_REVIEWS_LIMIT).

(** The [finally] block of [handleFileUpload]. *)
Definition uploadFinally (s : AppState num) : AppState num :=
  setLoadingMessage "" (setLoading false s).

(** [{...uploadResponse.data, ...analyzeResponse.data,
      highlights: analyzeResponse.data.highlights || []}] *)
Definition mergeReviewData (up : UploadData) (an : AnalyzeData num) : ReviewData num :=
  {| rd_title := match an_title an with Some t => Some t | None => up_title up end;
     rd_reviewers := an_reviewers an;
     rd_comments := an_comments an;
     rd_highlights := Some (default [] (an_highlights an)) |}.

(** [if (analyzeResponse.data.reviewers?.length > 0)
       setSelectedReviewer(analyzeResponse.data.reviewers[0].type)] *)
Definition selectFirstReviewer (an : AnalyzeData num) (s : AppState num) : AppState num :=
  match an_reviewers an with
  | Some (r :: _) => setSelectedReviewer (Some (r_type r)) s
  | _ => s
  end.

Definition uploadUrl : string := API_BASE ++ "/upload".
Definition analyzeUrl (id : string) : string := API_BASE ++ "/reviews/" ++ id ++ "/analyze".
Definition pdfUrlOf (id : string) : string := API_BASE ++ "/reviews/" ++ id ++ "/pdf".

(** The body of [handleFileUpload] after its guards: the [try], [catch] and
    [finally] blocks.  [countReviews] tells whether the monthly counter is kept
    ([AppContent]) or not (the earlier [App]). *)
Definition uploadAndAnalyze (countReviews : bool)
    (merge : UploadData -> AnalyzeData num -> ReviewData num)
    (server : Server num) (file : File) (s : AppState num)
  : AppState num * list Effect :=
  let s1 := setLoadingMessage "Uploading PDF..." (setLoading true s) in
  match post_upload server file with
  | Rejected msg =>
      (uploadFinally s1,
       [HttpPost uploadUrl; ConsoleError; Alert ("Error processing file: " ++ msg)])
  | Resolved up =>
      let id := up_id up in
      let s2 := setPdfUrl (Some (pdfUrlOf id)) (setReviewId (Some id) s1) in
      let s3 := setLoadingMessage "Analyzing paper with AI reviewers..." s2 in
      match post_analyze server id with
      | Rejected msg =>
          (uploadFinally s3,
           [HttpPost uploadUrl; HttpPost (analyzeUrl id); ConsoleError;
            Alert ("Error processing file: " ++ msg)])
      | Resolved an =>
          let s4 := setReviewData (Some (merge up an)) s3 in
          let s5 := selectFirstReviewer an s4 in
          let s6 := if countReviews
                    then setReviewsThisMonth (reviewsThisMonth s5 + 1) s5
                    else s5 in
          (uploadFinally s6, [HttpPost uploadUrl; HttpPost (analyzeUrl id)])
      end
  end.

Definition handleFileUpload (auth : AuthContext) (server : Server num)
    (file : option File) (s : AppState num) : AppState num * list Effect :=
  match file with
  | None => (s, [Alert "Please upload a PDF file"])
  | Some f =>
      if negb (endsWith (name f) ".pdf") then (s, [Alert "Please upload a PDF file"])
      else if negb (canReview auth s) then (setShowPricingModal true s, [])
      else uploadAndAnalyze true mergeReviewData server f s
  end.

(** [handleDrop]: [e.dataTransfer.files[0]] is [undefined] for an empty drop. *)
Definition handleDrop (auth : AuthContext) (server : Server num)
    (files : list File) (s : AppState num) : AppState num * list Effect :=
  handleFileUpload auth server (head files) (setDragging false s).

Definition handleDragOver (s : AppState num) : AppState num := setDragging true s.
Definition handleDragLeave (s : AppState num) : AppState num := setDragging false s.

Definition handleFileSelect (auth : AuthContext) (server : Server num)
    (files : list File) (s : AppState num) : AppState num * list Effect :=
  handleFileUpload auth server (head files) s.

Definition onDocumentLoadSuccess (n : Z) (s : AppState num) : AppState num :=
  setNumPages (Some n) s.

Definition onPageLoadSuccess (originalWidth originalHeight : num) (s : AppState num)
  : AppState num :=
  setPageSize (originalWidth, originalHeight) s.

Definition getReviewerComments (s : AppState num) : list Comment :=
  match reviewData s, selectedReviewer s with
  | Some rd, Some sel =>
      match rd_comments rd with
      | Some cs =>
          if String.eqb sel "" then []
          else List.filter (fun c => String.eqb (reviewer_type c) sel) cs
      | None => []
      end
  | _, _ => []
  end.

Definition getReviewerSummary (s : AppState num) : string :=
  match reviewData s, selectedReviewer s with
  | Some rd, Some sel =>
      match rd_reviewers rd with
      | Some rs =>
          if String.eqb sel "" then ""
          else match List.find (fun r => String.eqb (r_type r) sel) rs with
               | Some reviewer => default "" (r_summary reviewer)
               | None => ""
               end
      | None => ""
      end
  | _, _ => ""
  end.

Definition getSelectedReviewerInfo (s : AppState num) : option ReviewerInfo :=
  List.find (fun r => strict_eq_str (selectedReviewer s) (type r)) reviewers.

(** [setCurrentPage(Math.max(1, Math.min(page, numPages || 1)))]; the same
    text in both versions of the component. *)
Definition goToPage (page : Z) (s : AppState num) : AppState num :=
  setCurrentPage (Z.max 1 (Z.min page (or_default (numPages s) 1))) s.

Definition getCurrentPageHighlights (s : AppState num) : list (Highlight num) :=
  match reviewData s with
  | Some rd =>
      match rd_highlights rd with
      | Some hs => List.filter (fun h => h_page h =? currentPage s) hs
      | None => []
      end
  | None => []
  end.

Definition navigateToHighlight (comment : Comment) (s : AppState num)
  : AppState num * list Effect :=
  match highlight_rects comment with
  | Some (highlight :: _) =>
      (setActiveHighlight (Some (hr_id highlight)) (setCurrentPage (hr_page highlight) s),
       [SetTimeout ClearActiveHighlight 2000])
  | _ =>
      match c_page comment with
      | Some p => if negb (p =? 0) then (setCurrentPage p s, []) else (s, [])
      | None => (s, [])
      end
  end.

(** A pending [setTimeout] callback, when it runs. *)
Definition fireTimer (a : TimerAction) (s : AppState num) : AppState num :=
  match a with
  | ClearActiveHighlight => setActiveHighlight None s
  | RemoveHighlightPulse _ => s
  end.

(** [handleHighlightClick]; [document.getElementById] finds the card of a
    comment exactly when the review panel currently lists it. *)
Definition handleHighlightClick (highlight : Highlight num) (s : AppState num)
  : AppState num * list Effect :=
  let s1 := setActiveHighlight (Some (h_id highlight)) s in
  if List.existsb (fun c => c_id c =? comment_id highlight) (getReviewerComments s)
  then (s1, [ScrollIntoView (CommentCard (comment_id highlight));
             AddHighlightPulse (CommentCard (comment_id highlight));
             SetTimeout (RemoveHighlightPulse (CommentCard (comment_id highlight))) 2000])
  else (s1, []).

(** The "New Review" button. *)
Definition newReview (s : AppState num) : AppState num :=
  setSelectedReviewer None (setPdfUrl None (setReviewData None (setReviewId None s))).

(** The zoom buttons. *)
Definition zoomOut (s : AppState num) : AppState num :=
  setScale (num_max (num_lit 0.5%Q) (num_sub (scale s) (num_lit 0.1%Q))) s.
Definition zoomIn (s : AppState num) : AppState num :=
  setScale (num_min (num_lit 2%Q) (num_add (scale s) (num_lit 0.1%Q))) s.

(** ** The click on a citation *)

Record ClickEvent := { propagationStopped : bool }.

Definition stopPropagation (e : ClickEvent) : ClickEvent :=
  {| propagationStopped := true |}.

(** The [onClick] of a [citation-item]. *)
Definition citation_onClick (citation : Citation) (e : ClickEvent) (s : AppState num)
  : JsResult (ClickEvent * AppState num * list Effect) :=
  let e := stopPropagation e in
  if truthy_num (highlight_id citation) then
    match reviewData s with
    | None => Threw "TypeError"
    | Some rd =>
        match rd_highlights rd with
        | None => Threw "TypeError"
        | Some hs =>
            match List.find (fun h => strict_eq_num (highlight_id citation) (h_id h)) hs with
            | Some highlight =>
                Returned (e,
                          setActiveHighlight (Some (h_id highlight))
                            (setCurrentPage (h_page highlight) s),
                          [SetTimeout ClearActiveHighlight 2000])
            | None => Returned (e, s, [])
            end
        end
    end
  else Returned (e, s, []).

(** A click on a [citation-item] inside the card of [comment]: the item's
    handler runs first, then the event bubbles to the card's [onClick]
    ([navigateToHighlight]) unless propagation was stopped. *)
Definition clickCitation (comment : Comment) (citation : Citation) (s : AppState num)
  : JsResult (AppState num * list Effect) :=
  match citation_onClick citation {| propagationStopped := false |} s with
  | Threw w => Threw w
  | Returned (e, s1, eff1) =>
      if propagationStopped e then Returned (s1, eff1)
      else let '(s2, eff2) := navigateToHighlight comment s1 in
           Returned (s2, (eff1 ++ eff2)%list)
  end.

(** A click on a comment card outside its citations. *)
Definition clickComment (comment : Comment) (s : AppState num)
  : AppState num * list Effect :=
  navigateToHighlight comment s.

(** ** Rendered lists *)

(** A CSS length written [`${v}%`]. *)
Inductive CssPercent := Percent (v : num).

(** One [pdf-highlight] element of the [highlights-layer]. *)
Record OverlayDiv := {
  o_key : nat;
  o_active : bool;
  o_left : CssPercent;
  o_top : CssPercent;
  o_width : CssPercent;
  o_height : CssPercent;
  o_highlight : Highlight num       (* the highlight its onClick passes on *)
}.

Definition hundred : num := num_lit 100%Q.

Definition overlayDiv (s : AppState num) (idx : nat) (highlight : Highlight num)
  : OverlayDiv :=
  {| o_key := idx;
     o_active := strict_eq_num (activeHighlight s) (h_id highlight);
     o_left := Percent (num_mul (num_div (x0 highlight) (width highlight)) hundred);
     o_top := Percent (num_mul (num_div (y0 highlight) (height highlight)) hundred);
     o_width := Percent (num_mul (num_div (num_sub (x1 highlight) (x0 highlight))
                                          (width highlight)) hundred);
     o_height := Percent (num_mul (num_div (num_sub (y1 highlight) (y0 highlight))
                                           (height highlight)) hundred);
     o_highlight := highlight |}.

Definition highlightsLayer (s : AppState num) : list OverlayDiv :=
  imap (overlayDiv s) (getCurrentPageHighlights s).

(** The overlays on screen: the review screen replaces the upload screen
    once [reviewId] is set, and the [Document] with its highlights layer is
    rendered once [pdfUrl] is. *)
Definition renderedOverlays (s : AppState num) : list OverlayDiv :=
  if truthy_str (reviewId s) && truthy_str (pdfUrl s) then highlightsLayer s else [].

(** One [citation-item]: the quote cut to 80 characters and the page label. *)
Record CitationItem := {
  ci_key : nat;
  ci_quote : string;
  ci_page : option Z
}.

Definition citationItem (cidx : nat) (citation : Citation) : CitationItem :=
  {| ci_key := cidx;
     ci_quote := js_substring0 80 (quote citation);
     ci_page := cit_page citation |}.

Definition citationsList (comment : Comment) : list CitationItem :=
  match citations comment with
  | Some cs => imap citationItem cs
  | None => []
  end.

(** One [reviewer-item] of the sidebar. *)
Record ReviewerItem := {
  ri_key : string;
  ri_active : bool;
  ri_name : string;
  ri_commentCount : nat;
  ri_isCompleted : bool
}.

Definition reviewerItem (s : AppState num) (reviewer : ReviewerInfo) : ReviewerItem :=
  let reviewerData :=
    match reviewData s with
    | Some rd =>
        match rd_reviewers rd with
        | Some rs => List.find (fun r => String.eqb (r_type r) (type reviewer)) rs
        | None => None
        end
    | None => None
    end in
  let isCompleted :=
    match reviewerData with
    | Some r => String.eqb (r_status r) "completed"
    | None => false
    end in
  let commentCount :=
    match reviewData s with
    | Some rd =>
        match rd_comments rd with
        | Some cs =>
            List.length (List.filter (fun c => String.eqb (reviewer_type c) (type reviewer)) cs)
        | None => 0%nat
        end
    | None => 0%nat
    end in
  {| ri_key := type reviewer;
     ri_active := strict_eq_str (selectedReviewer s) (type reviewer);
     ri_name := rname reviewer;
     ri_commentCount := commentCount;
     ri_isCompleted := isCompleted |}.

Definition reviewerList (s : AppState num) : list ReviewerItem :=
  List.map (reviewerItem s) reviewers.

(** ** The earlier [App] component (second half of the file)

    It has the first ten state fields of [AppContent]; its handlers are
    written on the same record and leave the other fields alone.  Its
    [goToPage] is the text above.  [reviewData] there is the plain merge. *)
Definition mergeReviewData_App (up : UploadData) (an : AnalyzeData num) : ReviewData num :=
  {| rd_title := match an_title an with Some t => Some t | None => up_title up end;
     rd_reviewers := an_reviewers an;
     rd_comments := an_comments an;
     rd_highlights := an_highlights an |}.

Definition handleFileUpload_App (server : Server num)
    (file : option File) (s : AppState num) : AppState num * list Effect :=
  match file with
  | None => (s, [Alert "Please upload a PDF file"])
  | Some f =>
      if negb (endsWith (name f) ".pdf") then (s, [Alert "Please upload a PDF file"])
      else uploadAndAnalyze false mergeReviewData_App server f s
  end.

End Handlers.

End Client.

(* ===================================================================== *)
(** * Part III: usage counters (supabase_schema.sql)                      *)
(* ===================================================================== *)

Module Usage.

(** PostgreSQL [INTEGER] is a signed 32-bit integer; arithmetic that leaves
    the range raises "integer out of range" instead of wrapping. *)
Definition INT4_MIN : Z := -2147483648.
Definition INT4_MAX : Z := 2147483647.

Inductive SqlResult (A : Type) :=
| SqlOk (a : A)
| SqlError (message : string).
Arguments SqlOk {A} a.
Arguments SqlError {A} message.

(** [a + b] on an [INTEGER] column value, [NULL] being [None]. *)
Definition int4pl (a : option Z) (b : Z) : SqlResult (option Z) :=
  match a with
  | None => SqlOk None
  | Some n =>
      let r := n + b in
      if (INT4_MIN <=? r) && (r <=? INT4_MAX) then SqlOk (Some r)
      else SqlError "integer out of range"
  end.

(** The part of the database the two functions touch.  [usage] has
    [UNIQUE(user_id, month)], so its rows with a user are a finite map from
    that pair to the row's [review_count] (a nullable [INTEGER]); the columns
    [id], [created_at] and [updated_at] are read by neither function.
    [auth_users] is the referenced key set of [usage.user_id]. *)
Record Database := {
  auth_users : gset string;
  usage : gmap (string * string) (option Z)
}.

(** What the schema's constraints keep true of every stored table. *)
Definition int4 (v : option Z) : Prop :=
  match v with
  | Some n => INT4_MIN <= n <= INT4_MAX
  | None => True
  end.

Definition db_constraints (db : Database) : Prop :=
  (forall u m rc, usage db !! (u, m) = Some rc -> u ∈ auth_users db) /\
  (forall k rc, usage db !! k = Some rc -> int4 rc).

(** [increment_usage(p_user_id)], called when [to_char(NOW(), 'YYYY-MM')] is
    [current_month], for a non-null [p_user_id]:
    [INSERT ... VALUES (p_user_id, current_month, 1)
     ON CONFLICT (user_id, month) DO UPDATE
     SET review_count = usage.review_count + 1].
    The update also sets [updated_at = NOW()], and the insert fills [id],
    [created_at] and [updated_at] with their defaults; those columns are not
    part of [Database], so a result [SqlOk db] says what the rows' counters
    are, not that no column of the table was written. *)
Definition increment_usage (current_month : string) (p_user_id : string)
    (db : Database) : SqlResult Database :=
  match usage db !! (p_user_id, current_month) with
  | Some review_count =>
      match int4pl review_count 1 with
      | SqlOk v =>
          SqlOk {| auth_users := auth_users db;
                   usage := <[(p_user_id, current_month) := v]> (usage db) |}
      | SqlError e => SqlError e
      end
  | None =>
      if bool_decide (p_user_id ∈ auth_users db)
      then SqlOk {| auth_users := auth_users db;
                    usage := <[(p_user_id, current_month) := Some 1]> (usage db) |}
      else SqlError "violates foreign key constraint"
  end.

(** [get_monthly_usage(p_user_id)]: [SELECT review_count INTO count ...;
    RETURN COALESCE(count, 0)]. *)
Definition get_monthly_usage (current_month : string) (p_user_id : string)
    (db : Database) : Z :=
  let count := default None (usage db !! (p_user_id, current_month)) in
  default 0 count.

(** The database once a call of [increment_usage] is over: a call that
    raises leaves no change behind. *)
Definition after_increment_usage (current_month p_user_id : string)
    (db : Database) : Database :=
  match increment_usage current_month p_user_id db with
  | SqlOk db' => db'
  | SqlError _ => db
  end.

End Usage.

(* ===================================================================== *)
(** * Part IV: the review core                                            *)
(* ===================================================================== *)

(** The Python backend (geometry extractor, reviewer runner, orchestrator,
    citation resolver, aggregator) is not part of the sources; its client
    and its schema are.  Every definition of this part is written from
    sections 3 and 4 of the specification. *)

Module Core.

(** ** Data model (spec section 3) *)

(** Modelled from the spec: the backend's [TextSpan] is missing; "a
    contiguous run of extracted text with an axis-aligned bounding box". *)
Record TextSpan := {
  text : string;
  x0 : Q;
  y0 : Q;
  x1 : Q;
  y1 : Q
}.

(** Modelled from the spec: the backend's [PageGeometry] is missing;
    [page_index] is 0-based, [spans] are in reading order. *)
Record PageGeometry := {
  page_index : nat;
  width : Q;
  height : Q;
  spans : list TextSpan
}.

(** Modelled from the spec: the backend's page numbering is missing.  Pages
    are counted from 1 towards reviewers and the client (the client's
    [currentPage] starts at 1 and is compared with [highlight.page]), so the
    page with index [i] is page [i + 1]. *)
Definition page_number (pg : PageGeometry) : nat := S (page_index pg).

(** Modelled from the spec: the backend's [ReviewerPersona] is missing; the
    prompt template and the response schema play no part below. *)
Record ReviewerPersona := {
  type : string;
  display_name : string
}.

(** Modelled from the spec: the backend's status type is missing; "status
    in {pending, completed, failed}". *)
Inductive Status := pending | completed | failed.

(** Modelled from the spec: the parsed reply of the reviewer service is
    missing; "[{summary, comments: [{title, content, severity, citations:
    [{quote, page_hint?}]}]}]" (section 4.2). *)
Record ParsedCitation := {
  pc_quote : string;
  pc_page_hint : option nat
}.

(** Modelled from the spec: a parsed comment of the reply is missing; it
    has no id yet. *)
Record ParsedComment := {
  pc_title : string;
  pc_content : string;
  pc_severity : string;
  pc_citations : list ParsedCitation
}.

(** Modelled from the spec: the backend's [ReviewerResult] is missing;
    [reason] records why a result is [failed] ("marked failed with reason
    timeout"). *)
Record ReviewerResult := {
  r_type : string;
  status : Status;
  summary : string;
  r_comments : list ParsedComment;
  reason : option string
}.

(** Modelled from the spec: the backend's [Citation] is missing. *)
Record Citation := {
  quote : string;
  page_hint : option nat;
  highlight_id : option nat
}.

(** Modelled from the spec: the backend's [Comment] is missing. *)
Record Comment := {
  id : nat;
  reviewer_type : string;
  title : string;
  content : string;
  severity : string;
  page : option nat;
  citations : list Citation
}.

(** Modelled from the spec: the backend's [Highlight] is missing. *)
Record Highlight := {
  h_id : nat;
  h_page : nat;
  h_x0 : Q;
  h_y0 : Q;
  h_x1 : Q;
  h_y1 : Q;
  h_width : Q;
  h_height : Q;
  comment_id : nat
}.

(** Modelled from the spec: the backend's [ReviewResult] is missing. *)
Record ReviewResult := {
  rr_id : string;
  rr_title : string;
  page_count : nat;
  reviewers : list ReviewerResult;
  comments : list Comment;
  highlights : list Highlight
}.

(** ** Reviewer orchestrator (spec section 4.3) *)

(** Modelled from the spec: the reviewer task runner is missing.  What the
    orchestrator sees of one task: it returns a tagged result after some
    time, raises after some time, or never finishes.  Times are in
    seconds. *)
Inductive TaskOutcome :=
| Completed (summary : string) (comments : list ParsedComment)
| Failed (reason : string).

(** Modelled from the spec: what a running task can do is missing: finish
    with a tagged result, raise, or hang. *)
Inductive TaskBehaviour :=
| Finishes (elapsed : nat) (outcome : TaskOutcome)
| Raises (elapsed : nat)
| NeverFinishes.

(** Modelled from the spec: the orchestrator's slot for a task is missing;
    a result is "created when its task starts (pending)". *)
Definition pending_result (p : ReviewerPersona) : ReviewerResult :=
  {| r_type := type p; status := pending; summary := ""; r_comments := [];
     reason := None |}.

(** Modelled from the spec: the failed result of a task is missing; it
    carries the reason and no comments. *)
Definition failed_result (p : ReviewerPersona) (why : string) : ReviewerResult :=
  {| r_type := type p; status := failed; summary := ""; r_comments := [];
     reason := Some why |}.

(** Modelled from the spec: the orchestrator's handling of one finished task
    is missing; "a task that exceeds [the per-task timeout] is marked failed
    with reason timeout", and a task that raises fails alone. *)
Definition settle (timeout : nat) (p : ReviewerPersona) (b : TaskBehaviour)
  : ReviewerResult :=
  match b with
  | Finishes elapsed outcome =>
      if (timeout <? elapsed)%nat then failed_result p "timeout"
      else match outcome with
           | Completed s cs =>
               {| r_type := type p; status := completed; summary := s;
                  r_comments := cs; reason := None |}
           | Failed why => failed_result p why
           end
  | Raises elapsed =>
      if (timeout <? elapsed)%nat then failed_result p "timeout"
      else failed_result p "exception"
  | NeverFinishes => failed_result p "timeout"
  end.

(** Modelled from the spec: the orchestrator's join is missing.  [order] is
    the order in which the tasks reach their terminal state (task numbers,
    counted from 0 in persona order); each one writes its own slot. *)
Definition collect (timeout : nat) (personas : list ReviewerPersona)
    (behaviour : nat -> TaskBehaviour) (order : list nat)
  : list ReviewerResult :=
  fold_left
    (fun slots i =>
       match personas !! i with
       | Some p => <[i := settle timeout p (behaviour i)]> slots
       | None => slots
       end)
    order (List.map pending_result personas).

(** Modelled from the spec: the test for a completed result is missing. *)
Definition is_completed (r : ReviewerResult) : bool :=
  match status r with completed => true | _ => false end.

(** Modelled from the spec: the test for a terminal status is missing;
    [completed] and [failed] are terminal. *)
Definition is_terminal (r : ReviewerResult) : bool :=
  match status r with pending => false | _ => true end.

(** Modelled from the spec: what [run_all] hands to its caller is missing:
    the results and whether the run as a whole succeeded. *)
Record RunReport := {
  results : list ReviewerResult;
  succeeded : bool
}.

(** Modelled from the spec: the orchestrator's result is missing.  "The
    orchestrator's result is available once all tasks have reached a terminal
    state" ([None] before that), "and the whole run reports success as long
    as at least one reviewer completed". *)
Definition join (timeout : nat) (personas : list ReviewerPersona)
    (behaviour : nat -> TaskBehaviour) (order : list nat) : option RunReport :=
  let slots := collect timeout personas behaviour order in
  if forallb is_terminal slots
  then Some {| results := slots; succeeded := existsb is_completed slots |}
  else None.

(** Modelled from the spec: the per-task timeout is missing.  A task reaches
    its terminal state when it finishes or raises, and at the timeout at the
    latest. *)
Definition finish_time (timeout : nat) (b : TaskBehaviour) : nat :=
  match b with
  | Finishes elapsed _ => Nat.min elapsed timeout
  | Raises elapsed => Nat.min elapsed timeout
  | NeverFinishes => timeout
  end.

(** Modelled from the spec: the scheduler is missing; tasks are ordered by
    the time at which they reach their terminal state (a stable insertion
    sort on that time). *)
Fixpoint insert_by (key : nat -> nat) (x : nat) (l : list nat) : list nat :=
  match l with
  | [] => [x]
  | y :: r => if (key x <=? key y)%nat then x :: y :: r else y :: insert_by key x r
  end.

(** Modelled from the spec: see [insert_by]. *)
Definition sort_by (key : nat -> nat) (l : list nat) : list nat :=
  fold_right (insert_by key) [] l.

(** Modelled from the spec: the completion order is missing; [n] tasks
    started together reach their terminal state by finish time, ties by task
    number. *)
Definition completion_order (timeout : nat) (behaviour : nat -> TaskBehaviour)
    (n : nat) : list nat :=
  sort_by (fun i => finish_time timeout (behaviour i)) (seq 0 n).

(** Modelled from the spec: the backend's [run_all] is missing;
    "[run_all(personas, paper_text, page_map) -> ReviewerResult[]]" launches
    one task per persona concurrently and joins on all terminal states.  The
    paper text and the page map reach the tasks only; here a task is its
    [behaviour]. *)
Definition run_all (timeout : nat) (personas : list ReviewerPersona)
    (behaviour : nat -> TaskBehaviour) : option RunReport :=
  join timeout personas behaviour
       (completion_order timeout behaviour (List.length personas)).

(** ** Citation resolver (spec section 4.4) *)

(** Modelled from the spec: the resolver's error is missing;
    "GeometryUnavailable ... out-of-range page reference". *)
Inductive CoreError := GeometryUnavailable (hint : nat).

(** Modelled from the spec: a call of the core returns or raises. *)
Inductive Result (A : Type) :=
| Ok (a : A)
| Raise (e : CoreError).
Arguments Ok {A} a.
Arguments Raise {A} e.

(** Modelled from the spec: the whitespace test of the normalisation is
    missing; blank, tab, line feed, vertical tab, form feed, carriage return. *)
Definition is_space (c : ascii) : bool :=
  let n := nat_of_ascii c in
  (n =? 32)%nat || ((9 <=? n)%nat && (n <=? 13)%nat).

(** Modelled from the spec: the case folding of the normalisation is
    missing; ASCII capitals are lowered, other characters kept. *)
Definition lower (c : ascii) : ascii :=
  let n := nat_of_ascii c in
  if (65 <=? n)%nat && (n <=? 90)%nat then ascii_of_nat (n + 32) else c.

(** Modelled from the spec: where the normalisation stands in the text:
    before the first word, inside a word, or after whitespace that follows a
    word. *)
Inductive NormState := AtStart | InWord | InGap.

(** Modelled from the spec: the resolver's normalisation is missing;
    "normalize whitespace/case in both the quote and candidate page text":
    letters are lowered, every run of whitespace becomes one blank, leading
    and trailing whitespace goes. *)
Fixpoint normalize_from (st : NormState) (l : list ascii) : list ascii :=
  match l with
  | [] => []
  | c :: r =>
      if is_space c
      then normalize_from (match st with AtStart => AtStart | _ => InGap end) r
      else match st with
           | InGap => " "%char :: lower c :: normalize_from InWord r
           | _ => lower c :: normalize_from InWord r
           end
  end.

(** Modelled from the spec: the normalised form of a text, as characters. *)
Definition normalize (s : string) : list ascii :=
  normalize_from AtStart (list_ascii_of_string s).

(** Modelled from the spec: the comparison at one position of the exact
    substring match is missing. *)
Fixpoint is_prefix (p l : list ascii) : bool :=
  match p, l with
  | [], _ => true
  | a :: p', b :: l' => Ascii.eqb a b && is_prefix p' l'
  | _ :: _, [] => false
  end.

(** Modelled from the spec: the "exact substring match" is missing. *)
Fixpoint contains (needle hay : list ascii) : bool :=
  is_prefix needle hay
  || match hay with
     | [] => false
     | _ :: t => contains needle t
     end.

(** Modelled from the spec: the text a run of spans stands for is missing;
    "spans concatenated in reading order", one blank between two spans. *)
Definition joined_text (ws : list TextSpan) : string :=
  String.concat " " (List.map text ws).

(** Modelled from the spec: a page's concatenated span text, normalised. *)
Definition page_text (pg : PageGeometry) : list ascii :=
  normalize (joined_text (spans pg)).

(** Modelled from the spec: a window of contiguous spans is missing; spans
    [i..j] of a page, both included. *)
Definition window (ws : list TextSpan) (i j : nat) : list TextSpan :=
  firstn (S j - i) (skipn i ws).

(** Modelled from the spec: an axis-aligned bounding box. *)
Record Box := { bx0 : Q; by0 : Q; bx1 : Q; by1 : Q }.

(** Modelled from the spec: the box of one span. *)
Definition span_box (t : TextSpan) : Box :=
  {| bx0 := x0 t; by0 := y0 t; bx1 := x1 t; by1 := y1 t |}.

(** Modelled from the spec: the union of two boxes is the smallest box
    around both. *)
Definition box_union (a b : Box) : Box :=
  {| bx0 := Qmin (bx0 a) (bx0 b); by0 := Qmin (by0 a) (by0 b);
     bx1 := Qmax (bx1 a) (bx1 b); by1 := Qmax (by1 a) (by1 b) |}.

(** Modelled from the spec: the resolver's box computation is missing; "the
    union of the bounding boxes of the contiguous spans covering the matched
    text range".  No span, no box. *)
Definition bounding_box (ws : list TextSpan) : option Box :=
  match ws with
  | [] => None
  | t :: r => Some (fold_left (fun b u => box_union b (span_box u)) r (span_box t))
  end.

(** Modelled from the spec: the order of the exact search on a page is
    missing.  The windows of a page with [n] spans, in the order it
    tries them: by last span upwards, then by first span downwards, so the
    first hit is the earliest occurrence covered by the fewest spans. *)
Definition exact_windows (n : nat) : list (nat * nat) :=
  flat_map (fun j => List.map (fun i => (i, j)) (rev (seq 0 (S j)))) (seq 0 n).

(** Modelled from the spec: the order of the approximate search is
    missing: by first span, then by length
    ("earliest position on the page"). *)
Definition approx_windows (n : nat) : list (nat * nat) :=
  flat_map (fun i => List.map (fun j => (i, j)) (seq i (n - i))) (seq 0 n).

(** Modelled from the spec: the matching configuration is missing; the
    similarity measure and its threshold are "policy choices not fully
    specified" (section 9), so they are parameters.  Steps 2 and 3 of
    section 4.4 do not say either whether the exact attempt is made on every
    page of the search order before the approximate attempt starts
    ([exact_pass_first]), or whether both attempts are made page by page;
    that is a parameter as well. *)
Record MatchPolicy := {
  approximate : bool;
  threshold : Q;
  similarity : list ascii -> list ascii -> Q;
  exact_pass_first : bool
}.

(** Modelled from the spec: the normalised text of a window of a page. *)
Definition window_text (pg : PageGeometry) (w : nat * nat) : list ascii :=
  normalize (joined_text (window (spans pg) (fst w) (snd w))).

(** Modelled from the spec: the exact match on one page is missing; the
    quote has to be a substring of the page's concatenated text, and the box
    is that of "the contiguous spans covering the matched text range". *)
Definition exact_on_page (nq : list ascii) (pg : PageGeometry) : option Box :=
  if contains nq (page_text pg) then
    match List.find (fun w => contains nq (window_text pg w))
                    (exact_windows (List.length (spans pg))) with
    | Some w => bounding_box (window (spans pg) (fst w) (snd w))
    | None => None
    end
  else None.

(** Modelled from the spec: the approximate match on one page is missing;
    "a sliding-window approximate match ... above a fixed threshold against
    windows of spans concatenated in reading order". *)
Definition approx_on_page (policy : MatchPolicy) (nq : list ascii)
    (pg : PageGeometry) : option Box :=
  match List.find (fun w => Qle_bool (threshold policy)
                                     (similarity policy nq (window_text pg w)))
                  (approx_windows (List.length (spans pg))) with
  | Some w => bounding_box (window (spans pg) (fst w) (snd w))
  | None => None
  end.

(** Modelled from the spec: "the first page achieving a match ... wins":
    the first page of [order] on which [f] finds a box. *)
Fixpoint first_match (f : PageGeometry -> option Box) (order : list PageGeometry)
  : option (PageGeometry * Box) :=
  match order with
  | [] => None
  | pg :: rest =>
      match f pg with
      | Some b => Some (pg, b)
      | None => first_match f rest
      end
  end.

(** Modelled from the spec: the two attempts on one page are missing;
    "attempt exact substring match first; if it fails, attempt a
    sliding-window approximate match", read page by page. *)
Definition match_on_page (policy : MatchPolicy) (nq : list ascii)
    (pg : PageGeometry) : option Box :=
  match exact_on_page nq pg with
  | Some b => Some b
  | None => if approximate policy then approx_on_page policy nq pg else None
  end.

(** Modelled from the spec: the matching policy is missing; "attempt exact
    substring match first; if it fails, attempt a sliding-window approximate
    match"; within either attempt "the first page achieving a match wins".
    With [exact_pass_first] the exact attempt is made on every page of the
    search order before the approximate one starts, so an approximate match
    on an earlier page never displaces the page on which the quote occurs
    exactly; without it each page is tried both ways before the next page. *)
Definition search (policy : MatchPolicy) (nq : list ascii)
    (order : list PageGeometry) : option (PageGeometry * Box) :=
  if exact_pass_first policy then
    match first_match (exact_on_page nq) order with
    | Some m => Some m
    | None =>
        if approximate policy then first_match (approx_on_page policy nq) order
        else None
    end
  else first_match (match_on_page policy nq) order.

(** Modelled from the spec: the resolver's page lookup and search order are
    missing; "if page_hint is present, search that page first; on miss, fall
    back to searching all pages in document order"; the resolver "raises
    GeometryUnavailable if page geometry itself is missing for a page index
    referenced by a hint that is out of range". *)
Definition locate (policy : MatchPolicy) (geometry : list PageGeometry)
    (c : ParsedCitation) : Result (option (PageGeometry * Box)) :=
  let nq := normalize (pc_quote c) in
  match pc_page_hint c with
  | Some hint =>
      match List.find (fun pg => (page_number pg =? hint)%nat) geometry with
      | Some hinted => Ok (search policy nq (hinted :: geometry))
      | None => Raise (GeometryUnavailable hint)
      end
  | None => Ok (search policy nq geometry)
  end.

(** Modelled from the spec: the emitted [Highlight] is missing; it carries
    its id, the page, the box, the page's size and the comment's id. *)
Definition make_highlight (hid cid : nat) (pg : PageGeometry) (b : Box) : Highlight :=
  {| h_id := hid; h_page := page_number pg;
     h_x0 := bx0 b; h_y0 := by0 b; h_x1 := bx1 b; h_y1 := by1 b;
     h_width := width pg; h_height := height pg; comment_id := cid |}.

(** Modelled from the spec: the resolver's loop over a comment's citations
    is missing.  [next] is the aggregate's highlight counter: "emit one
    Highlight with a freshly assigned unique id, linked to the comment"; "on
    no match anywhere, leave highlight_id null". *)
Fixpoint resolve_citations (policy : MatchPolicy) (geometry : list PageGeometry)
    (cid next : nat) (cs : list ParsedCitation)
  : Result (list Citation * list Highlight * nat) :=
  match cs with
  | [] => Ok ([], [], next)
  | c :: rest =>
      match locate policy geometry c with
      | Raise e => Raise e
      | Ok None =>
          match resolve_citations policy geometry cid next rest with
          | Raise e => Raise e
          | Ok (cits, hs, next') =>
              Ok ({| quote := pc_quote c; page_hint := pc_page_hint c;
                     highlight_id := None |} :: cits, hs, next')
          end
      | Ok (Some (pg, b)) =>
          match resolve_citations policy geometry cid (S next) rest with
          | Raise e => Raise e
          | Ok (cits, hs, next') =>
              Ok ({| quote := pc_quote c; page_hint := pc_page_hint c;
                     highlight_id := Some next |} :: cits,
                  make_highlight next cid pg b :: hs, next')
          end
      end
  end.

(** Modelled from the spec: the backend's [resolve] is missing;
    "[resolve(comment, page_geometry[]) -> Highlight[]]" for the comment with
    id [cid], together with the comment's citations as resolved and the
    advanced counter. *)
Definition resolve (policy : MatchPolicy) (geometry : list PageGeometry)
    (cid next : nat) (comment : ParsedComment)
  : Result (list Citation * list Highlight * nat) :=
  resolve_citations policy geometry cid next (pc_citations comment).

(** ** Review aggregator (spec section 4.5) *)

(** Modelled from the spec: the aggregator's working state is missing; "an
    id counter and two append-only lists", the counter kept per kind of id
    and "scoped to one aggregation instance". *)
Record AggState := {
  next_comment_id : nat;
  next_highlight_id : nat;
  acc_comments : list Comment;
  acc_highlights : list Highlight
}.

(** Modelled from the spec: the aggregator's initial state is missing; ids
    are counted from 1. *)
Definition initial_state : AggState :=
  {| next_comment_id := 1; next_highlight_id := 1;
     acc_comments := []; acc_highlights := [] |}.

(** Modelled from the spec: the "best-effort" page of a comment is
    missing; it is taken to be where the comment's first highlight lies,
    else the first hint of its citations. *)
Definition best_effort_page (comment : ParsedComment) (hs : list Highlight)
  : option nat :=
  match hs with
  | h :: _ => Some (h_page h)
  | [] =>
      match pc_citations comment with
      | c :: _ => pc_page_hint c
      | [] => None
      end
  end.

(** Modelled from the spec: the aggregator's step for one comment is
    missing; it "invokes the Citation Resolver once per comment ...
    accumulating highlights into the aggregate's flat highlights list". *)
Definition add_comment (policy : MatchPolicy) (geometry : list PageGeometry)
    (rtype : string) (st : AggState) (comment : ParsedComment) : Result AggState :=
  let cid := next_comment_id st in
  match resolve policy geometry cid (next_highlight_id st) comment with
  | Raise e => Raise e
  | Ok (cits, hs, next') =>
      Ok {| next_comment_id := S cid;
            next_highlight_id := next';
            acc_comments :=
              acc_comments st ++
              [ {| id := cid; reviewer_type := rtype;
                   title := pc_title comment; content := pc_content comment;
                   severity := pc_severity comment;
                   page := best_effort_page comment hs;
                   citations := cits |} ];
            acc_highlights := acc_highlights st ++ hs |}
  end.

(** Modelled from the spec: the aggregator's loop over the comments of one
    reviewer is missing. *)
Fixpoint add_comments (policy : MatchPolicy) (geometry : list PageGeometry)
    (rtype : string) (st : AggState) (cs : list ParsedComment) : Result AggState :=
  match cs with
  | [] => Ok st
  | c :: rest =>
      match add_comment policy geometry rtype st c with
      | Raise e => Raise e
      | Ok st' => add_comments policy geometry rtype st' rest
      end
  end.

(** Modelled from the spec: the aggregator's loop over the reviewer
    results is missing. *)
Fixpoint add_reviewers (policy : MatchPolicy) (geometry : list PageGeometry)
    (st : AggState) (rs : list ReviewerResult) : Result AggState :=
  match rs with
  | [] => Ok st
  | r :: rest =>
      match add_comments policy geometry (r_type r) st (r_comments r) with
      | Raise e => Raise e
      | Ok st' => add_reviewers policy geometry st' rest
      end
  end.

(** Modelled from the spec: the backend's [build] is missing;
    "[build(reviewer_results, geometry) -> ReviewResult]"; a
    [GeometryUnavailable] of the resolver is "propagated as a hard failure". *)
Definition build (policy : MatchPolicy) (review_id review_title : string)
    (reviewer_results : list ReviewerResult) (geometry : list PageGeometry)
  : Result ReviewResult :=
  match add_reviewers policy geometry initial_state reviewer_results with
  | Raise e => Raise e
  | Ok st =>
      Ok {| rr_id := review_id; rr_title := review_title;
            page_count := List.length geometry;
            reviewers := reviewer_results;
            comments := acc_comments st;
            highlights := acc_highlights st |}
  end.

End Core.

(* ===================================================================== *)
(** * Part IV-b: the rest of the client                                   *)
(* ===================================================================== *)

(** ** More of [AppContent]: page buttons, sidebar clicks, the screen as a
    whole (frontend/src/App.jsx) *)

Module ClientScreen.
Import Client.

Section Screen.
Context {num : Type} `{JsNumber num}.

(** [disabled={currentPage <= 1}] *)
Definition prevDisabled (s : AppState num) : bool := currentPage s <=? 1.

(** [disabled={currentPage >= numPages}]; a [null] operand of [>=] counts
    as 0. *)
Definition nextDisabled (s : AppState num) : bool :=
  currentPage s >=? default 0 (numPages s).

(** The page buttons; a disabled button does not fire its [onClick]. *)
Definition clickPrev (s : AppState num) : AppState num :=
  if prevDisabled s then s else goToPage (currentPage s - 1) s.

Definition clickNext (s : AppState num) : AppState num :=
  if nextDisabled s then s else goToPage (currentPage s + 1) s.

(** The [onClick] of a [reviewer-item]. *)
Definition clickReviewer (reviewer : ReviewerInfo) (s : AppState num) : AppState num :=
  setSelectedReviewer (Some (type reviewer)) s.

(** The [upload-limit-notice]: shown when [isConfigured && !user], with
    [FREE_REVIEWS_LIMIT - reviewsThisMonth] as the number of reviews left. *)
Definition uploadLimitNotice (auth : AuthContext) (s : AppState num) : option Z :=
  if isConfigured auth && negb (bool_decide (is_Some (user auth)))
  then Some (FREE_REVIEWS_LIMIT - reviewsThisMonth s)
  else None.

(** [if (!reviewId)] chooses between the two screens. *)
Inductive Screen := UploadScreen | ReviewScreen.

Definition screen (s : AppState num) : Screen :=
  if truthy_str (reviewId s) then ReviewScreen else UploadScreen.

(** What can happen to the component: a user gesture, a callback of the PDF
    widget, or a timer. *)
Inductive Action :=
| Upload (auth : AuthContext) (server : Server num) (files : list File)
| Drop (auth : AuthContext) (server : Server num) (files : list File)
| DragOver
| DragLeave
| DocumentLoaded (n : Z)
| PageLoaded (originalWidth originalHeight : num)
| PickReviewer (reviewer : ReviewerInfo)
| ClickComment (comment : Comment)
| ClickCitation (comment : Comment) (citation : Citation)
| ClickHighlight (highlight : Highlight num)
| PrevPage
| NextPage
| ZoomIn
| ZoomOut
| NewReview
| ShowPricing (open : bool)
| ShowAuth (open : bool)
| AuthRequired
| Timer (a : TimerAction).

(** The state after one action; a handler that throws leaves the state as
    it found it (the citation handler sets nothing before it can throw). *)
Definition step (a : Action) (s : AppState num) : AppState num :=
  match a with
  | Upload auth server files => fst (handleFileSelect auth server files s)
  | Drop auth server files => fst (handleDrop auth server files s)
  | DragOver => handleDragOver s
  | DragLeave => handleDragLeave s
  | DocumentLoaded n => onDocumentLoadSuccess n s
  | PageLoaded w h => onPageLoadSuccess w h s
  | PickReviewer reviewer => clickReviewer reviewer s
  | ClickComment comment => fst (clickComment comment s)
  | ClickCitation comment citation =>
      match clickCitation comment citation s with
      | Returned (s', _) => s'
      | Threw _ => s
      end
  | ClickHighlight highlight => fst (handleHighlightClick highlight s)
  | PrevPage => clickPrev s
  | NextPage => clickNext s
  | ZoomIn => zoomIn s
  | ZoomOut => zoomOut s
  | NewReview => newReview s
  | ShowPricing open => setShowPricingModal open s
  | ShowAuth open => setShowAuthModal open s
  | AuthRequired => setShowAuthModal true (setShowPricingModal false s)
  | Timer a => fireTimer a s
  end.

(** The state after a sequence of actions, first action first. *)
Definition run (actions : list Action) (s : AppState num) : AppState num :=
  fold_left (fun st a => step a st) actions s.

End Screen.

End ClientScreen.

(** ** The Supabase client (frontend/src/lib/supabase.js) *)

Module Supabase.

(** The build-time environment [import.meta.env]; an unset variable is
    [undefined]. *)
Record Env := {
  VITE_SUPABASE_URL : option string;
  VITE_SUPABASE_ANON_KEY : option string;
  VITE_POLAR_PRO_CHECKOUT_URL : option string;
  VITE_POLAR_TEAM_CHECKOUT_URL : option string
}.

(** The values the configuration test computes with. *)
Inductive JsValue := JStr (s : string) | JBool (b : bool).

Definition truthy (v : JsValue) : bool :=
  match v with
  | JStr s => negb (String.eqb s "")
  | JBool b => b
  end.

(** [a && b] yields [a] when [a] is falsy, else [b]. *)
Definition js_and (a b : JsValue) : JsValue := if truthy a then b else a.

(** [v || ''] for an environment variable. *)
Definition or_empty (v : option string) : string :=
  if truthy_str v then default "" v else "".

Definition supabaseUrl (env : Env) : string := or_empty (VITE_SUPABASE_URL env).
Definition supabaseAnonKey (env : Env) : string := or_empty (VITE_SUPABASE_ANON_KEY env).

(** [supabase]: the real client, or the stand-in whose calls resolve to
    nothing. *)
Inductive ClientKind := RealClient (url key : string) | DummyClient.

Definition supabase (env : Env) : ClientKind :=
  if truthy (js_and (JStr (supabaseUrl env)) (JStr (supabaseAnonKey env)))
  then RealClient (supabaseUrl env) (supabaseAnonKey env)
  else DummyClient.

(** [supabaseUrl && supabaseAnonKey && supabaseUrl !== '' &&
     supabaseAnonKey !== ''] *)
Definition isSupabaseConfigured (env : Env) : JsValue :=
  js_and (js_and (js_and (JStr (supabaseUrl env)) (JStr (supabaseAnonKey env)))
                 (JBool (negb (String.eqb (supabaseUrl env) ""))))
         (JBool (negb (String.eqb (supabaseAnonKey env) ""))).

End Supabase.

(** ** The authentication context (frontend/src/contexts/AuthContext.jsx) *)

Module Auth.
Import Supabase.

Record User := { id : string; email : string }.

(** A session; [session?.user] is its user. *)
Record Session := { session_user : option User }.

(** A row of [subscriptions]. *)
Record Subscription := { sub_user_id : string; plan_id : string; status : string }.

(** What [.single()] gives: [{ data, error }], or an exception. *)
Inductive QueryReply :=
| QueryReturned (data : option Subscription) (error : option string)
| QueryThrew.

(** The [{ data, error }] of an authentication call. *)
Record AuthResult := { data : option string; error : option string }.

(** The client as the provider uses it: what each call answers. *)
Record SupabaseClient := {
  getSession : option Session;
  subscriptions_single : string -> QueryReply;
  auth_signUp : string -> string -> AuthResult;
  auth_signInWithPassword : string -> string -> AuthResult;
  auth_signInWithOAuth : string -> string -> AuthResult;
  auth_signOut_resolves : bool
}.

(** The stand-in client of supabase.js: no session, every call resolves to
    an empty object. *)
Definition dummyClient : SupabaseClient :=
  {| getSession := None;
     subscriptions_single := fun _ => QueryReturned None None;
     auth_signUp := fun _ _ => {| data := None; error := None |};
     auth_signInWithPassword := fun _ _ => {| data := None; error := None |};
     auth_signInWithOAuth := fun _ _ => {| data := None; error := None |};
     auth_signOut_resolves := true |}.

(** The client in use under [env], [real] being the client [createClient]
    returns. *)
Definition clientFor (env : Env) (real : SupabaseClient) : SupabaseClient :=
  match supabase env with
  | RealClient _ _ => real
  | DummyClient => dummyClient
  end.

Inductive AuthEffect :=
| CallGetSession
| CallOnAuthStateChange
| CallSubscriptionsSingle (userId : string)
| CallSignUp (email : string)
| CallSignInWithPassword (email : string)
| CallSignInWithOAuth (provider redirectTo : string)
| CallSignOut
| ConsoleLog (message : string)
| Rejects.

(** The four [useState] cells of [AuthProvider]. *)
Record AuthState := {
  user : option User;
  session : option Session;
  loading : bool;
  subscription : option Subscription
}.

Definition initialAuth : AuthState :=
  {| user := None; session := None; loading := true; subscription := None |}.

Definition setUser (v : option User) (st : AuthState) : AuthState :=
  {| user := v; session := session st; loading := loading st;
     subscription := subscription st |}.
Definition setSession (v : option Session) (st : AuthState) : AuthState :=
  {| user := user st; session := v; loading := loading st;
     subscription := subscription st |}.
Definition setLoading (v : bool) (st : AuthState) : AuthState :=
  {| user := user st; session := session st; loading := v;
     subscription := subscription st |}.
Definition setSubscription (v : option Subscription) (st : AuthState) : AuthState :=
  {| user := user st; session := session st; loading := loading st;
     subscription := v |}.

Definition configured (env : Env) : bool := truthy (isSupabaseConfigured env).

(** [session?.user ?? null] *)
Definition userOf (s : option Session) : option User :=
  match s with
  | Some x => session_user x
  | None => None
  end.

(** [fetchSubscription(userId)] *)
Definition fetchSubscription (env : Env) (real : SupabaseClient) (userId : string)
    (st : AuthState) : AuthState * list AuthEffect :=
  if negb (configured env) then (st, [])
  else
    match subscriptions_single (clientFor env real) userId with
    | QueryReturned data error =>
        match error, data with
        | None, Some row => (setSubscription (Some row) st, [CallSubscriptionsSingle userId])
        | _, _ => (st, [CallSubscriptionsSingle userId])
        end
    | QueryThrew =>
        (st, [CallSubscriptionsSingle userId; ConsoleLog "No active subscription found"])
    end.

(** The effect run on mount: the initial session, then the subscription to
    authentication changes. *)
Definition mount (env : Env) (real : SupabaseClient) (st : AuthState)
  : AuthState * list AuthEffect :=
  if negb (configured env) then (setLoading false st, [])
  else
    let s := getSession (clientFor env real) in
    let st1 := setUser (userOf s) (setSession s st) in
    let '(st2, eff) :=
      match userOf s with
      | Some u => fetchSubscription env real (id u) st1
      | None => (st1, [])
      end in
    (setLoading false st2, ([CallGetSession; CallOnAuthStateChange] ++ eff)%list).

(** The callback given to [onAuthStateChange]. *)
Definition authStateChanged (env : Env) (real : SupabaseClient)
    (s : option Session) (st : AuthState) : AuthState * list AuthEffect :=
  let st1 := setUser (userOf s) (setSession s st) in
  let '(st2, eff) :=
    match userOf s with
    | Some u => fetchSubscription env real (id u) st1
    | None => (setSubscription None st1, [])
    end in
  (setLoading false st2, eff).

Definition notConfigured : AuthResult :=
  {| data := None; error := Some "Supabase not configured" |}.

Definition signUp (env : Env) (real : SupabaseClient) (mail password : string)
  : AuthResult * list AuthEffect :=
  if negb (configured env) then (notConfigured, [])
  else (auth_signUp (clientFor env real) mail password, [CallSignUp mail]).

Definition signIn (env : Env) (real : SupabaseClient) (mail password : string)
  : AuthResult * list AuthEffect :=
  if negb (configured env) then (notConfigured, [])
  else (auth_signInWithPassword (clientFor env real) mail password,
        [CallSignInWithPassword mail]).

(** [origin] is [window.location.origin]. *)
Definition signInWithGoogle (env : Env) (real : SupabaseClient) (origin : string)
  : AuthResult * list AuthEffect :=
  if negb (configured env) then (notConfigured, [])
  else (auth_signInWithOAuth (clientFor env real) "google" origin,
        [CallSignInWithOAuth "google" origin]).

Definition signInWithGithub (env : Env) (real : SupabaseClient) (origin : string)
  : AuthResult * list AuthEffect :=
  if negb (configured env) then (notConfigured, [])
  else (auth_signInWithOAuth (clientFor env real) "github" origin,
        [CallSignInWithOAuth "github" origin]).

(** [signOut]: the three cells are cleared after the awaited call; if that
    call rejects, the function ends there. *)
Definition signOut (env : Env) (real : SupabaseClient) (st : AuthState)
  : AuthState * list AuthEffect :=
  if negb (configured env) then (st, [])
  else if auth_signOut_resolves (clientFor env real)
       then (setSubscription None (setSession None (setUser None st)), [CallSignOut])
       else (st, [CallSignOut; Rejects]).

(** The context value as [AppContent] reads it. *)
Definition authValue (env : Env) (st : AuthState) : Client.AuthContext :=
  {| Client.user := email <$> user st;
     Client.plan_id := plan_id <$> subscription st;
     Client.isConfigured := configured env |}.

End Auth.

(** ** The user menu (frontend/src/components/UserMenu.jsx) *)

Module UserMenu.

(** [planName], from [subscription?.plan_id]. *)
Definition planName (plan : option string) : string :=
  if strict_eq_str plan "pro" then "Pro"
  else if strict_eq_str plan "team" then "Team"
  else "Free".

(** The label of the first menu entry. *)
Definition pricingLabel (plan : option string) : string :=
  if String.eqb (planName plan) "Free" then "Upgrade Plan" else "Manage Subscription".

End UserMenu.

(** ** The pricing dialog (frontend/src/components/PricingModal.jsx) *)

Module Pricing.
Import Supabase.

(** A plan card; the description and the feature list are display text and
    left out. *)
Record Plan := {
  id : string;
  name : string;
  price : string;
  cta : string;
  popular : bool
}.

Definition plans : list Plan := [
  {| id := "free"; name := "Free"; price := "$0"; cta := "Current Plan";
     popular := false |};
  {| id := "pro"; name := "Pro"; price := "$19"; cta := "Upgrade to Pro";
     popular := true |};
  {| id := "team"; name := "Team"; price := "$49"; cta := "Contact Sales";
     popular := false |}
].

(** [POLAR_CHECKOUT_LINKS[planId]] for the id of a plan card: [null] for the
    free plan, the environment's link [|| ''] for the others. *)
Definition checkoutLink (env : Env) (planId : string) : option string :=
  if String.eqb planId "free" then None
  else if String.eqb planId "pro" then Some (or_empty (VITE_POLAR_PRO_CHECKOUT_URL env))
  else if String.eqb planId "team" then Some (or_empty (VITE_POLAR_TEAM_CHECKOUT_URL env))
  else None.

(** A parsed [URL]: everything but the query, and the query's pairs. *)
Record Url := { base : string; searchParams : list (string * string) }.

(** [url.searchParams.set(key, value)]: the first pair with the key takes
    the value and the later ones go; a new key is appended. *)
Fixpoint remove_key (key : string) (ps : list (string * string)) : list (string * string) :=
  match ps with
  | [] => []
  | (k, v) :: r => if String.eqb k key then remove_key key r else (k, v) :: remove_key key r
  end.

Fixpoint set_param (key value : string) (ps : list (string * string))
  : list (string * string) :=
  match ps with
  | [] => [(key, value)]
  | (k, v) :: r =>
      if String.eqb k key then (key, value) :: remove_key key r
      else (k, v) :: set_param key value r
  end.

Definition searchParams_set (key value : string) (u : Url) : Url :=
  {| base := base u; searchParams := set_param key value (searchParams u) |}.

(** [url.searchParams.get(key)] *)
Fixpoint get_param (key : string) (ps : list (string * string)) : option string :=
  match ps with
  | [] => None
  | (k, v) :: r => if String.eqb k key then Some v else get_param key r
  end.

Inductive PricingEffect :=
| OnAuthRequired
| PricingAlert (message : string)
| Navigate (target : Url)           (* window.location.href = url.toString() *)
| ThrowsTypeError.

(** [handleSelectPlan(planId)]; the dialog's only state is [loading].
    [mail] is the signed-in user's email, [origin] is
    [window.location.origin], and [parseUrl] is the browser's [new URL],
    which throws ([None]) on text that is no URL. *)
Definition handleSelectPlan (env : Env) (parseUrl : string -> option Url)
    (origin : string) (mail : option string) (planId : string)
    (loading : option string) : option string * list PricingEffect :=
  if String.eqb planId "free" then (loading, [])
  else
    match mail with
    | None => (loading, [OnAuthRequired])
    | Some m =>
        if truthy_str (checkoutLink env planId) then
          match parseUrl (default "" (checkoutLink env planId)) with
          | Some url =>
              (Some planId,
               [Navigate
                  (searchParams_set "cancel_url" (origin ++ "?checkout=cancel")
                     (searchParams_set "success_url" (origin ++ "?checkout=success")
                        (searchParams_set "customer_email" m url)))])
          | None => (Some planId, [ThrowsTypeError])
          end
        else
          (loading,
           [PricingAlert "Checkout not configured. Please set VITE_POLAR_PRO_CHECKOUT_URL or VITE_POLAR_TEAM_CHECKOUT_URL"])
    end.

(** [subscription?.plan_id || 'free'] *)
Definition currentPlan (plan : option string) : string :=
  if truthy_str plan then default "free" plan else "free".

(** A rendered card: its classes, whether its button is disabled, and the
    button's label. *)
Record Card := {
  card_plan : Plan;
  card_current : bool;
  card_disabled : bool;
  card_label : string
}.

Definition card (plan : option string) (loading : option string) (p : Plan) : Card :=
  let current := String.eqb (currentPlan plan) (id p) in
  let busy := strict_eq_str loading (id p) in
  {| card_plan := p;
     card_current := current;
     card_disabled := current || busy;
     card_label := if busy then "Loading..."
                   else if current then "Current Plan" else cta p |}.

(** The dialog's cards; nothing is rendered while it is closed. *)
Definition pricingGrid (isOpen : bool) (plan : option string) (loading : option string)
  : list Card :=
  if isOpen then List.map (card plan loading) plans else [].

(** A click on a card's button; a disabled button does not fire. *)
Definition clickCard (env : Env) (parseUrl : string -> option Url)
    (origin : string) (mail plan : option string) (p : Plan)
    (loading : option string) : option string * list PricingEffect :=
  if card_disabled (card plan loading p) then (loading, [])
  else handleSelectPlan env parseUrl origin mail (id p) loading.

End Pricing.

(* ===================================================================== *)
(** * Part V: properties                                                  *)
(* ===================================================================== *)

(** ** Facts about the JavaScript helpers *)

Lemma string_length_append (a b : string) :
  String.length (a ++ b) = (String.length a + String.length b)%nat.
Proof. induction a as [|c a IH]; simpl; [reflexivity | now rewrite IH]. Qed.

Lemma substring_whole (s : string) : String.substring 0 (String.length s) s = s.
Proof. induction s as [|c s IH]; simpl; [reflexivity | now rewrite IH]. Qed.

Lemma substring_after_prefix (pre suf : string) :
  String.substring (String.length pre) (String.length suf) (pre ++ suf) = suf.
Proof. induction pre as [|c pre IH]; simpl; [apply substring_whole | exact IH]. Qed.

Lemma substring_split (s : string) (i : nat) :
  (i <= String.length s)%nat ->
  s = String.substring 0 i s ++ String.substring i (String.length s - i) s.
Proof.
  revert i. induction s as [|c s IH]; intros i Hi; simpl in *.
  - destruct i; reflexivity.
  - destruct i as [|i]; simpl.
    + now rewrite substring_whole.
    + rewrite (IH i) at 1 by lia. reflexivity.
Qed.

(** [endsWith s suffix] holds exactly when [s] is some text followed by
    [suffix]; the comparison is by character, so it is case-sensitive. *)
Lemma endsWith_spec (s suffix : string) :
  endsWith s suffix = true <-> exists pre, s = pre ++ suffix.
Proof.
  unfold endsWith. rewrite andb_true_iff, Nat.leb_le, String.eqb_eq. split.
  - intros [Hle Hsub].
    exists (String.substring 0 (String.length s - String.length suffix) s).
    pose proof (substring_split s (String.length s - String.length suffix)) as Hs.
    replace (String.length s - (String.length s - String.length suffix))%nat
      with (String.length suffix) in Hs by lia.
    rewrite Hsub in Hs. apply Hs. lia.
  - intros [pre ->]. rewrite string_length_append. split; [lia|].
    replace (String.length pre + String.length suffix - String.length suffix)%nat
      with (String.length pre) by lia.
    apply substring_after_prefix.
Qed.

(** ** Properties of the client *)

Module ClientProperties.
Import Client.

(** The component state with the reviewer results of the review replaced,
    used to compare two arrival orders of the same results. *)
Definition withReviewers {num : Type} (rs : list ReviewerData) (s : AppState num)
  : AppState num :=
  match reviewData s with
  | Some rd =>
      setReviewData
        (Some {| rd_title := rd_title rd; rd_reviewers := Some rs;
                 rd_comments := rd_comments rd;
                 rd_highlights := rd_highlights rd |}) s
  | None => s
  end.

(** The configured persona order. *)
Definition persona_order : list string :=
  ["editor_overview"; "methodology_reviewer"; "novelty_reviewer";
   "clarity_reviewer"; "reproducibility_reviewer"].

(** A state of the review screen used by the examples: two highlights on
    pages 2 and 3, one comment of the methodology reviewer. *)
Definition sample_highlight_p2 : Highlight Q :=
  {| h_id := 1; h_page := 2; x0 := 10%Q; y0 := 20%Q; x1 := 300%Q; y1 := 35%Q;
     width := 600%Q; height := 800%Q; comment_id := 1 |}.

Definition sample_highlight_p3 : Highlight Q :=
  {| h_id := 2; h_page := 3; x0 := 60%Q; y0 := 80%Q; x1 := 120%Q; y1 := 100%Q;
     width := 600%Q; height := 800%Q; comment_id := 1 |}.

Definition sample_highlights : list (Highlight Q) :=
  [sample_highlight_p2; sample_highlight_p3].

Definition sample_citation_anchored : Citation :=
  {| quote := "We report a 92% accuracy"; cit_page := Some 2; highlight_id := Some 1 |}.

Definition sample_citation_unresolved : Citation :=
  {| quote := "as shown in prior work"; cit_page := None; highlight_id := None |}.

Definition sample_comment : Comment :=
  {| c_id := 1; reviewer_type := "methodology_reviewer"; title := "Accuracy";
     content := "The accuracy figure lacks a confidence interval.";
     severity := "major"; c_page := Some 2;
     citations := Some [sample_citation_anchored; sample_citation_unresolved];
     highlight_rects := Some [ {| hr_id := 2; hr_page := 3 |};
                               {| hr_id := 1; hr_page := 2 |} ] |}.

Definition sample_comment_page_only : Comment :=
  {| c_id := 2; reviewer_type := "clarity_reviewer"; title := "Wording";
     content := "The abstract is too long."; severity := "minor";
     c_page := Some 4; citations := None; highlight_rects := Some [] |}.

Definition sample_reviewers : list ReviewerData :=
  [ {| r_type := "novelty_reviewer"; r_status := "completed"; r_summary := None |};
    {| r_type := "editor_overview"; r_status := "failed"; r_summary := None |};
    {| r_type := "methodology_reviewer"; r_status := "completed";
       r_summary := Some "Sound design." |} ].

Definition sample_state : AppState Q :=
  setNumPages (Some 5)
    (setPdfUrl (Some "/api/reviews/r1/pdf")
    (setCurrentPage 2
       (setReviewData
          (Some {| rd_title := Some "A paper"; rd_reviewers := Some sample_reviewers;
                   rd_comments := Some [sample_comment; sample_comment_page_only];
                   rd_highlights := Some sample_highlights |})
          (setReviewId (Some "r1") initialState)))).

Definition sample_server : Server Q :=
  {| post_upload := fun f => Resolved {| up_id := "r1"; up_title := Some (name f) |};
     post_analyze := fun _ =>
       Resolved {| an_title := None; an_reviewers := Some sample_reviewers;
                   an_comments := Some [sample_comment];
                   an_highlights := Some sample_highlights |} |}.

Definition sample_auth : AuthContext :=
  {| user := None; plan_id := None; isConfigured := false |}.

Section Properties.
Context {num : Type} `{JsNumber num}.

(** *** Page navigation *)

Lemma or_default_numPages (v : option Z) :
  or_default v 1 = match v with Some 0 => 1 | Some n => n | None => 1 end.
Proof.
  unfold or_default, truthy_num. destruct v as [n|]; [|reflexivity].
  destruct (Z.eqb_spec n 0) as [->|Hn]; simpl; [reflexivity|].
  destruct n; congruence.
Qed.

(** One call of [goToPage]: the current page becomes
    [max 1 (min p numPages)], where [numPages] counts as 1 while the document
    is not loaded, so right after the call it lies between 1 and the page
    count (and is 1 when the count is below 1 or unknown).  No other state
    changes. *)
Theorem goToPage_clamps (p : Z) (s : AppState num) :
  currentPage (goToPage p s) = Z.max 1 (Z.min p (default 1 (numPages s))) /\
  1 <= currentPage (goToPage p s) <= Z.max 1 (default 1 (numPages s)) /\
  goToPage p s = setCurrentPage (currentPage (goToPage p s)) s.
Proof.
  unfold goToPage. simpl. rewrite or_default_numPages.
  destruct (numPages s) as [n|]; simpl.
  - destruct n; simpl; repeat split; lia.
  - repeat split; lia.
Qed.

(** *** Upload guard *)

(** C9: when no file is given, or the file's name does not end in ".pdf",
    [handleFileUpload] (of [AppContent] and of the earlier [App]) only shows
    the alert: it posts nothing and the whole component state, [reviewId],
    [reviewData] and [pdfUrl] included, stays as it was. *)
Theorem handleFileUpload_rejects_non_pdf (auth : AuthContext) (server : Server num)
    (file : option File) (s : AppState num) :
  (file = None \/ exists f, file = Some f /\ ~ (exists pre, name f = pre ++ ".pdf")) ->
  handleFileUpload auth server file s = (s, [Alert "Please upload a PDF file"]) /\
  handleFileUpload_App server file s = (s, [Alert "Please upload a PDF file"]) /\
  (forall url, ~ In (HttpPost url) (snd (handleFileUpload auth server file s))) /\
  (forall url, ~ In (HttpPost url) (snd (handleFileUpload_App server file s))) /\
  reviewId (fst (handleFileUpload auth server file s)) = reviewId s /\
  reviewData (fst (handleFileUpload auth server file s)) = reviewData s /\
  pdfUrl (fst (handleFileUpload auth server file s)) = pdfUrl s.
Proof.
  intros Hbad.
  assert (Hnew : handleFileUpload auth server file s
                 = (s, [Alert "Please upload a PDF file"])).
  { destruct Hbad as [-> | (f & -> & Hname)]; [reflexivity|].
    unfold handleFileUpload.
    destruct (endsWith (name f) ".pdf") eqn:E; [|reflexivity].
    apply endsWith_spec in E. contradiction. }
  assert (Hold : handleFileUpload_App server file s
                 = (s, [Alert "Please upload a PDF file"])).
  { destruct Hbad as [-> | (f & -> & Hname)]; [reflexivity|].
    unfold handleFileUpload_App.
    destruct (endsWith (name f) ".pdf") eqn:E; [|reflexivity].
    apply endsWith_spec in E. contradiction. }
  rewrite Hnew, Hold. simpl.
  repeat split; try reflexivity; intros url [Hin | []]; discriminate Hin.
Qed.

(** A PDF offered when the monthly allowance is used up opens the pricing
    dialog instead of being uploaded. *)
Theorem handleFileUpload_quota_gate (auth : AuthContext) (server : Server num)
    (f : File) (s : AppState num) :
  (exists pre, name f = pre ++ ".pdf") ->
  isConfigured auth = true -> is_Some (user auth) ->
  plan_id auth <> Some "pro" -> plan_id auth <> Some "team" ->
  FREE_REVIEWS_LIMIT <= reviewsThisMonth s ->
  handleFileUpload auth server (Some f) s = (setShowPricingModal true s, []).
Proof.
  intros Hpdf Hconf Huser Hpro Hteam Hlimit. unfold handleFileUpload.
  apply endsWith_spec in Hpdf. rewrite Hpdf. simpl.
  assert (Hcan : canReview auth s = false).
  { unfold canReview. rewrite Hconf, (bool_decide_eq_true_2 _ Huser). simpl.
    assert (Hp : forall k, plan_id auth <> Some k -> strict_eq_str (plan_id auth) k = false).
    { intros k Hk. unfold strict_eq_str. destruct (plan_id auth) as [x|]; [|reflexivity].
      apply String.eqb_neq. congruence. }
    rewrite (Hp "pro" Hpro), (Hp "team" Hteam). simpl. apply Z.ltb_ge. exact Hlimit. }
  rewrite Hcan. reflexivity.
Qed.

(** *** Clicks on comments and citations *)

(** C6: a click on a comment with at least one highlight rect shows the page
    of the first rect and makes that rect's highlight the active one (a timer
    clears it two seconds later); a click on a comment without rects but with
    a page number shows that page and leaves the active highlight alone. *)
Theorem clickComment_navigates (comment : Comment) (s : AppState num) :
  (forall highlight rest,
      highlight_rects comment = Some (highlight :: rest) ->
      currentPage (fst (clickComment comment s)) = hr_page highlight /\
      activeHighlight (fst (clickComment comment s)) = Some (hr_id highlight) /\
      strict_eq_num (activeHighlight (fst (clickComment comment s))) (hr_id highlight)
        = true /\
      clickComment comment s =
        (setActiveHighlight (Some (hr_id highlight))
           (setCurrentPage (hr_page highlight) s),
         [SetTimeout ClearActiveHighlight 2000])) /\
  (forall p,
      highlight_rects comment = None \/ highlight_rects comment = Some [] ->
      c_page comment = Some p -> p <> 0 ->
      currentPage (fst (clickComment comment s)) = p /\
      clickComment comment s = (setCurrentPage p s, [])).
Proof.
  unfold clickComment, navigateToHighlight. split.
  - intros highlight rest ->. simpl. rewrite Z.eqb_refl. repeat split.
  - intros p Hrects -> Hp.
    assert (E : (p =? 0) = false) by now apply Z.eqb_neq.
    destruct Hrects as [-> | ->]; rewrite E; simpl; split; reflexivity.
Qed.

(** Every overlay on the page stands for a highlight of [reviewData]. *)
Lemma highlightsLayer_In (s : AppState num) (o : OverlayDiv) :
  In o (highlightsLayer s) ->
  exists idx, o = overlayDiv s idx (o_highlight o) /\
              In (o_highlight o) (getCurrentPageHighlights s).
Proof.
  unfold highlightsLayer. intros Hin.
  apply list_elem_of_In, elem_of_lookup_imap in Hin as (idx & h & -> & Hl).
  exists idx. simpl. split; [reflexivity|].
  apply list_elem_of_In, list_elem_of_lookup. eauto.
Qed.

(** C7: a citation whose [highlight_id] is null is listed like any other
    (its quote cut to 80 characters and its page), no overlay on the page
    belongs to it, and a click on it returns normally without changing the
    state (current page and active highlight included), without starting a
    timer and without reaching the comment's own click handler. *)
Theorem clickCitation_unresolved (comment : Comment) (citation : Citation)
    (s : AppState num) :
  highlight_id citation = None ->
  clickCitation comment citation s = Returned (s, []) /\
  (forall cidx,
      citationItem cidx citation =
        {| ci_key := cidx; ci_quote := js_substring0 80 (quote citation);
           ci_page := cit_page citation |}) /\
  (forall o, In o (highlightsLayer s) ->
             strict_eq_num (highlight_id citation) (h_id (o_highlight o)) = false).
Proof.
  intros Hnull. unfold clickCitation, citation_onClick.
  rewrite Hnull. simpl. repeat split.
Qed.

(** *** Highlight overlays *)

Lemma map_o_highlight_imap (f : nat -> Highlight num -> OverlayDiv)
    (l : list (Highlight num)) :
  (forall i h, o_highlight (f i h) = h) ->
  List.map o_highlight (imap f l) = l.
Proof.
  revert f. induction l as [|h l IH]; intros f Hf; simpl; [reflexivity|].
  rewrite Hf. f_equal. apply IH. intros i h'. apply Hf.
Qed.

(** C4: the overlays on screen are those of the highlights layer, which
    lists the highlights of the current page in order; each is placed at
    [left = x0/width], [top = y0/height] with [width = (x1-x0)/width] and
    [height = (y1-y0)/height], times 100 as a percentage of the rendered
    page, [width] and [height] being those of the highlight record; the zoom
    level and the measured page size play no part. *)
Theorem highlightsLayer_fractions (s : AppState num) :
  (renderedOverlays s = highlightsLayer s \/ renderedOverlays s = []) /\
  List.map o_highlight (highlightsLayer s) = getCurrentPageHighlights s /\
  (forall o, In o (renderedOverlays s) ->
     let h := o_highlight o in
     h_page h = currentPage s /\
     o_left o = Percent (num_mul (num_div (x0 h) (width h)) hundred) /\
     o_top o = Percent (num_mul (num_div (y0 h) (height h)) hundred) /\
     o_width o = Percent (num_mul (num_div (num_sub (x1 h) (x0 h)) (width h)) hundred) /\
     o_height o = Percent (num_mul (num_div (num_sub (y1 h) (y0 h)) (height h)) hundred)) /\
  (forall zoom size,
     renderedOverlays (setPageSize size (setScale zoom s)) = renderedOverlays s) /\
  renderedOverlays (zoomIn s) = renderedOverlays s /\
  renderedOverlays (zoomOut s) = renderedOverlays s.
Proof.
  assert (Hsub : forall o, In o (renderedOverlays s) -> In o (highlightsLayer s)).
  { unfold renderedOverlays.
    destruct (truthy_str (reviewId s) && truthy_str (pdfUrl s)); [auto | intros o []]. }
  split; [|split; [|split; [|repeat split]]].
  - unfold renderedOverlays.
    destruct (truthy_str (reviewId s) && truthy_str (pdfUrl s)); auto.
  - unfold highlightsLayer. apply map_o_highlight_imap. reflexivity.
  - intros o Hin h. apply Hsub, highlightsLayer_In in Hin as (idx & Ho & Hh).
    subst h. split.
    + unfold getCurrentPageHighlights in Hh.
      destruct (reviewData s) as [rd|]; [|destruct Hh].
      destruct (rd_highlights rd) as [hs|]; [|destruct Hh].
      apply filter_In in Hh as [_ Hp]. now apply Z.eqb_eq.
    + rewrite Ho. simpl. repeat split.
Qed.

(** *** Reviewer sidebar *)

Lemma find_by_type_permutation (k : string) (l l' : list ReviewerData) :
  NoDup (List.map r_type l) -> Permutation l l' ->
  List.find (fun r => String.eqb (r_type r) k) l
  = List.find (fun r => String.eqb (r_type r) k) l'.
Proof.
  intros Hnd Hp. induction Hp as [|x l l' Hp IH|x y l|l l' l'' Hp1 IH1 Hp2 IH2].
  - reflexivity.
  - simpl. destruct (String.eqb (r_type x) k); [reflexivity|].
    apply IH. simpl in Hnd. now inversion Hnd.
  - simpl. destruct (String.eqb_spec (r_type y) k) as [Ey|_];
      destruct (String.eqb_spec (r_type x) k) as [Ex|_]; try reflexivity.
    exfalso. simpl in Hnd. inversion Hnd as [|? ? Hnotin _]. subst.
    apply Hnotin. rewrite <- Ex. left.
  - rewrite IH1 by assumption. apply IH2.
    assert (Hm : Permutation (List.map r_type l) (List.map r_type l'))
      by now apply Permutation_map.
    now rewrite <- Hm.
Qed.

(** C5: the sidebar lists the reviewers in the configured order, whatever
    the review data holds; and two arrival orders of the same reviewer
    results (one result per type) render the same sidebar. *)
Theorem reviewerList_fixed_order (s : AppState num) :
  List.map ri_key (reviewerList s) = persona_order /\
  List.map ri_name (reviewerList s) = List.map rname reviewers /\
  (forall rs rs',
      NoDup (List.map r_type rs) -> Permutation rs rs' ->
      reviewerList (withReviewers rs s) = reviewerList (withReviewers rs' s)).
Proof.
  split; [reflexivity | split; [reflexivity|]].
  intros rs rs' Hnd Hp. unfold reviewerList, withReviewers.
  destruct (reviewData s) as [rd|]; [|reflexivity].
  apply map_ext. intros reviewer. unfold reviewerItem. simpl.
  now rewrite (find_by_type_permutation (type reviewer) rs rs' Hnd Hp).
Qed.

End Properties.

(** *** The properties at the sample review *)

Example goToPage_examples :
  currentPage (goToPage 9 sample_state) = 5 /\
  currentPage (goToPage (-3) sample_state) = 1 /\
  currentPage (goToPage 4 sample_state) = 4 /\
  currentPage (goToPage 4 (@initialState Q _)) = 1.
Proof. repeat split. Qed.

(** [setCurrentPage] is also called outside [goToPage] (by
    [navigateToHighlight] and by the click on a citation), and the "New
    Review" button resets neither [currentPage] nor [numPages]: after page 5
    of a five-page paper, a two-page paper opens at page 5. *)
Example currentPage_kept_by_newReview :
  let first := goToPage 5 (onDocumentLoadSuccess 5
                 (fst (handleFileUpload sample_auth sample_server
                         (Some {| name := "first.pdf" |}) (@initialState Q _)))) in
  let second := onDocumentLoadSuccess 2
                  (fst (handleFileUpload sample_auth sample_server
                          (Some {| name := "second.pdf" |}) (newReview first))) in
  currentPage first = 5 /\ currentPage second = 5 /\ numPages second = Some 2.
Proof. vm_compute. repeat split. Qed.

Lemma handleFileUpload_quota_gate_witness :
  handleFileUpload
    {| user := Some "ada@example.org"; plan_id := Some "free"; isConfigured := true |}
    sample_server (Some {| name := "paper.pdf" |})
    (setReviewsThisMonth 3 (@initialState Q _))
  = (setShowPricingModal true (setReviewsThisMonth 3 initialState), []).
Proof.
  apply (handleFileUpload_quota_gate
           {| user := Some "ada@example.org"; plan_id := Some "free";
              isConfigured := true |}
           sample_server {| name := "paper.pdf" |}
           (setReviewsThisMonth 3 (@initialState Q _))).
  - exists "paper". reflexivity.
  - reflexivity.
  - simpl. eauto.
  - discriminate.
  - discriminate.
  - simpl. unfold FREE_REVIEWS_LIMIT. lia.
Defined.

Lemma handleFileUpload_rejects_non_pdf_witness :
  handleFileUpload sample_auth sample_server (Some {| name := "notes.PDF" |})
    sample_state = (sample_state, [Alert "Please upload a PDF file"]) /\
  handleFileUpload sample_auth sample_server None sample_state
    = (sample_state, [Alert "Please upload a PDF file"]).
Proof.
  split.
  - apply (handleFileUpload_rejects_non_pdf sample_auth sample_server
             (Some {| name := "notes.PDF" |}) sample_state).
    right. exists {| name := "notes.PDF" |}. split; [reflexivity|].
    intros Hex. apply endsWith_spec in Hex. vm_compute in Hex. discriminate Hex.
  - apply (handleFileUpload_rejects_non_pdf sample_auth sample_server None sample_state).
    left. reflexivity.
Defined.

(** A file that passes the guard is uploaded and analysed. *)
Example handleFileUpload_accepts_pdf :
  let r := handleFileUpload sample_auth sample_server (Some {| name := "paper.pdf" |})
             (@initialState Q _) in
  snd r = [HttpPost "/api/upload"; HttpPost "/api/reviews/r1/analyze"] /\
  reviewId (fst r) = Some "r1" /\
  pdfUrl (fst r) = Some "/api/reviews/r1/pdf" /\
  selectedReviewer (fst r) = Some "novelty_reviewer" /\
  reviewsThisMonth (fst r) = 1 /\
  loading (fst r) = false.
Proof. vm_compute. repeat split. Qed.

Lemma clickComment_navigates_witness :
  (currentPage (fst (clickComment sample_comment sample_state)) = 3 /\
   activeHighlight (fst (clickComment sample_comment sample_state)) = Some 2) /\
  currentPage (fst (clickComment sample_comment_page_only sample_state)) = 4.
Proof.
  split.
  - pose proof (proj1 (clickComment_navigates sample_comment sample_state)
                  {| hr_id := 2; hr_page := 3 |} [ {| hr_id := 1; hr_page := 2 |} ]
                  eq_refl) as (Hpage & Hactive & _).
    exact (conj Hpage Hactive).
  - refine (proj1 (proj2 (clickComment_navigates sample_comment_page_only sample_state)
                     4 (or_intror eq_refl) eq_refl _)).
    discriminate.
Defined.

Lemma clickCitation_unresolved_witness :
  clickCitation sample_comment sample_citation_unresolved sample_state
  = Returned (sample_state, []).
Proof.
  exact (proj1 (clickCitation_unresolved sample_comment sample_citation_unresolved
                  sample_state eq_refl)).
Defined.

(** An anchored citation does navigate: page 2, highlight 1 active. *)
Example clickCitation_anchored :
  clickCitation sample_comment sample_citation_anchored (setCurrentPage 5 sample_state)
  = Returned (setActiveHighlight (Some 1) sample_state,
              [SetTimeout ClearActiveHighlight 2000]).
Proof. reflexivity. Qed.

Lemma highlightsLayer_fractions_witness :
  o_left (overlayDiv sample_state 0 sample_highlight_p2)
    = Percent ((10 / 600) * 100)%Q /\
  o_height (overlayDiv sample_state 0 sample_highlight_p2)
    = Percent (((35 - 20) / 800) * 100)%Q.
Proof.
  pose proof (proj1 (proj2 (proj2 (highlightsLayer_fractions sample_state)))
                (overlayDiv sample_state 0 sample_highlight_p2) (or_introl eq_refl))
    as (_ & Hleft & _ & _ & Hheight).
  exact (conj Hleft Hheight).
Defined.

(** The overlays of the sample review at page 2, at any zoom; none before
    the PDF has a URL. *)
Example renderedOverlays_sample :
  renderedOverlays (zoomIn (zoomIn sample_state))
  = [overlayDiv sample_state 0 sample_highlight_p2] /\
  renderedOverlays (setPdfUrl None sample_state) = [].
Proof. split; reflexivity. Qed.

Lemma reviewerList_fixed_order_witness :
  List.map ri_key (reviewerList sample_state) = persona_order /\
  reviewerList (withReviewers sample_reviewers sample_state)
  = reviewerList (withReviewers (rev sample_reviewers) sample_state).
Proof.
  split.
  - exact (proj1 (reviewerList_fixed_order sample_state)).
  - apply (proj2 (proj2 (reviewerList_fixed_order sample_state))).
    + apply (bool_decide_unpack _). vm_compute. exact I.
    + apply Permutation_rev.
Defined.

(** Who completed is read off by type, not by position. *)
Example reviewerList_sample :
  List.map (fun i => (ri_key i, ri_isCompleted i, ri_commentCount i))
           (reviewerList sample_state)
  = [("editor_overview", false, 0%nat); ("methodology_reviewer", true, 1%nat);
     ("novelty_reviewer", true, 0%nat); ("clarity_reviewer", false, 1%nat);
     ("reproducibility_reviewer", false, 0%nat)].
Proof. reflexivity. Qed.

End ClientProperties.

(** ** Properties of the usage counters *)

Module UsageProperties.
Import Usage.

(** [k] calls of [increment_usage] in a row, within one month. *)
Fixpoint increment_times (k : nat) (current_month p_user_id : string)
    (db : Database) : SqlResult Database :=
  match k with
  | O => SqlOk db
  | S k' =>
      match increment_times k' current_month p_user_id db with
      | SqlOk db' => increment_usage current_month p_user_id db'
      | SqlError e => SqlError e
      end
  end.

(** A database with one user and no usage row, and the same database with
    that user's counter for November 2026 at the largest [INTEGER]. *)
Definition fresh_db : Database :=
  {| auth_users := {[ "7f9c24e8" ]}; usage := ∅ |}.

Definition full_db : Database :=
  {| auth_users := {[ "7f9c24e8" ]};
     usage := {[ ("7f9c24e8", "2026-11") := Some INT4_MAX ]} |}.

(** The same with a [NULL] counter (the column is nullable). *)
Definition null_db : Database :=
  {| auth_users := {[ "7f9c24e8" ]};
     usage := {[ ("7f9c24e8", "2026-11") := None ]} |}.

Lemma get_monthly_usage_lookup (m u : string) (db : Database) :
  get_monthly_usage m u db =
  match usage db !! (u, m) with
  | Some (Some n) => n
  | _ => 0
  end.
Proof.
  unfold get_monthly_usage. destruct (usage db !! (u, m)) as [[n|]|]; reflexivity.
Qed.

(** [get_monthly_usage] returns 0 when there is no row for the user and
    month. *)
Lemma get_monthly_usage_no_row (m u : string) (db : Database) :
  usage db !! (u, m) = None -> get_monthly_usage m u db = 0.
Proof. intros E. rewrite get_monthly_usage_lookup, E. reflexivity. Qed.

(** The first increment of a month creates the row with count 1. *)
Lemma increment_usage_creates_row (m u : string) (db : Database) :
  u ∈ auth_users db -> usage db !! (u, m) = None ->
  increment_usage m u db =
  SqlOk {| auth_users := auth_users db; usage := <[(u, m) := Some 1]> (usage db) |}.
Proof.
  intros Hu E. unfold increment_usage. rewrite E.
  rewrite bool_decide_eq_true_2 by assumption. reflexivity.
Qed.

(** An increment keeps the schema's constraints. *)
Lemma increment_usage_constraints (m u : string) (db db' : Database) :
  db_constraints db -> increment_usage m u db = SqlOk db' -> db_constraints db'.
Proof.
  intros [Hfk Hrange] Hinc. unfold increment_usage in Hinc.
  destruct (usage db !! (u, m)) as [rc|] eqn:E.
  - unfold int4pl in Hinc. destruct rc as [n|].
    + destruct ((INT4_MIN <=? n + 1) && (n + 1 <=? INT4_MAX)) eqn:Hr; [|discriminate].
      injection Hinc as <-. apply andb_true_iff in Hr as [H1 H2].
      apply Z.leb_le in H1, H2. split; simpl.
      * intros u' m' rc'. rewrite lookup_insert.
        case_decide as Hk; [injection Hk as <- <-; intros _; eauto | eauto].
      * intros k rc'. rewrite lookup_insert.
        case_decide; [intros [= <-]; simpl; lia | eauto].
    + injection Hinc as <-. split; simpl.
      * intros u' m' rc'. rewrite lookup_insert.
        case_decide as Hk; [injection Hk as <- <-; intros _; eauto | eauto].
      * intros k rc'. rewrite lookup_insert.
        case_decide; [intros [= <-]; exact I | eauto].
  - case_bool_decide as Hu; [|discriminate]. injection Hinc as <-. split; simpl.
    + intros u' m' rc'. rewrite lookup_insert.
      case_decide as Hk; [injection Hk as <- <-; intros _; exact Hu | eauto].
    + intros k rc'. rewrite lookup_insert.
      case_decide; [intros [= <-]; simpl; unfold INT4_MIN, INT4_MAX; lia | eauto].
Qed.

(** An increment touches no other user and no other month. *)
Lemma increment_usage_frame (m u m' u' : string) (db db' : Database) :
  (u', m') <> (u, m) -> increment_usage m u db = SqlOk db' ->
  get_monthly_usage m' u' db' = get_monthly_usage m' u' db.
Proof.
  intros Hne Hinc. rewrite !get_monthly_usage_lookup.
  unfold increment_usage in Hinc.
  destruct (usage db !! (u, m)) as [rc|].
  - destruct (int4pl rc 1); [|discriminate]. injection Hinc as <-. simpl.
    now rewrite lookup_insert_ne by congruence.
  - case_bool_decide; [|discriminate]. injection Hinc as <-. simpl.
    now rewrite lookup_insert_ne by congruence.
Qed.

(** C10, as the code has it: for every existing user and every month, if
    the stored counter of that user and month is absent, or is a number
    below 2147483647, then [increment_usage] succeeds and [get_monthly_usage]
    afterwards returns exactly one more than before; without a row it
    returned 0 before and the row is created with count 1. *)
Theorem increment_then_get_monthly_usage (m u : string) (db : Database) :
  db_constraints db ->
  u ∈ auth_users db ->
  (forall rc, usage db !! (u, m) = Some rc -> exists n, rc = Some n /\ n < INT4_MAX) ->
  exists db',
    increment_usage m u db = SqlOk db' /\
    after_increment_usage m u db = db' /\
    get_monthly_usage m u db' = get_monthly_usage m u db + 1 /\
    (usage db !! (u, m) = None ->
     get_monthly_usage m u db = 0 /\ usage db' !! (u, m) = Some (Some 1)).
Proof.
  intros [_ Hrange] Hu Hrow. unfold after_increment_usage.
  destruct (usage db !! (u, m)) as [rc|] eqn:E.
  - destruct (Hrow rc eq_refl) as (n & -> & Hn).
    pose proof (Hrange _ _ E) as Hn'. simpl in Hn'.
    unfold increment_usage. rewrite E. unfold int4pl.
    assert (Hr : (INT4_MIN <=? n + 1) && (n + 1 <=? INT4_MAX) = true).
    { apply andb_true_iff. split; apply Z.leb_le; lia. }
    rewrite Hr. eexists. split; [reflexivity|]. split; [reflexivity|].
    rewrite !get_monthly_usage_lookup. simpl. rewrite lookup_insert_eq, E.
    split; [reflexivity | discriminate].
  - rewrite (increment_usage_creates_row m u db Hu E).
    eexists. split; [reflexivity|]. split; [reflexivity|].
    rewrite !get_monthly_usage_lookup. simpl. rewrite lookup_insert_eq, E.
    split; [reflexivity | intros _; split; reflexivity].
Qed.

Lemma sample_user_exists : "7f9c24e8" ∈ ({[ "7f9c24e8" ]} : gset string).
Proof. set_solver. Qed.

(** A [NULL] counter stays [NULL] under [review_count + 1], so the usage
    read back stays 0. *)
Lemma increment_usage_null_counter :
  increment_usage "2026-11" "7f9c24e8" null_db = SqlOk null_db /\
  get_monthly_usage "2026-11" "7f9c24e8" null_db = 0.
Proof.
  split; [|reflexivity].
  unfold increment_usage, null_db. simpl. rewrite lookup_singleton_eq. simpl.
  now rewrite insert_singleton_eq.
Qed.

(** Counting up from a missing row: after [k] calls the counter is [k], as
    long as [k] fits an [INTEGER]. *)
Lemma increment_times_counts (k : nat) (m u : string) (db : Database) :
  u ∈ auth_users db -> usage db !! (u, m) = None ->
  (1 <= k)%nat -> Z.of_nat k <= INT4_MAX ->
  increment_times k m u db =
  SqlOk {| auth_users := auth_users db;
           usage := <[(u, m) := Some (Z.of_nat k)]> (usage db) |}.
Proof.
  intros Hu E. induction k as [|k IH]; intros Hk Hmax; [lia|].
  destruct k as [|k].
  - simpl. now apply increment_usage_creates_row.
  - cbn [increment_times] in *. rewrite IH by lia.
    unfold increment_usage. cbn [usage auth_users].
    rewrite lookup_insert_eq. unfold int4pl.
    assert (Hr : (INT4_MIN <=? Z.of_nat (S k) + 1)
                 && (Z.of_nat (S k) + 1 <=? INT4_MAX) = true).
    { apply andb_true_iff. unfold INT4_MIN, INT4_MAX in *.
      split; apply Z.leb_le; lia. }
    rewrite Hr, insert_insert_eq. do 4 f_equal. lia.
Qed.

(** The full counter is what 2147483647 reviews in one month leave behind. *)
Lemma full_db_reachable :
  increment_times (Z.to_nat INT4_MAX) "2026-11" "7f9c24e8" fresh_db = SqlOk full_db.
Proof.
  rewrite increment_times_counts.
  - unfold full_db, fresh_db. cbn [usage auth_users].
    rewrite Z2Nat.id by (unfold INT4_MAX; lia). now rewrite insert_empty.
  - exact sample_user_exists.
  - apply lookup_empty.
  - unfold INT4_MAX. lia.
  - unfold INT4_MAX. lia.
Qed.

Lemma increment_usage_frame_witness :
  get_monthly_usage "2026-10" "7f9c24e8"
    {| auth_users := auth_users full_db;
       usage := <[("7f9c24e8", "2026-10") := Some 1]> (usage full_db) |}
  = get_monthly_usage "2026-10" "7f9c24e8" full_db + 1 /\
  get_monthly_usage "2026-11" "7f9c24e8"
    {| auth_users := auth_users full_db;
       usage := <[("7f9c24e8", "2026-10") := Some 1]> (usage full_db) |}
  = get_monthly_usage "2026-11" "7f9c24e8" full_db.
Proof.
  split.
  - rewrite !get_monthly_usage_lookup. cbn [usage]. rewrite lookup_insert_eq.
    unfold full_db. cbn [usage]. rewrite lookup_singleton_ne by discriminate.
    reflexivity.
  - apply (increment_usage_frame "2026-10" "7f9c24e8" "2026-11" "7f9c24e8" full_db).
    + discriminate.
    + apply increment_usage_creates_row; [exact sample_user_exists|].
      unfold full_db. cbn [usage]. apply lookup_singleton_ne. discriminate.
Defined.

Lemma increment_then_get_monthly_usage_witness :
  exists db',
    increment_usage "2026-11" "7f9c24e8" fresh_db = SqlOk db' /\
    after_increment_usage "2026-11" "7f9c24e8" fresh_db = db' /\
    get_monthly_usage "2026-11" "7f9c24e8" db'
      = get_monthly_usage "2026-11" "7f9c24e8" fresh_db + 1 /\
    (usage fresh_db !! ("7f9c24e8", "2026-11") = None ->
     get_monthly_usage "2026-11" "7f9c24e8" fresh_db = 0 /\
     usage db' !! ("7f9c24e8", "2026-11") = Some (Some 1)).
Proof.
  apply (increment_then_get_monthly_usage "2026-11" "7f9c24e8" fresh_db).
  - split; simpl; intros; rewrite lookup_empty in *; discriminate.
  - exact sample_user_exists.
  - simpl. intros rc Hrc. rewrite lookup_empty in Hrc. discriminate.
Defined.

(** C10 as stated fails at the largest [INTEGER]: the database satisfies the
    schema's constraints and the user exists, yet [review_count + 1] raises
    "integer out of range", the counter stays at 2147483647 and
    [get_monthly_usage] does not return one more. *)
Lemma increment_usage_overflow_counterexample :
  db_constraints full_db /\
  "7f9c24e8" ∈ auth_users full_db /\
  increment_usage "2026-11" "7f9c24e8" full_db = SqlError "integer out of range" /\
  get_monthly_usage "2026-11" "7f9c24e8" full_db = 2147483647 /\
  get_monthly_usage "2026-11" "7f9c24e8"
    (after_increment_usage "2026-11" "7f9c24e8" full_db)
  <> get_monthly_usage "2026-11" "7f9c24e8" full_db + 1.
Proof.
  assert (Hinc : increment_usage "2026-11" "7f9c24e8" full_db
                 = SqlError "integer out of range").
  { unfold increment_usage, full_db. cbn [usage auth_users].
    rewrite lookup_singleton_eq. reflexivity. }
  assert (Hget : get_monthly_usage "2026-11" "7f9c24e8" full_db = 2147483647).
  { rewrite get_monthly_usage_lookup. unfold full_db. cbn [usage].
    rewrite lookup_singleton_eq. reflexivity. }
  split; [|split; [|split; [|split]]].
  - split; unfold full_db; cbn [usage auth_users].
    + intros u m rc Hl. apply lookup_singleton_Some in Hl as [[= <- <-] _].
      exact sample_user_exists.
    + intros k rc Hl. apply lookup_singleton_Some in Hl as [_ <-].
      simpl. unfold INT4_MIN, INT4_MAX. lia.
  - exact sample_user_exists.
  - exact Hinc.
  - exact Hget.
  - unfold after_increment_usage. rewrite Hinc, Hget. lia.
Qed.

End UsageProperties.

(** ** Properties of the review core *)

Module CoreProperties.
Import Core.

(** *** Orchestrator *)

(** The five configured personas, and one run of them: the methodology task
    times out, the clarity task raises, the others complete. *)
Definition five_personas : list ReviewerPersona :=
  [ {| type := "editor_overview"; display_name := "Editor Overview" |};
    {| type := "methodology_reviewer"; display_name := "Methodology" |};
    {| type := "novelty_reviewer"; display_name := "Novelty" |};
    {| type := "clarity_reviewer"; display_name := "Clarity & Writing" |};
    {| type := "reproducibility_reviewer"; display_name := "Reproducibility" |} ].

Definition mixed_run (i : nat) : TaskBehaviour :=
  match i with
  | 1%nat => Finishes 90 (Completed "late" [])
  | 3%nat => Raises 12
  | _ => Finishes 40 (Completed "fine" [])
  end.

Definition failing_run (i : nat) : TaskBehaviour :=
  match i with
  | 0%nat => Finishes 10 (Failed "malformed output")
  | 1%nat => NeverFinishes
  | 2%nat => Raises 5
  | _ => Finishes 70 (Completed "too late" [])
  end.

(** The page of the specification's scenario: page 2, 600 by 800, holding
    the span "We report a 92% accuracy" (and a second line); page 1 has no
    extractable text. *)
Definition blank_page : PageGeometry :=
  {| page_index := 0; width := 600%Q; height := 800%Q; spans := [] |}.

Definition results_page : PageGeometry :=
  {| page_index := 1; width := 600%Q; height := 800%Q;
     spans := [ {| text := "We report a 92% accuracy";
                   x0 := 10%Q; y0 := 20%Q; x1 := 300%Q; y1 := 35%Q |};
                {| text := "on the held-out test set.";
                   x0 := 10%Q; y0 := 40%Q; x1 := 260%Q; y1 := 55%Q |} ] |}.

Definition sample_geometry : list PageGeometry := [blank_page; results_page].




(** Exact matching only. *)
Definition exact_policy : MatchPolicy :=
  {| approximate := false; threshold := 1%Q; similarity := fun _ _ => 0%Q;
     exact_pass_first := true |}.

(** One possible similarity: the best share of the quote's characters that
    agree with the text at some alignment. *)
Fixpoint agreement (a b : list ascii) : nat :=
  match a, b with
  | x :: a', y :: b' => ((if Ascii.eqb x y then 1 else 0) + agreement a' b')%nat
  | _, _ => 0%nat
  end.

Fixpoint best_agreement (nq txt : list ascii) : nat :=
  match txt with
  | [] => 0%nat
  | _ :: t => Nat.max (agreement nq txt) (best_agreement nq t)
  end.

Definition alignment_similarity (nq txt : list ascii) : Q :=
  (Z.of_nat (best_agreement nq txt) # Pos.of_nat (List.length nq))%Q.

Definition approximate_policy (threshold : Q) : MatchPolicy :=
  {| approximate := true; threshold := threshold; similarity := alignment_similarity;
     exact_pass_first := true |}.


Definition accuracy_comment : ParsedComment :=
  {| pc_title := "Accuracy"; pc_content := "No confidence interval is given.";
     pc_severity := "major";
     pc_citations := [ {| pc_quote := "92% accuracy"; pc_page_hint := Some 2%nat |};
                       {| pc_quote := "as shown in prior work"; pc_page_hint := None |};
                       {| pc_quote := "Accuracy  on the HELD-OUT"; pc_page_hint := None |} ] |}.

Definition misquoting_comment : ParsedComment :=
  {| pc_title := "Accuracy"; pc_content := "The figure is not 91%.";
     pc_severity := "minor";
     pc_citations := [ {| pc_quote := "91% accuracy"; pc_page_hint := Some 2%nat |} ] |}.








Definition sample_reviewer_results : list ReviewerResult :=
  [ {| r_type := "methodology_reviewer"; status := completed; summary := "Sound.";
       r_comments := [accuracy_comment]; reason := None |};
    {| r_type := "novelty_reviewer"; status := failed; summary := "";
       r_comments := []; reason := Some "timeout" |};
    {| r_type := "clarity_reviewer"; status := completed; summary := "Clear.";
       r_comments := [accuracy_comment; accuracy_comment]; reason := None |} ].

Lemma lookup_map {A B : Type} (f : A -> B) (l : list A) (i : nat) :
  List.map f l !! i = f <$> (l !! i).
Proof.
  revert i. induction l as [|a l IH]; intros [|i]; simpl; try reflexivity. apply IH.
Qed.

Section Orchestrator.
Variable timeout : nat.
Variable personas : list ReviewerPersona.
Variable behaviour : nat -> TaskBehaviour.

Let step (slots : list ReviewerResult) (i : nat) : list ReviewerResult :=
  match personas !! i with
  | Some p => <[i := settle timeout p (behaviour i)]> slots
  | None => slots
  end.

Lemma step_length (slots : list ReviewerResult) (i : nat) :
  List.length (step slots i) = List.length slots.
Proof. unfold step. destruct (personas !! i); [apply length_insert | reflexivity]. Qed.

(** A slot is written by its own task only, and always with the same value. *)
Lemma fold_step_lookup (order : list nat) (slots : list ReviewerResult)
    (i : nat) (p : ReviewerPersona) :
  List.length slots = List.length personas ->
  personas !! i = Some p ->
  fold_left step order slots !! i =
  if bool_decide (i ∈ order) then Some (settle timeout p (behaviour i))
  else slots !! i.
Proof.
  revert slots. induction order as [|j order IH]; intros slots Hlen Hp.
  - cbn [fold_left]. rewrite bool_decide_eq_false_2 by set_solver. reflexivity.
  - cbn [fold_left]. rewrite IH by (rewrite ?step_length; assumption).
    assert (Hi : (i < List.length slots)%nat).
    { rewrite Hlen. eapply lookup_lt_Some. exact Hp. }
    destruct (decide (i ∈ order)) as [Hin|Hnin].
    + rewrite !bool_decide_eq_true_2 by set_solver. reflexivity.
    + rewrite (bool_decide_eq_false_2 (i ∈ order)) by assumption.
      destruct (decide (j = i)) as [->|Hne].
      * rewrite bool_decide_eq_true_2 by set_solver.
        unfold step. rewrite Hp. now apply list_lookup_insert_eq.
      * rewrite bool_decide_eq_false_2
          by (rewrite elem_of_cons; intros [?|?]; congruence).
        unfold step. destruct (personas !! j); [|reflexivity].
        now apply list_lookup_insert_ne.
Qed.

Lemma collect_length (order : list nat) :
  List.length (collect timeout personas behaviour order) = List.length personas.
Proof.
  unfold collect. fold step.
  assert (G : forall slots, List.length (fold_left step order slots) = List.length slots).
  { induction order as [|j order' IH]; intros slots; simpl; [reflexivity|].
    rewrite IH. apply step_length. }
  rewrite G. apply length_map.
Qed.

Lemma collect_lookup (order : list nat) (i : nat) (p : ReviewerPersona) :
  personas !! i = Some p ->
  collect timeout personas behaviour order !! i =
  Some (if bool_decide (i ∈ order) then settle timeout p (behaviour i)
        else pending_result p).
Proof.
  intros Hp. unfold collect. fold step.
  rewrite (fold_step_lookup order _ i p) by (rewrite ?length_map; auto).
  rewrite lookup_map, Hp. simpl. now destruct (bool_decide (i ∈ order)).
Qed.

(** Once every task has reached its terminal state the slots are the
    settled results, in persona order, whatever the completion order was. *)
Lemma collect_complete (order : list nat) :
  (forall i, (i < List.length personas)%nat -> In i order) ->
  collect timeout personas behaviour order =
  imap (fun i p => settle timeout p (behaviour i)) personas.
Proof.
  intros Hall. apply list_eq. intros i. rewrite list_lookup_imap.
  destruct (personas !! i) as [p|] eqn:Hp; simpl.
  - rewrite (collect_lookup order i p Hp).
    rewrite bool_decide_eq_true_2; [reflexivity|].
    apply list_elem_of_In, Hall. eapply lookup_lt_Some. exact Hp.
  - apply lookup_ge_None. rewrite collect_length. now apply lookup_ge_None.
Qed.

Lemma settle_terminal (p : ReviewerPersona) (b : TaskBehaviour) :
  status (settle timeout p b) = completed \/ status (settle timeout p b) = failed.
Proof.
  unfold settle. destruct b as [elapsed [s cs|why]|elapsed|];
    try destruct (timeout <? elapsed)%nat; simpl; auto.
Qed.

Lemma settle_type (p : ReviewerPersona) (b : TaskBehaviour) :
  r_type (settle timeout p b) = type p.
Proof.
  unfold settle. destruct b as [elapsed [s cs|why]|elapsed|];
    try destruct (timeout <? elapsed)%nat; reflexivity.
Qed.

(** While some task is still running there is no result yet. *)
Lemma join_waits (order : list nat) (i : nat) :
  (i < List.length personas)%nat -> ~ In i order ->
  join timeout personas behaviour order = None.
Proof.
  intros Hi Hnin. unfold join.
  destruct (forallb is_terminal (collect timeout personas behaviour order)) eqn:E;
    [|reflexivity].
  exfalso. destruct (lookup_lt_is_Some_2 personas i Hi) as [p Hp].
  pose proof (collect_lookup order i p Hp) as Hl.
  rewrite bool_decide_eq_false_2 in Hl by (now rewrite list_elem_of_In).
  rewrite forallb_forall in E.
  assert (Hin : In (pending_result p) (collect timeout personas behaviour order)).
  { apply list_elem_of_In, list_elem_of_lookup. eauto. }
  specialize (E _ Hin). discriminate E.
Qed.

(** Whatever the order in which the tasks finish, once all have finished
    the report is the same: the settled results in persona order, and
    success exactly when one of them is completed. *)
Lemma join_complete (order : list nat) :
  (forall i, (i < List.length personas)%nat -> In i order) ->
  join timeout personas behaviour order =
  Some {| results := imap (fun i p => settle timeout p (behaviour i)) personas;
          succeeded := existsb is_completed
                         (imap (fun i p => settle timeout p (behaviour i)) personas) |}.
Proof.
  intros Hall. unfold join. rewrite (collect_complete order Hall).
  replace (forallb is_terminal _) with true; [reflexivity|].
  symmetry. apply forallb_forall. intros r Hr.
  apply list_elem_of_In, elem_of_lookup_imap in Hr as (i & p & -> & _).
  unfold is_terminal. destruct (settle_terminal p (behaviour i)) as [-> | ->]; reflexivity.
Qed.

Lemma In_insert_by (key : nat -> nat) (x i : nat) (l : list nat) :
  In i (insert_by key x l) <-> i = x \/ In i l.
Proof.
  induction l as [|y r IH]; simpl; [intuition congruence|].
  destruct (key x <=? key y)%nat; simpl; [intuition congruence|].
  rewrite IH. intuition congruence.
Qed.

Lemma In_sort_by (key : nat -> nat) (i : nat) (l : list nat) :
  In i (sort_by key l) <-> In i l.
Proof.
  induction l as [|x l IH]; simpl; [reflexivity|].
  rewrite In_insert_by, IH. intuition congruence.
Qed.

(** Every task reaches its terminal state: the timeout sees to it. *)
Lemma completion_order_complete (i : nat) :
  (i < List.length personas)%nat ->
  In i (completion_order timeout behaviour (List.length personas)).
Proof.
  intros Hi. unfold completion_order. apply In_sort_by, in_seq. lia.
Qed.

(** C1: [run_all] over [N] reviewer tasks hands back all [N] results, each
    [completed] or [failed], in persona order, each being what its own task
    settled to; and the run is reported successful if and only if at least
    one result is [completed], so it is reported failed exactly when none
    is. *)
Theorem run_all_success_iff_some_completed :
  exists report,
    run_all timeout personas behaviour = Some report /\
    List.length (results report) = List.length personas /\
    List.map r_type (results report) = List.map type personas /\
    (forall i p, personas !! i = Some p ->
                 results report !! i = Some (settle timeout p (behaviour i))) /\
    (forall r, In r (results report) -> status r = completed \/ status r = failed) /\
    (succeeded report = true <->
     exists r, In r (results report) /\ status r = completed) /\
    (succeeded report = false <->
     forall r, In r (results report) -> status r <> completed).
Proof.
  unfold run_all. rewrite (join_complete _ completion_order_complete).
  eexists. split; [reflexivity|]. cbn [results succeeded].
  set (slots := imap (fun i p => settle timeout p (behaviour i)) personas).
  assert (Hlook : forall i p, personas !! i = Some p ->
            slots !! i = Some (settle timeout p (behaviour i))).
  { intros i p Hp. unfold slots. rewrite list_lookup_imap, Hp. reflexivity. }
  assert (Hterm : forall r, In r slots -> status r = completed \/ status r = failed).
  { intros r Hr. apply list_elem_of_In, elem_of_lookup_imap in Hr as (i & p & -> & _).
    apply settle_terminal. }
  assert (Hcompl : forall r, is_completed r = true <-> status r = completed).
  { intros r. unfold is_completed. destruct (status r); split; congruence. }
  split; [apply length_imap|].
  split.
  { apply list_eq. intros i. rewrite !lookup_map. unfold slots.
    rewrite list_lookup_imap. destruct (personas !! i) as [p|]; simpl; [|reflexivity].
    now rewrite settle_type. }
  split; [exact Hlook|]. split; [exact Hterm|]. split.
  - rewrite existsb_exists. split; intros (r & Hr & Hs); exists r; split; auto;
      now apply Hcompl.
  - split.
    + intros Hf r Hr Hs. apply not_true_iff_false in Hf. apply Hf.
      apply existsb_exists. exists r. split; [assumption | now apply Hcompl].
    + intros Hnone. apply not_true_iff_false. intros He.
      apply existsb_exists in He as (r & Hr & Hs).
      apply (Hnone r Hr). now apply Hcompl.
Qed.

End Orchestrator.

(** *** Citation resolver *)


Lemma approx_windows_In (n i j : nat) :
  In (i, j) (approx_windows n) <-> (i <= j < n)%nat.
Proof.
  unfold approx_windows. rewrite in_flat_map. split.
  - intros (i' & Hi & Hin). apply in_seq in Hi.
    apply in_map_iff in Hin as (j' & [= <- <-] & Hj). apply in_seq in Hj. lia.
  - intros Hij. exists i. split; [apply in_seq; lia|].
    apply in_map_iff. exists j. split; [reflexivity|]. apply in_seq. lia.
Qed.





(** A quote that is not blank can only be found on a page with spans. *)
Lemma contains_nonempty_spans (nq : list ascii) (pg : PageGeometry) :
  nq <> [] -> contains nq (page_text pg) = true -> spans pg <> [].
Proof.
  intros Hnq Hc Hs. unfold page_text in Hc. rewrite Hs in Hc.
  destruct nq; [congruence | discriminate Hc].
Qed.



(** A citation's hint is in range when it names a page of the geometry. *)
Definition hint_in_range (geometry : list PageGeometry) (c : ParsedCitation) : Prop :=
  forall hint, pc_page_hint c = Some hint ->
               exists pg, In pg geometry /\ page_number pg = hint.






Section Resolver.
Variable policy : MatchPolicy.
Variable geometry : list PageGeometry.

Lemma hinted_page_found (hint : nat) :
  (exists pg, In pg geometry /\ page_number pg = hint) ->
  exists hinted,
    List.find (fun pg => (page_number pg =? hint)%nat) geometry = Some hinted /\
    In hinted geometry /\ page_number hinted = hint.
Proof.
  intros (pg & Hin & Hnum).
  destruct (List.find _ geometry) as [hinted|] eqn:Hf.
  - apply find_some in Hf as [Hin' Heq]. apply Nat.eqb_eq in Heq. eauto.
  - pose proof (find_none _ _ Hf pg Hin) as Hne. cbv beta in Hne.
    apply Nat.eqb_neq in Hne. contradiction.
Qed.

(** With hints in range the resolver does not raise. *)
Lemma locate_total (c : ParsedCitation) :
  hint_in_range geometry c -> exists found, locate policy geometry c = Ok found.
Proof.
  intros Hr. unfold locate. destruct (pc_page_hint c) as [hint|] eqn:Hh; [|eauto].
  destruct (hinted_page_found hint (Hr hint Hh)) as (hinted & -> & _). eauto.
Qed.

(** A hint that names no page makes the resolver raise. *)
Lemma locate_out_of_range (c : ParsedCitation) (hint : nat) :
  pc_page_hint c = Some hint ->
  (forall pg, In pg geometry -> page_number pg <> hint) ->
  locate policy geometry c = Raise (GeometryUnavailable hint).
Proof.
  intros Hh Hnone. unfold locate. rewrite Hh.
  destruct (List.find _ geometry) as [hinted|] eqn:Hf; [|reflexivity].
  apply find_some in Hf as [Hin Heq]. apply Nat.eqb_eq in Heq.
  now destruct (Hnone hinted Hin).
Qed.


Variable cid : nat.




Lemma resolve_citations_total (cs : list ParsedCitation) :
  (forall c, In c cs -> hint_in_range geometry c) ->
  forall next, exists res, resolve_citations policy geometry cid next cs = Ok res.
Proof.
  induction cs as [|c cs IH]; intros Hr next; simpl; [eauto|].
  destruct (locate_total c (Hr c (or_introl eq_refl))) as [found ->].
  assert (Hr' : forall c', In c' cs -> hint_in_range geometry c') by (intros; apply Hr; now right).
  destruct found as [[pg b]|].
  - destruct (IH Hr' (S next)) as [[[cits hs] n] ->]. eauto.
  - destruct (IH Hr' next) as [[[cits hs] n] ->]. eauto.
Qed.

(** The ids handed out are the counter values from [next] up to [next'],
    each once, and every highlight is linked to the comment. *)
Lemma resolve_citations_ids (cs : list ParsedCitation) :
  forall next cits hs next',
    resolve_citations policy geometry cid next cs = Ok (cits, hs, next') ->
    (next <= next')%nat /\
    (forall h, In h hs -> (next <= h_id h < next')%nat /\ comment_id h = cid) /\
    (forall cit hid, In cit cits -> highlight_id cit = Some hid ->
                     exists h, In h hs /\ h_id h = hid) /\
    List.NoDup (List.map h_id hs).
Proof.
  induction cs as [|c cs IH]; intros next cits hs next'; simpl.
  - intros [= <- <- <-]. split; [lia|]. split; [intros h []|].
    split; [intros cit hid [] | constructor].
  - destruct (locate policy geometry c) as [[[pg b]|]|e]; [| |discriminate].
    + destruct (resolve_citations policy geometry cid (S next) cs)
        as [[[cits0 hs0] n0]|e] eqn:Hr; [|discriminate].
      intros [= <- <- <-]. destruct (IH _ _ _ _ Hr) as (Hle & Hhs & Hcits & Hnd).
      split; [lia|]. split; [|split].
      * intros h [<- | Hh]; [simpl; split; [lia | reflexivity]|].
        destruct (Hhs h Hh) as [Hb Hc]. split; [lia | assumption].
      * intros cit hid [<- | Hcit] Hid.
        -- simpl in Hid. injection Hid as <-.
           eexists. split; [now left | reflexivity].
        -- destruct (Hcits cit hid Hcit Hid) as (h & Hh & Hhid).
           exists h. split; [now right | assumption].
      * simpl. constructor; [|assumption].
        intros Hin. apply in_map_iff in Hin as (h & Heq & Hh).
        destruct (Hhs h Hh) as [Hb _]. lia.
    + destruct (resolve_citations policy geometry cid next cs)
        as [[[cits0 hs0] n0]|e] eqn:Hr; [|discriminate].
      intros [= <- <- <-]. destruct (IH _ _ _ _ Hr) as (Hle & Hhs & Hcits & Hnd).
      repeat split; try assumption; try (now apply Hhs).
      intros cit hid [<- | Hcit] Hid; [discriminate Hid | eauto].
Qed.

End Resolver.


(** *** Aggregator *)

(** No dangling reference between comments and highlights. *)
Definition consistent (cs : list Comment) (hs : list Highlight) : Prop :=
  (forall h, In h hs -> exists c, In c cs /\ id c = comment_id h) /\
  (forall c cit hid,
      In c cs -> In cit (citations c) -> highlight_id cit = Some hid ->
      exists h, In h hs /\ h_id h = hid /\ comment_id h = id c).

(** What holds of the aggregate while it is being built. *)
Definition well_formed (st : AggState) : Prop :=
  consistent (acc_comments st) (acc_highlights st) /\
  (forall c, In c (acc_comments st) -> (id c < next_comment_id st)%nat) /\
  (forall h, In h (acc_highlights st) -> (h_id h < next_highlight_id st)%nat) /\
  List.NoDup (List.map id (acc_comments st)) /\
  List.NoDup (List.map h_id (acc_highlights st)).

Lemma initial_state_well_formed : well_formed initial_state.
Proof.
  unfold well_formed, consistent, initial_state. simpl.
  split; [split; [intros h [] | intros c cit hid []]|].
  split; [intros c []|]. split; [intros h []|]. split; constructor.
Qed.

Lemma NoDup_app_fresh {A : Type} (l k : list A) :
  List.NoDup l -> List.NoDup k -> (forall x, In x l -> ~ In x k) ->
  List.NoDup (l ++ k).
Proof.
  intros Hl Hk Hd. induction l as [|a l IH]; simpl; [assumption|].
  inversion Hl as [|? ? Ha Hl']; subst. constructor.
  - intros Hin. apply in_app_or in Hin as [Hin | Hin]; [contradiction|].
    apply (Hd a); [now left | assumption].
  - apply IH; [assumption|]. intros x Hx. apply Hd. now right.
Qed.

Section Aggregator.
Variable policy : MatchPolicy.
Variable geometry : list PageGeometry.

Lemma add_comment_well_formed (rtype : string) (st st' : AggState)
    (comment : ParsedComment) :
  well_formed st -> add_comment policy geometry rtype st comment = Ok st' ->
  well_formed st'.
Proof.
  intros ((Hh & Hc) & Hcid & Hhid & Hndc & Hndh). unfold add_comment, resolve.
  destruct (resolve_citations policy geometry (next_comment_id st)
              (next_highlight_id st) (pc_citations comment))
    as [[[cits hs] next']|e] eqn:Hr; [|discriminate].
  intros [= <-].
  destruct (resolve_citations_ids policy geometry _ _ _ _ _ _ Hr)
    as (Hle & Hnew & Hcits & Hnd).
  unfold well_formed, consistent. cbn [acc_comments acc_highlights
    next_comment_id next_highlight_id].
  split; [split|split; [|split; [|split]]].
  - intros h Hin. apply in_app_or in Hin as [Hin | Hin].
    + destruct (Hh h Hin) as (c & Hcin & Hceq).
      exists c. split; [apply in_or_app; now left | assumption].
    + destruct (Hnew h Hin) as [_ Hlink].
      eexists. split; [apply in_or_app; right; now left|]. simpl. now rewrite Hlink.
  - intros c cit hid Hin Hcit Hid. apply in_app_or in Hin as [Hin | [<- | []]].
    + destruct (Hc c cit hid Hin Hcit Hid) as (h & Hhin & Hheq & Hlink).
      exists h. split; [apply in_or_app; now left | auto].
    + simpl in Hcit. destruct (Hcits cit hid Hcit Hid) as (h & Hhin & Hheq).
      exists h. split; [apply in_or_app; now right|]. split; [assumption|].
      simpl. now destruct (Hnew h Hhin).
  - intros c Hin. apply in_app_or in Hin as [Hin | [<- | []]].
    + specialize (Hcid c Hin). lia.
    + simpl. lia.
  - intros h Hin. apply in_app_or in Hin as [Hin | Hin].
    + specialize (Hhid h Hin). lia.
    + destruct (Hnew h Hin) as [Hb _]. lia.
  - rewrite map_app. apply NoDup_app_fresh; [assumption | repeat constructor; intros [] |].
    intros x Hx [<- | []]. apply in_map_iff in Hx as (c & Heq & Hin).
    specialize (Hcid c Hin). simpl in Heq. lia.
  - rewrite map_app. apply NoDup_app_fresh; [assumption | assumption |].
    intros x Hx Hx'. apply in_map_iff in Hx as (h & <- & Hin).
    apply in_map_iff in Hx' as (h' & Heq & Hin').
    specialize (Hhid h Hin). destruct (Hnew h' Hin') as [Hb _]. lia.
Qed.

Lemma add_comments_well_formed (rtype : string) (cs : list ParsedComment) :
  forall st st', well_formed st ->
                 add_comments policy geometry rtype st cs = Ok st' -> well_formed st'.
Proof.
  induction cs as [|c cs IH]; intros st st' Hwf; simpl.
  - now intros [= <-].
  - destruct (add_comment policy geometry rtype st c) as [st1|e] eqn:E; [|discriminate].
    apply IH. eapply add_comment_well_formed; eassumption.
Qed.

Lemma add_reviewers_well_formed (rs : list ReviewerResult) :
  forall st st', well_formed st ->
                 add_reviewers policy geometry st rs = Ok st' -> well_formed st'.
Proof.
  induction rs as [|r rs IH]; intros st st' Hwf; simpl.
  - now intros [= <-].
  - destruct (add_comments policy geometry (r_type r) st (r_comments r))
      as [st1|e] eqn:E; [|discriminate].
    apply IH. eapply add_comments_well_formed; eassumption.
Qed.

(** C2: in every [ReviewResult] that [build] produces, each highlight's
    [comment_id] is the id of a comment of the result, and each non-null
    [highlight_id] of a citation is the id of a highlight of the result, one
    that is linked back to the citation's own comment; comment ids and
    highlight ids are unique within the result. *)
Theorem build_no_dangling_references (review_id review_title : string)
    (reviewer_results : list ReviewerResult) (result : ReviewResult) :
  build policy review_id review_title reviewer_results geometry = Ok result ->
  (forall h, In h (highlights result) ->
             exists c, In c (comments result) /\ id c = comment_id h) /\
  (forall c cit hid,
      In c (comments result) -> In cit (citations c) ->
      highlight_id cit = Some hid ->
      exists h, In h (highlights result) /\ h_id h = hid /\ comment_id h = id c) /\
  List.NoDup (List.map id (comments result)) /\
  List.NoDup (List.map h_id (highlights result)).
Proof.
  unfold build.
  destruct (add_reviewers policy geometry initial_state reviewer_results)
    as [st|e] eqn:E; [|discriminate].
  intros [= <-]. cbn [comments highlights].
  destruct (add_reviewers_well_formed _ _ _ initial_state_well_formed E)
    as ((Hh & Hc) & _ & _ & Hndc & Hndh).
  auto.
Qed.

(** With every hint in range [build] produces a result. *)
Lemma build_total (review_id review_title : string)
    (reviewer_results : list ReviewerResult) :
  (forall r comment c,
      In r reviewer_results -> In comment (r_comments r) ->
      In c (pc_citations comment) -> hint_in_range geometry c) ->
  exists result,
    build policy review_id review_title reviewer_results geometry = Ok result.
Proof.
  intros Hhints. unfold build.
  assert (Hcs : forall rtype cs st,
            (forall comment c, In comment cs -> In c (pc_citations comment) ->
                               hint_in_range geometry c) ->
            exists st', add_comments policy geometry rtype st cs = Ok st').
  { intros rtype cs. induction cs as [|comment cs IH]; intros st Hr; simpl; [eauto|].
    unfold add_comment, resolve.
    destruct (resolve_citations_total policy geometry (next_comment_id st)
                (pc_citations comment) (fun c Hc => Hr comment c (or_introl eq_refl) Hc)
                (next_highlight_id st)) as [[[cits hs] next'] ->].
    apply IH. intros comment' c Hin. apply Hr. now right. }
  assert (Hrs : forall st, exists st',
            add_reviewers policy geometry st reviewer_results = Ok st').
  { induction reviewer_results as [|r rs IH]; intros st; simpl; [eauto|].
    destruct (Hcs (r_type r) (r_comments r) st) as [st1 ->].
    - intros comment c. apply Hhints. now left.
    - apply IH. intros r' comment c Hin. apply Hhints. now right. }
  destruct (Hrs initial_state) as [st ->]. eauto.
Qed.

End Aggregator.

(** The specification's scenario: the quote "92% accuracy" hinted at page 2
    is anchored on page 2 in the box of the span that holds it; the third
    quote spans two lines and gets the union of their boxes; the second is
    found nowhere. *)
Example resolve_scenario :
  resolve exact_policy sample_geometry 1 1 accuracy_comment =
  Ok ([ {| quote := "92% accuracy"; page_hint := Some 2%nat; highlight_id := Some 1%nat |};
        {| quote := "as shown in prior work"; page_hint := None; highlight_id := None |};
        {| quote := "Accuracy  on the HELD-OUT"; page_hint := None;
           highlight_id := Some 2%nat |} ],
      [ {| h_id := 1; h_page := 2; h_x0 := 10%Q; h_y0 := 20%Q; h_x1 := 300%Q;
           h_y1 := 35%Q; h_width := 600%Q; h_height := 800%Q; comment_id := 1 |};
        {| h_id := 2; h_page := 2; h_x0 := 10%Q; h_y0 := 20%Q; h_x1 := 300%Q;
           h_y1 := 55%Q; h_width := 600%Q; h_height := 800%Q; comment_id := 1 |} ],
      3%nat).
Proof. vm_compute. reflexivity. Qed.

(** One character off: resolved at threshold 0.8, not at 0.99, and never
    without approximate matching. *)
Example resolve_misquote :
  (exists hs next,
      resolve (approximate_policy 0.8%Q) sample_geometry 1 1 misquoting_comment
      = Ok ([ {| quote := "91% accuracy"; page_hint := Some 2%nat;
                 highlight_id := Some 1%nat |} ], hs, next)) /\
  resolve (approximate_policy 0.99%Q) sample_geometry 1 1 misquoting_comment
  = Ok ([ {| quote := "91% accuracy"; page_hint := Some 2%nat;
             highlight_id := None |} ], [], 1%nat) /\
  resolve exact_policy sample_geometry 1 1 misquoting_comment
  = Ok ([ {| quote := "91% accuracy"; page_hint := Some 2%nat;
             highlight_id := None |} ], [], 1%nat).
Proof. split; [do 2 eexists|split]; vm_compute; reflexivity. Qed.

(** A blank quote is a substring of every text, also of the text of a page
    without spans, where there is nothing to anchor it to. *)
Example resolve_blank_quote :
  contains (normalize "  ") (page_text blank_page) = true /\
  locate exact_policy [blank_page] {| pc_quote := "  "; pc_page_hint := None |}
  = Ok None.
Proof. split; reflexivity. Qed.



Lemma build_no_dangling_references_witness :
  exists result,
    build exact_policy "r1" "A paper" sample_reviewer_results sample_geometry = Ok result /\
    (forall h, In h (highlights result) ->
               exists c, In c (comments result) /\ id c = comment_id h) /\
    (forall c cit hid,
        In c (comments result) -> In cit (citations c) ->
        highlight_id cit = Some hid ->
        exists h, In h (highlights result) /\ h_id h = hid /\ comment_id h = id c) /\
    List.NoDup (List.map id (comments result)) /\
    List.NoDup (List.map h_id (highlights result)).
Proof.
  eexists. split; [vm_compute; reflexivity|].
  apply (build_no_dangling_references exact_policy sample_geometry "r1" "A paper"
           sample_reviewer_results).
  vm_compute. reflexivity.
Defined.

(** The aggregate of the sample run: three comments, six highlights. *)
Example build_sample :
  match build exact_policy "r1" "A paper" sample_reviewer_results sample_geometry with
  | Ok result =>
      List.map id (comments result) = [1; 2; 3]%nat /\
      List.map (fun h => (h_id h, comment_id h)) (highlights result)
      = [(1, 1); (2, 1); (3, 2); (4, 2); (5, 3); (6, 3)]%nat /\
      List.map (fun c => List.map highlight_id (citations c)) (comments result)
      = [ [Some 1; None; Some 2]; [Some 3; None; Some 4]; [Some 5; None; Some 6] ]%nat
  | Raise _ => False
  end.
Proof. vm_compute. repeat split. Qed.

(** Two of five tasks fail: five results in persona order, three completed,
    and the run succeeds.  All five fail: the run is reported failed. *)
Example run_all_two_of_five_fail :
  completion_order 60 mixed_run 5 = [3; 0; 2; 4; 1]%nat /\
  option_map (fun rep => (List.map status (results rep), succeeded rep))
             (run_all 60 five_personas mixed_run)
  = Some ([completed; failed; completed; failed; completed], true).
Proof. split; reflexivity. Qed.

Example run_all_all_fail :
  option_map (fun rep => (List.map status (results rep),
                          List.map reason (results rep), succeeded rep))
             (run_all 60 five_personas failing_run)
  = Some ([failed; failed; failed; failed; failed],
          [Some "malformed output"; Some "timeout"; Some "exception";
           Some "timeout"; Some "timeout"], false).
Proof. reflexivity. Qed.

(** Before the last task has finished there is no result. *)
Example join_not_yet :
  join 60 five_personas mixed_run [3; 0; 2]%nat = None.
Proof. reflexivity. Qed.

End CoreProperties.

(** ** More properties of the client *)

Module ScreenProperties.
Import Client ClientScreen.

Section Facts.
Context {num : Type} `{JsNumber num}.

(** *** Uploads *)

(** The effects of the request part of an upload start with the upload
    request. *)
Lemma uploadAndAnalyze_posts (countReviews : bool)
    (merge : UploadData -> AnalyzeData num -> ReviewData num)
    (server : Server num) (f : File) (s : AppState num) :
  exists rest, snd (uploadAndAnalyze countReviews merge server f s)
               = HttpPost uploadUrl :: rest.
Proof.
  unfold uploadAndAnalyze.
  destruct (post_upload server f) as [up|msg]; [|simpl; eauto].
  destruct (post_analyze server (up_id up)) as [an|msg]; simpl; eauto.
Qed.

(** The "Please upload a PDF file" alert is the whole outcome exactly when
    no file is given or the name does not end in ".pdf": a name that does
    always passes the guard. *)
Theorem handleFileUpload_alerts_iff_not_pdf (auth : AuthContext) (server : Server num)
    (file : option File) (s : AppState num) :
  snd (handleFileUpload auth server file s) = [Alert "Please upload a PDF file"] <->
  (file = None \/ exists f, file = Some f /\ ~ (exists pre, name f = pre ++ ".pdf")).
Proof.
  unfold handleFileUpload. destruct file as [f|]; [|split; [now left | reflexivity]].
  destruct (endsWith (name f) ".pdf") eqn:E; simpl.
  - split.
    + intros Heff. exfalso. destruct (canReview auth s); simpl in Heff; [|discriminate].
      destruct (uploadAndAnalyze_posts true mergeReviewData server f s) as [rest Hr].
      rewrite Hr in Heff. discriminate.
    + intros [Hn | (f' & [= <-] & Hnot)]; [discriminate|].
      exfalso. apply Hnot. now apply endsWith_spec.
  - split; [|reflexivity]. intros _. right. exists f. split; [reflexivity|].
    intros Hex. apply endsWith_spec in Hex. congruence.
Qed.

(** What an upload can do to the review and the monthly counter. *)
Lemma uploadAndAnalyze_cases (countReviews : bool)
    (merge : UploadData -> AnalyzeData num -> ReviewData num)
    (server : Server num) (f : File) (s : AppState num) :
  let r := uploadAndAnalyze countReviews merge server f s in
  loading (fst r) = false /\ loadingMessage (fst r) = "" /\
  ((exists up an,
       post_upload server f = Resolved up /\
       post_analyze server (up_id up) = Resolved an /\
       reviewData (fst r) = Some (merge up an) /\
       reviewId (fst r) = Some (up_id up) /\
       pdfUrl (fst r) = Some (pdfUrlOf (up_id up)) /\
       reviewsThisMonth (fst r)
       = (if countReviews then reviewsThisMonth s + 1 else reviewsThisMonth s) /\
       snd r = [HttpPost uploadUrl; HttpPost (analyzeUrl (up_id up))]) \/
   (reviewData (fst r) = reviewData s /\
    reviewsThisMonth (fst r) = reviewsThisMonth s /\
    selectedReviewer (fst r) = selectedReviewer s /\
    exists msg, In (Alert ("Error processing file: " ++ msg)) (snd r))).
Proof.
  unfold uploadAndAnalyze.
  destruct (post_upload server f) as [up|msg] eqn:Eu.
  - destruct (post_analyze server (up_id up)) as [an|msg] eqn:Ea.
    + cbn zeta. split; [reflexivity|]. split; [reflexivity|]. left.
      exists up, an. split; [reflexivity|]. split; [exact Ea|].
      unfold selectFirstReviewer.
      destruct (an_reviewers an) as [[|r0 rs]|]; destruct countReviews;
        simpl; repeat split.
    + simpl. repeat split. right. repeat split. exists msg. simpl. tauto.
  - simpl. repeat split. right. repeat split. exists msg. simpl. tauto.
Qed.

(** Whatever the server answers, [handleFileUpload] ends with the loading
    overlay off if it was off before, and the message cleared once a request
    was made. *)
Theorem handleFileUpload_ends_loading (auth : AuthContext) (server : Server num)
    (file : option File) (s : AppState num) :
  loading s = false ->
  loading (fst (handleFileUpload auth server file s)) = false /\
  loading (fst (handleFileUpload_App server file s)) = false /\
  ((exists url, In (HttpPost url) (snd (handleFileUpload auth server file s))) ->
   loadingMessage (fst (handleFileUpload auth server file s)) = "").
Proof.
  intros Hl.
  assert (Halert : forall st : AppState num,
            (exists url, In (HttpPost url) [Alert "Please upload a PDF file"]) ->
            loadingMessage st = "").
  { intros st [url [Hd | []]]. discriminate Hd. }
  unfold handleFileUpload, handleFileUpload_App.
  destruct file as [f|]; [|split; [exact Hl|]; split; [exact Hl|]; apply Halert].
  destruct (endsWith (name f) ".pdf"); cbn [negb];
    [|split; [exact Hl|]; split; [exact Hl|]; apply Halert].
  destruct (uploadAndAnalyze_cases true mergeReviewData server f s) as (L1 & M1 & _).
  destruct (uploadAndAnalyze_cases false mergeReviewData_App server f s) as (L2 & _).
  destruct (canReview auth s); cbn [negb].
  - split; [exact L1|]. split; [exact L2|]. intros _. exact M1.
  - split; [exact Hl|]. split; [exact L2|]. intros [url []].
Qed.

(** The two outcomes of [handleFileUpload] for the stored review and the
    counter. *)
Lemma handleFileUpload_counts_cases (auth : AuthContext)
    (server : Server num) (file : option File) (s : AppState num) :
  reviewsThisMonth (fst (handleFileUpload auth server file s)) = reviewsThisMonth s + 1 \/
  (reviewData (fst (handleFileUpload auth server file s)) = reviewData s /\
   reviewsThisMonth (fst (handleFileUpload auth server file s)) = reviewsThisMonth s).
Proof.
  unfold handleFileUpload. destruct file as [f|]; [|right; split; reflexivity].
  destruct (endsWith (name f) ".pdf"); cbn [negb]; [|right; split; reflexivity].
  destruct (canReview auth s); cbn [negb]; [|right; split; reflexivity].
  destruct (uploadAndAnalyze_cases true mergeReviewData server f s)
    as (_ & _ & [(up & an & _ & _ & _ & _ & _ & Hn & _) | (Hrd & Hn & _)]).
  - left. exact Hn.
  - right. split; assumption.
Qed.

(** The monthly counter goes up by one exactly when a new review is stored:
    then both requests were answered, the review is the merge of the two
    answers and exactly the two requests were made; in every other case
    neither the stored review nor the counter changes. *)
Theorem handleFileUpload_counts_stored_reviews (auth : AuthContext)
    (server : Server num) (file : option File) (s : AppState num) :
  let r := handleFileUpload auth server file s in
  (exists f up an,
      file = Some f /\
      post_upload server f = Resolved up /\
      post_analyze server (up_id up) = Resolved an /\
      reviewData (fst r) = Some (mergeReviewData up an) /\
      reviewId (fst r) = Some (up_id up) /\
      reviewsThisMonth (fst r) = reviewsThisMonth s + 1 /\
      snd r = [HttpPost uploadUrl; HttpPost (analyzeUrl (up_id up))]) \/
  (reviewData (fst r) = reviewData s /\
   reviewsThisMonth (fst r) = reviewsThisMonth s).
Proof.
  unfold handleFileUpload. destruct file as [f|]; [|right; split; reflexivity].
  destruct (endsWith (name f) ".pdf"); simpl; [|right; split; reflexivity].
  destruct (canReview auth s); simpl; [|right; split; reflexivity].
  destruct (uploadAndAnalyze_cases true mergeReviewData server f s)
    as (_ & _ & [(up & an & Hu & Ha & Hrd & Hid & _ & Hn & Heff) | (Hrd & Hn & _)]).
  - left. exists f, up, an. repeat split; assumption.
  - right. split; assumption.
Qed.

(** When the upload is accepted but the analysis request fails, the
    component has already switched to the new upload ([reviewId] and [pdfUrl]
    are set, so the review screen shows when the id is not empty), while the
    stored review, the selected reviewer and the counter stay as they were;
    the user gets the alert with the failure's message. *)
Theorem handleFileUpload_analysis_failed (auth : AuthContext) (server : Server num)
    (f : File) (s : AppState num) (up : UploadData) (msg : string) :
  (exists pre, name f = pre ++ ".pdf") ->
  canReview auth s = true ->
  post_upload server f = Resolved up ->
  post_analyze server (up_id up) = Rejected msg ->
  let r := handleFileUpload auth server (Some f) s in
  reviewId (fst r) = Some (up_id up) /\
  pdfUrl (fst r) = Some (pdfUrlOf (up_id up)) /\
  (up_id up <> "" -> screen (fst r) = ReviewScreen) /\
  reviewData (fst r) = reviewData s /\
  selectedReviewer (fst r) = selectedReviewer s /\
  reviewsThisMonth (fst r) = reviewsThisMonth s /\
  loading (fst r) = false /\
  snd r = [HttpPost uploadUrl; HttpPost (analyzeUrl (up_id up)); ConsoleError;
           Alert ("Error processing file: " ++ msg)].
Proof.
  intros Hpdf Hcan Hu Ha. apply endsWith_spec in Hpdf.
  unfold handleFileUpload. rewrite Hpdf, Hcan. simpl.
  unfold uploadAndAnalyze. rewrite Hu, Ha. simpl. repeat split.
  intros Hid. unfold screen. simpl.
  destruct (String.eqb_spec (up_id up) ""); [contradiction | reflexivity].
Qed.

(** *** Citations never throw *)

(** The stored review, when there is one, has its highlights array. *)
Definition highlights_defined (s : AppState num) : Prop :=
  match reviewData s with
  | Some rd => is_Some (rd_highlights rd)
  | None => True
  end.

Lemma handleFileUpload_reviewData (auth : AuthContext) (server : Server num)
    (file : option File) (s : AppState num) :
  reviewData (fst (handleFileUpload auth server file s)) = reviewData s \/
  exists up an,
    reviewData (fst (handleFileUpload auth server file s)) = Some (mergeReviewData up an).
Proof.
  unfold handleFileUpload. destruct file as [f|]; [|now left].
  destruct (endsWith (name f) ".pdf"); cbn [negb]; [|now left].
  destruct (canReview auth s); cbn [negb]; [|now left].
  destruct (uploadAndAnalyze_cases true mergeReviewData server f s)
    as (_ & _ & [(up & an & _ & _ & Hrd & _) | (Hrd & _)]); [right; eauto | now left].
Qed.

Lemma step_highlights_defined (a : Action) (s : AppState num) :
  highlights_defined s -> highlights_defined (step a s).
Proof.
  intros Hs. unfold highlights_defined in *.
  assert (Hup : forall auth server file (s0 : AppState num),
            reviewData s0 = reviewData s ->
            match reviewData (fst (handleFileUpload auth server file s0)) with
            | Some rd => is_Some (rd_highlights rd)
            | None => True
            end).
  { intros auth server file s0 Hs0.
    destruct (handleFileUpload_reviewData auth server file s0) as [-> | (up & an & ->)].
    - now rewrite Hs0.
    - simpl. eauto. }
  destruct a; simpl; try exact Hs; try exact I; try (apply Hup; reflexivity).
  - unfold clickComment, navigateToHighlight.
    destruct (highlight_rects comment) as [[|h r]|]; simpl;
      try exact Hs; destruct (c_page comment) as [p|]; simpl; try exact Hs;
      destruct (p =? 0); simpl; exact Hs.
  - unfold clickCitation, citation_onClick.
    destruct (truthy_num (highlight_id citation)); simpl; [|exact Hs].
    destruct (reviewData s) as [rd|] eqn:Erd; simpl; [|now rewrite Erd].
    destruct Hs as [hs Hhs]. rewrite Hhs.
    destruct (List.find _ hs); simpl; rewrite Erd, Hhs; eauto.
  - unfold handleHighlightClick.
    destruct (existsb _ _); simpl; exact Hs.
  - unfold clickPrev. destruct (prevDisabled s); simpl; exact Hs.
  - unfold clickNext. destruct (nextDisabled s); simpl; exact Hs.
  - match goal with t : TimerAction |- _ => destruct t end; simpl; exact Hs.
Qed.

Lemma run_highlights_defined (actions : list Action) (s : AppState num) :
  highlights_defined s -> highlights_defined (run actions s).
Proof.
  revert s. induction actions as [|a actions IH]; intros s Hs; [exact Hs|].
  apply IH. now apply step_highlights_defined.
Qed.

(** In every state the component can reach from its initial state, a click
    on any citation that is on screen returns normally: the handler never
    reads [highlights] of a missing review or a missing [highlights]. *)
Theorem rendered_citation_click_never_throws (actions : list Action)
    (comment : Comment) (citation : Citation) (cs : list Citation) :
  In comment (getReviewerComments (run actions initialState)) ->
  citations comment = Some cs -> In citation cs ->
  exists s' effects,
    clickCitation comment citation (run actions initialState) = Returned (s', effects).
Proof.
  intros Hc _ _.
  pose proof (run_highlights_defined actions initialState I) as Hinv.
  set (s := run actions initialState) in *.
  unfold highlights_defined in Hinv. unfold getReviewerComments in Hc.
  destruct (reviewData s) as [rd|] eqn:Erd; [|destruct Hc].
  destruct Hinv as [hs Hhs].
  unfold clickCitation, citation_onClick. rewrite Erd, Hhs.
  destruct (truthy_num (highlight_id citation)); simpl; [|eauto].
  destruct (List.find _ hs); simpl; eauto.
Qed.

(** *** Sidebar and review panel *)

Lemma reviewer_type_not_empty (reviewer : ReviewerInfo) :
  In reviewer reviewers -> String.eqb (type reviewer) "" = false.
Proof. intros [<- | [<- | [<- | [<- | [<- | []]]]]]; reflexivity. Qed.

(** After a click on a reviewer of the sidebar, the number of comments shown
    beside that reviewer is the number of comments the review panel lists,
    and every listed comment is one of that reviewer. *)
Theorem sidebar_count_matches_panel (reviewer : ReviewerInfo) (s : AppState num) :
  In reviewer reviewers ->
  ri_commentCount (reviewerItem (clickReviewer reviewer s) reviewer)
  = List.length (getReviewerComments (clickReviewer reviewer s)) /\
  forall c, In c (getReviewerComments (clickReviewer reviewer s)) ->
            reviewer_type c = type reviewer.
Proof.
  intros Hin. unfold reviewerItem, getReviewerComments, clickReviewer. simpl.
  rewrite (reviewer_type_not_empty reviewer Hin).
  destruct (reviewData s) as [rd|]; [|split; [reflexivity | intros c []]].
  destruct (rd_comments rd) as [cs|]; [|split; [reflexivity | intros c []]].
  split; [reflexivity|].
  intros c Hc. apply filter_In in Hc as [_ Hc]. now apply String.eqb_eq.
Qed.

(** The five configured reviewers have five different types, so a click on
    one of them makes exactly its own sidebar item the active one and its
    own entry the header of the review panel. *)
Theorem clicked_reviewer_is_the_active_one (reviewer other : ReviewerInfo)
    (s : AppState num) :
  In reviewer reviewers -> In other reviewers ->
  getSelectedReviewerInfo (clickReviewer reviewer s) = Some reviewer /\
  (ri_active (reviewerItem (clickReviewer reviewer s) other) = true <-> other = reviewer).
Proof.
  intros Hr Ho. unfold getSelectedReviewerInfo, reviewerItem, clickReviewer.
  cbn [selectedReviewer setSelectedReviewer ri_active].
  destruct Hr as [<- | [<- | [<- | [<- | [<- | []]]]]];
    (split; [reflexivity|]);
    destruct Ho as [<- | [<- | [<- | [<- | [<- | []]]]]];
    cbn; split; intros Heq; try reflexivity; discriminate Heq.
Qed.

(** *** Highlights *)

Lemma overlay_active_iff (s : AppState num) (id : Z) (o : OverlayDiv) :
  activeHighlight s = Some id ->
  In o (highlightsLayer s) ->
  (o_active o = true <-> h_id (o_highlight o) = id).
Proof.
  intros Ha Hin. unfold highlightsLayer in Hin.
  apply list_elem_of_In, elem_of_lookup_imap in Hin as (idx & h & -> & _).
  simpl. rewrite Ha. simpl. rewrite Z.eqb_eq. split; congruence.
Qed.

Lemma overlay_inactive (s : AppState num) (o : OverlayDiv) :
  activeHighlight s = None -> In o (highlightsLayer s) -> o_active o = false.
Proof.
  intros Ha Hin. unfold highlightsLayer in Hin.
  apply list_elem_of_In, elem_of_lookup_imap in Hin as (idx & h & -> & _).
  simpl. now rewrite Ha.
Qed.

(** A click on a citation whose [highlight_id] is the id of a highlight of
    the review shows that highlight's page, puts the highlight in the
    highlights layer and makes the overlays with that id, and no others,
    active; when the two-second timer fires, no overlay is active and the
    page stays. *)
Theorem clickCitation_shows_its_highlight (comment : Comment) (citation : Citation)
    (s : AppState num) (rd : ReviewData num) (hs : list (Highlight num))
    (id : Z) (h : Highlight num) :
  reviewData s = Some rd -> rd_highlights rd = Some hs ->
  highlight_id citation = Some id -> id <> 0 ->
  In h hs -> h_id h = id ->
  exists s' target,
    clickCitation comment citation s = Returned (s', [SetTimeout ClearActiveHighlight 2000]) /\
    In target hs /\ h_id target = id /\
    currentPage s' = h_page target /\
    In target (getCurrentPageHighlights s') /\
    (forall o, In o (highlightsLayer s') ->
               (o_active o = true <-> h_id (o_highlight o) = id)) /\
    currentPage (fireTimer ClearActiveHighlight s') = h_page target /\
    (forall o, In o (highlightsLayer (fireTimer ClearActiveHighlight s')) ->
               o_active o = false).
Proof.
  intros Hrd Hhs Hid Hnz Hin Hh.
  unfold clickCitation, citation_onClick. rewrite Hid, Hrd, Hhs.
  assert (Ht : truthy_num (Some id) = true).
  { simpl. now apply negb_true_iff, Z.eqb_neq. }
  rewrite Ht.
  destruct (List.find (fun h0 => strict_eq_num (Some id) (h_id h0)) hs)
    as [target|] eqn:Hf.
  - apply find_some in Hf as [Htin Hteq]. simpl in Hteq. apply Z.eqb_eq in Hteq.
    cbn [propagationStopped stopPropagation].
    eexists _, target. split; [reflexivity|].
    split; [assumption|]. split; [congruence|]. split; [reflexivity|].
    split; [|split; [|split]].
    + unfold getCurrentPageHighlights. simpl. rewrite Hrd, Hhs.
      apply filter_In. split; [assumption | apply Z.eqb_refl].
    + intros o Ho. apply (overlay_active_iff _ (h_id target)) in Ho; [|reflexivity].
      rewrite Ho. split; congruence.
    + reflexivity.
    + intros o Ho. now apply overlay_inactive in Ho.
  - exfalso. pose proof (find_none _ _ Hf h Hin) as Hne. simpl in Hne.
    apply Z.eqb_neq in Hne. congruence.
Qed.

(** A click on a highlight makes the overlays with its id, and no others,
    active without changing the page; the comment list is scrolled (and the
    pulse started and timed) exactly when the highlight's comment is one the
    review panel currently lists, that is, one of the selected reviewer. *)
Theorem handleHighlightClick_activates (highlight : Highlight num) (s : AppState num) :
  let r := handleHighlightClick highlight s in
  currentPage (fst r) = currentPage s /\
  getCurrentPageHighlights (fst r) = getCurrentPageHighlights s /\
  (forall o, In o (highlightsLayer (fst r)) ->
             (o_active o = true <-> h_id (o_highlight o) = h_id highlight)) /\
  (In (ScrollIntoView (CommentCard (comment_id highlight))) (snd r) <->
   exists c, In c (getReviewerComments s) /\ c_id c = comment_id highlight) /\
  (snd r = [] \/
   snd r = [ScrollIntoView (CommentCard (comment_id highlight));
            AddHighlightPulse (CommentCard (comment_id highlight));
            SetTimeout (RemoveHighlightPulse (CommentCard (comment_id highlight))) 2000]).
Proof.
  unfold handleHighlightClick. cbv zeta.
  assert (Hstate : forall eff,
            fst (setActiveHighlight (Some (h_id highlight)) s, eff : list Effect)
            = setActiveHighlight (Some (h_id highlight)) s) by reflexivity.
  destruct (existsb (fun c => c_id c =? comment_id highlight) (getReviewerComments s))
    eqn:E; cbn [fst snd].
  - split; [reflexivity|]. split; [reflexivity|]. split.
    { intros o Ho. now apply (overlay_active_iff _ (h_id highlight)) in Ho. }
    split; [|now right]. split; [intros _|intros _; now left].
    apply existsb_exists in E as (c & Hc & Heq). exists c.
    split; [assumption | now apply Z.eqb_eq].
  - split; [reflexivity|]. split; [reflexivity|]. split.
    { intros o Ho. now apply (overlay_active_iff _ (h_id highlight)) in Ho. }
    split; [|now left]. split; [intros []|].
    intros (c & Hc & Heq). exfalso.
    assert (Hex : existsb (fun c => c_id c =? comment_id highlight)
                          (getReviewerComments s) = true).
    { apply existsb_exists. exists c. split; [assumption | now apply Z.eqb_eq]. }
    congruence.
Qed.

(** *** Page buttons *)

Lemma setCurrentPage_same (s : AppState num) : setCurrentPage (currentPage s) s = s.
Proof. destruct s. reflexivity. Qed.

Lemma setCurrentPage_twice (a b : Z) (s : AppState num) :
  setCurrentPage a (setCurrentPage b s) = setCurrentPage a s.
Proof. reflexivity. Qed.

(** With the document loaded and the page within it, the two page buttons
    keep the page within the document, do nothing at their end of the
    document, and undo each other elsewhere. *)
Theorem page_buttons_round_trip (s : AppState num) (n : Z) :
  numPages s = Some n -> 1 <= currentPage s <= n ->
  1 <= currentPage (clickNext s) <= n /\
  1 <= currentPage (clickPrev s) <= n /\
  (currentPage s = n -> clickNext s = s) /\
  (currentPage s = 1 -> clickPrev s = s) /\
  (currentPage s < n ->
   currentPage (clickNext s) = currentPage s + 1 /\ clickPrev (clickNext s) = s) /\
  (1 < currentPage s ->
   currentPage (clickPrev s) = currentPage s - 1 /\ clickNext (clickPrev s) = s).
Proof.
  intros Hn Hp.
  assert (Hnext : currentPage s < n ->
            clickNext s = setCurrentPage (currentPage s + 1) s).
  { intros Hlt. unfold clickNext, nextDisabled, goToPage. rewrite Hn. simpl.
    destruct (Z.geb_spec (currentPage s) n); [lia|].
    unfold or_default, truthy_num. destruct (Z.eqb_spec n 0); [lia|]. simpl.
    f_equal. lia. }
  assert (Hprev : 1 < currentPage s ->
            clickPrev s = setCurrentPage (currentPage s - 1) s).
  { intros Hlt. unfold clickPrev, prevDisabled, goToPage. rewrite Hn.
    destruct (Z.leb_spec (currentPage s) 1); [lia|].
    unfold or_default, truthy_num. destruct (Z.eqb_spec n 0); [lia|]. simpl.
    f_equal. lia. }
  assert (Hlast : currentPage s = n -> clickNext s = s).
  { intros Heq. unfold clickNext, nextDisabled. rewrite Hn. simpl.
    destruct (Z.geb_spec (currentPage s) n); [reflexivity | lia]. }
  assert (Hfirst : currentPage s = 1 -> clickPrev s = s).
  { intros Heq. unfold clickPrev, prevDisabled.
    destruct (Z.leb_spec (currentPage s) 1); [reflexivity | lia]. }
  split; [|split; [|split; [|split; [|split]]]].
  - destruct (Z.eq_dec (currentPage s) n) as [Heq | Hne].
    + rewrite (Hlast Heq). lia.
    + rewrite Hnext by lia. simpl. lia.
  - destruct (Z.eq_dec (currentPage s) 1) as [Heq | Hne].
    + rewrite (Hfirst Heq). lia.
    + rewrite Hprev by lia. simpl. lia.
  - exact Hlast.
  - exact Hfirst.
  - intros Hlt. rewrite (Hnext Hlt). split; [reflexivity|].
    unfold clickPrev, prevDisabled, goToPage. simpl. rewrite Hn.
    destruct (Z.leb_spec (currentPage s + 1) 1); [lia|].
    unfold or_default, truthy_num. destruct (Z.eqb_spec n 0); [lia|]. simpl.
    replace (Z.max 1 (Z.min (currentPage s + 1 - 1) n)) with (currentPage s) by lia.
    exact (setCurrentPage_same s).
  - intros Hlt. rewrite (Hprev Hlt). split; [reflexivity|].
    unfold clickNext, nextDisabled, goToPage. simpl. rewrite Hn. simpl.
    destruct (Z.geb_spec (currentPage s - 1) n); [lia|].
    unfold or_default, truthy_num. destruct (Z.eqb_spec n 0); [lia|]. simpl.
    replace (Z.max 1 (Z.min (currentPage s - 1 + 1) n)) with (currentPage s) by lia.
    exact (setCurrentPage_same s).
Qed.

(** *** The free allowance *)

(** A visitor who is not signed in is never refused: [handleFileUpload]
    leaves the pricing dialog alone whatever the count, and with Supabase
    configured each stored review lowers the "free reviews remaining" figure
    by one, below zero included. *)
Theorem anonymous_upload_is_never_refused (auth : AuthContext) (server : Server num)
    (file : option File) (s : AppState num) :
  user auth = None ->
  let r := handleFileUpload auth server file s in
  canReview auth s = true /\
  showPricingModal (fst r) = showPricingModal s /\
  (isConfigured auth = true ->
   uploadLimitNotice auth s = Some (FREE_REVIEWS_LIMIT - reviewsThisMonth s) /\
   (reviewData (fst r) <> reviewData s ->
    uploadLimitNotice auth (fst r)
    = Some (FREE_REVIEWS_LIMIT - reviewsThisMonth s - 1))).
Proof.
  intros Hu. cbv zeta.
  assert (Hcan : canReview auth s = true).
  { unfold canReview. rewrite Hu.
    rewrite (bool_decide_eq_false_2 (is_Some None)) by (intros [x Hx]; discriminate).
    simpl. now rewrite orb_true_r. }
  split; [exact Hcan|]. split.
  - unfold handleFileUpload. destruct file as [f|]; [|reflexivity].
    destruct (endsWith (name f) ".pdf"); cbn [negb]; [|reflexivity].
    rewrite Hcan. cbn [negb]. unfold uploadAndAnalyze.
    destruct (post_upload server f) as [up|msg]; [|reflexivity].
    destruct (post_analyze server (up_id up)) as [an|msg]; [|reflexivity].
    unfold selectFirstReviewer. destruct (an_reviewers an) as [[|r0 rs]|]; reflexivity.
  - intros Hconf.
    assert (Hnotice : forall st : AppState num,
              uploadLimitNotice auth st = Some (FREE_REVIEWS_LIMIT - reviewsThisMonth st)).
    { intros st. unfold uploadLimitNotice. rewrite Hconf, Hu.
      rewrite (bool_decide_eq_false_2 (is_Some None)) by (intros [x Hx]; discriminate).
      reflexivity. }
    split; [apply Hnotice|]. intros Hchanged. rewrite Hnotice.
    destruct (handleFileUpload_counts_cases auth server file s)
      as [Hn | (Hrd & _)]; [|contradiction].
    rewrite Hn. f_equal. lia.
Qed.

End Facts.

(** *** The properties at the sample review *)

(** A server that accepts the upload and fails the analysis. *)
Definition failing_analysis_server : Server Q :=
  {| post_upload := fun f => Resolved {| up_id := "r2"; up_title := Some (name f) |};
     post_analyze := fun _ => Rejected "LLM unavailable" |}.

Definition paper : File := {| name := "paper.pdf" |}.

Definition methodology : ReviewerInfo :=
  {| type := "methodology_reviewer"; rname := "Methodology";
     description := "Research design evaluation" |}.

Definition novelty : ReviewerInfo :=
  {| type := "novelty_reviewer"; rname := "Novelty";
     description := "Originality assessment" |}.

(** A session: one upload, the document loads, the user picks the
    methodology reviewer and pages forward. *)
Definition sample_session : list (Action (num := Q)) :=
  [ Upload ClientProperties.sample_auth ClientProperties.sample_server [paper];
    DocumentLoaded 5;
    PickReviewer methodology;
    NextPage;
    ClickHighlight ClientProperties.sample_highlight_p2 ].

Lemma handleFileUpload_ends_loading_witness :
  loading (fst (handleFileUpload ClientProperties.sample_auth failing_analysis_server
                  (Some paper) ClientProperties.sample_state)) = false /\
  loading (fst (handleFileUpload_App failing_analysis_server
                  (Some paper) ClientProperties.sample_state)) = false /\
  ((exists url, In (HttpPost url)
                   (snd (handleFileUpload ClientProperties.sample_auth
                           failing_analysis_server (Some paper)
                           ClientProperties.sample_state))) ->
   loadingMessage (fst (handleFileUpload ClientProperties.sample_auth
                          failing_analysis_server (Some paper)
                          ClientProperties.sample_state)) = "").
Proof.
  apply (handleFileUpload_ends_loading ClientProperties.sample_auth
           failing_analysis_server (Some paper) ClientProperties.sample_state).
  reflexivity.
Defined.

Lemma handleFileUpload_analysis_failed_witness :
  let r := handleFileUpload ClientProperties.sample_auth failing_analysis_server
             (Some paper) ClientProperties.sample_state in
  reviewId (fst r) = Some "r2" /\
  pdfUrl (fst r) = Some (pdfUrlOf "r2") /\
  ("r2" <> "" -> screen (fst r) = ReviewScreen) /\
  reviewData (fst r) = reviewData ClientProperties.sample_state /\
  selectedReviewer (fst r) = selectedReviewer ClientProperties.sample_state /\
  reviewsThisMonth (fst r) = reviewsThisMonth ClientProperties.sample_state /\
  loading (fst r) = false /\
  snd r = [HttpPost uploadUrl; HttpPost (analyzeUrl "r2"); ConsoleError;
           Alert ("Error processing file: " ++ "LLM unavailable")].
Proof.
  apply (handleFileUpload_analysis_failed ClientProperties.sample_auth
           failing_analysis_server paper ClientProperties.sample_state
           {| up_id := "r2"; up_title := Some "paper.pdf" |} "LLM unavailable").
  - exists "paper". reflexivity.
  - reflexivity.
  - reflexivity.
  - reflexivity.
Defined.

Lemma rendered_citation_click_never_throws_witness :
  exists s' effects,
    clickCitation ClientProperties.sample_comment
      ClientProperties.sample_citation_anchored (run sample_session initialState)
    = Returned (s', effects).
Proof.
  apply (rendered_citation_click_never_throws sample_session
           ClientProperties.sample_comment ClientProperties.sample_citation_anchored
           [ClientProperties.sample_citation_anchored;
            ClientProperties.sample_citation_unresolved]).
  - vm_compute. left. reflexivity.
  - reflexivity.
  - left. reflexivity.
Defined.

Lemma sidebar_count_matches_panel_witness :
  ri_commentCount (reviewerItem (clickReviewer methodology ClientProperties.sample_state)
                     methodology)
  = List.length (getReviewerComments
                   (clickReviewer methodology ClientProperties.sample_state)) /\
  forall c, In c (getReviewerComments
                    (clickReviewer methodology ClientProperties.sample_state)) ->
            reviewer_type c = type methodology.
Proof.
  apply (sidebar_count_matches_panel methodology ClientProperties.sample_state).
  right. left. reflexivity.
Defined.

Lemma clicked_reviewer_is_the_active_one_witness :
  getSelectedReviewerInfo (clickReviewer methodology ClientProperties.sample_state)
  = Some methodology /\
  (ri_active (reviewerItem (clickReviewer methodology ClientProperties.sample_state)
                novelty) = true <-> novelty = methodology).
Proof.
  apply (clicked_reviewer_is_the_active_one methodology novelty
           ClientProperties.sample_state).
  - right. left. reflexivity.
  - right. right. left. reflexivity.
Defined.

Lemma clickCitation_shows_its_highlight_witness :
  exists s' target,
    clickCitation ClientProperties.sample_comment
      ClientProperties.sample_citation_anchored
      (setCurrentPage 5 ClientProperties.sample_state)
    = Returned (s', [SetTimeout ClearActiveHighlight 2000]) /\
    In target ClientProperties.sample_highlights /\ h_id target = 1 /\
    currentPage s' = h_page target /\
    In target (getCurrentPageHighlights s') /\
    (forall o, In o (highlightsLayer s') ->
               (o_active o = true <-> h_id (o_highlight o) = 1)) /\
    currentPage (fireTimer ClearActiveHighlight s') = h_page target /\
    (forall o, In o (highlightsLayer (fireTimer ClearActiveHighlight s')) ->
               o_active o = false).
Proof.
  eapply (clickCitation_shows_its_highlight ClientProperties.sample_comment
            ClientProperties.sample_citation_anchored
            (setCurrentPage 5 ClientProperties.sample_state)
            _ ClientProperties.sample_highlights 1
            ClientProperties.sample_highlight_p2).
  - reflexivity.
  - reflexivity.
  - reflexivity.
  - discriminate.
  - left. reflexivity.
  - reflexivity.
Defined.

Lemma page_buttons_round_trip_witness :
  1 <= currentPage (clickNext ClientProperties.sample_state) <= 5 /\
  1 <= currentPage (clickPrev ClientProperties.sample_state) <= 5 /\
  (currentPage ClientProperties.sample_state = 5 ->
   clickNext ClientProperties.sample_state = ClientProperties.sample_state) /\
  (currentPage ClientProperties.sample_state = 1 ->
   clickPrev ClientProperties.sample_state = ClientProperties.sample_state) /\
  (currentPage ClientProperties.sample_state < 5 ->
   currentPage (clickNext ClientProperties.sample_state)
   = currentPage ClientProperties.sample_state + 1 /\
   clickPrev (clickNext ClientProperties.sample_state) = ClientProperties.sample_state) /\
  (1 < currentPage ClientProperties.sample_state ->
   currentPage (clickPrev ClientProperties.sample_state)
   = currentPage ClientProperties.sample_state - 1 /\
   clickNext (clickPrev ClientProperties.sample_state) = ClientProperties.sample_state).
Proof.
  apply (page_buttons_round_trip ClientProperties.sample_state 5).
  - reflexivity.
  - simpl. lia.
Defined.

(** The fourth review of a visitor who is not signed in goes through, and
    the notice then reads "-1 free reviews remaining". *)
Lemma anonymous_upload_is_never_refused_witness :
  let auth := {| user := None; plan_id := None; isConfigured := true |} in
  let s := setReviewsThisMonth 3 (@initialState Q _) in
  let r := handleFileUpload auth ClientProperties.sample_server (Some paper) s in
  canReview auth s = true /\
  showPricingModal (fst r) = showPricingModal s /\
  uploadLimitNotice auth s = Some 0 /\
  uploadLimitNotice auth (fst r) = Some (-1).
Proof.
  pose proof (anonymous_upload_is_never_refused
                {| user := None; plan_id := None; isConfigured := true |}
                ClientProperties.sample_server (Some paper)
                (setReviewsThisMonth 3 (@initialState Q _)) eq_refl)
    as (Hcan & Hmodal & Hnotice).
  destruct (Hnotice eq_refl) as (Hbefore & Hafter).
  cbv zeta. split; [exact Hcan|]. split; [exact Hmodal|]. split; [exact Hbefore|].
  apply Hafter. vm_compute. discriminate.
Defined.

End ScreenProperties.

(** ** Properties of the account components *)

Module AccountProperties.
Import Supabase Auth.

(** A variable of the environment is set when it has a non-empty value. *)
Definition is_set (v : option string) : Prop := exists x, v = Some x /\ x <> "".

Lemma or_empty_set (v : option string) : or_empty v <> "" <-> is_set v.
Proof.
  unfold or_empty, truthy_str, is_set. destruct v as [x|]; simpl.
  - destruct (String.eqb_spec x "") as [->|Hx]; simpl.
    + split; [congruence | intros (y & [= <-] & Hy); congruence].
    + split; [eauto | auto].
  - split; [congruence | intros (y & Hy & _); discriminate].
Qed.

Lemma or_empty_of_set (v : option string) (x : string) :
  v = Some x -> x <> "" -> or_empty v = x.
Proof.
  intros -> Hx. unfold or_empty, truthy_str.
  destruct (String.eqb_spec x ""); [contradiction | reflexivity].
Qed.

Lemma configured_iff (env : Env) :
  configured env = true <-> supabaseUrl env <> "" /\ supabaseAnonKey env <> "".
Proof.
  unfold configured, isSupabaseConfigured, js_and, truthy.
  destruct (String.eqb_spec (supabaseUrl env) "") as [Eu|Eu];
    destruct (String.eqb_spec (supabaseAnonKey env) "") as [Ek|Ek]; simpl;
    rewrite ?Eu, ?Ek; simpl; try (destruct (String.eqb_spec (supabaseUrl env) ""));
    try (destruct (String.eqb_spec (supabaseAnonKey env) "")); simpl;
    split; intros; try discriminate; try tauto; try (split; assumption); auto.
Qed.

Lemma configured_client (env : Env) (real : SupabaseClient) :
  configured env = true -> clientFor env real = real.
Proof.
  intros Hc. apply configured_iff in Hc as [Hu Hk].
  unfold clientFor, supabase, js_and, truthy.
  destruct (String.eqb_spec (supabaseUrl env) ""); [contradiction|]. simpl.
  destruct (String.eqb_spec (supabaseAnonKey env) ""); [contradiction|]. reflexivity.
Qed.

(** The real client is created exactly when [isSupabaseConfigured()] is
    truthy, which is when both variables are set; the test then yields
    [true], and otherwise the empty string (never [false]). *)
Theorem supabase_client_matches_configuration (env : Env) :
  (is_set (VITE_SUPABASE_URL env) /\ is_set (VITE_SUPABASE_ANON_KEY env) /\
   isSupabaseConfigured env = JBool true /\
   supabase env = RealClient (supabaseUrl env) (supabaseAnonKey env) /\
   VITE_SUPABASE_URL env = Some (supabaseUrl env) /\
   VITE_SUPABASE_ANON_KEY env = Some (supabaseAnonKey env)) \/
  ((~ is_set (VITE_SUPABASE_URL env) \/ ~ is_set (VITE_SUPABASE_ANON_KEY env)) /\
   isSupabaseConfigured env = JStr "" /\
   supabase env = DummyClient).
Proof.
  unfold isSupabaseConfigured, supabase, supabaseUrl, supabaseAnonKey, js_and, truthy.
  destruct (VITE_SUPABASE_URL env) as [u|] eqn:Eu;
    destruct (VITE_SUPABASE_ANON_KEY env) as [k|] eqn:Ek;
    unfold or_empty, truthy_str, is_set; simpl.
  - destruct (String.eqb_spec u "") as [->|Hu]; simpl.
    + right. split; [left; intros (x & [= <-] & Hx); congruence|]. split; reflexivity.
    + destruct (String.eqb_spec u "") as [|_]; [contradiction|].
      destruct (String.eqb_spec k "") as [->|Hk]; simpl.
      * right. split; [right; intros (x & [= <-] & Hx); congruence|]. split; reflexivity.
      * destruct (String.eqb_spec k "") as [|_]; [contradiction|]. simpl.
        left. repeat split; eauto.
  - destruct (String.eqb_spec u "") as [->|Hu]; simpl.
    + right. split; [left; intros (x & [= <-] & Hx); congruence|]. split; reflexivity.
    + destruct (String.eqb_spec u "") as [|_]; [contradiction|]. simpl.
      right. split; [right; intros (x & Hx & _); discriminate|]. split; reflexivity.
  - right. split; [left; intros (x & Hx & _); discriminate|]. split; reflexivity.
  - right. split; [left; intros (x & Hx & _); discriminate|]. split; reflexivity.
Qed.

(** While either variable is unset, no function of the provider calls
    Supabase: sign-up and the sign-ins answer "Supabase not configured",
    sign-out and the subscription lookup leave the state alone, and mounting
    only ends the loading phase. *)
Theorem unconfigured_provider_calls_nothing (env : Env) (real : SupabaseClient)
    (st : AuthState) (mail password origin userId : string) :
  ~ is_set (VITE_SUPABASE_URL env) \/ ~ is_set (VITE_SUPABASE_ANON_KEY env) ->
  mount env real st = (setLoading false st, []) /\
  fetchSubscription env real userId st = (st, []) /\
  signOut env real st = (st, []) /\
  signUp env real mail password = (notConfigured, []) /\
  signIn env real mail password = (notConfigured, []) /\
  signInWithGoogle env real origin = (notConfigured, []) /\
  signInWithGithub env real origin = (notConfigured, []) /\
  Client.isConfigured (authValue env st) = false.
Proof.
  intros Hunset.
  assert (Hc : configured env = false).
  { apply not_true_iff_false. intros Hc. apply configured_iff in Hc as [Hu Hk].
    unfold supabaseUrl, supabaseAnonKey in *.
    apply or_empty_set in Hu, Hk. tauto. }
  unfold mount, fetchSubscription, signOut, signUp, signIn, signInWithGoogle,
    signInWithGithub, authValue.
  rewrite Hc. simpl. repeat split.
Qed.

(** When the session changes to a user whose subscription lookup finds no
    active row (an error, no data, or an exception), the subscription held
    before, whoever it belonged to, stays in the context; only a change to no
    user clears it. *)
Theorem failed_lookup_keeps_old_subscription (env : Env) (real : SupabaseClient)
    (s : option Session) (u : User) (st : AuthState) :
  configured env = true ->
  userOf s = Some u ->
  (forall row, subscriptions_single real (id u) <> QueryReturned (Some row) None) ->
  let st' := fst (authStateChanged env real s st) in
  user st' = Some u /\
  subscription st' = subscription st /\
  loading st' = false /\
  Client.plan_id (authValue env st') = Client.plan_id (authValue env st) /\
  subscription (fst (authStateChanged env real None st')) = None.
Proof.
  intros Hc Hu Hfail. cbv zeta.
  unfold authStateChanged. rewrite Hu. unfold fetchSubscription.
  rewrite Hc, (configured_client env real Hc). cbn [negb].
  destruct (subscriptions_single real (id u)) as [[row|] [e|]|] eqn:Eq;
    try (exfalso; apply (Hfail row); reflexivity); simpl; rewrite ?Hu; repeat split.
Qed.

Section Gate.
Context {num : Type} `{JsNumber num}.

Lemma canReview_no_user (auth : Client.AuthContext) (s : Client.AppState num) :
  Client.user auth = None -> Client.canReview auth s = true.
Proof.
  intros Hu. unfold Client.canReview. rewrite Hu.
  rewrite (bool_decide_eq_false_2 (is_Some None)) by (intros [x Hx]; discriminate).
  simpl. now rewrite orb_true_r.
Qed.

(** After a sign-out that Supabase accepts, the context holds no user, no
    session and no subscription, so [AppContent] lets every upload through,
    whatever the monthly count was. *)
Theorem signOut_lifts_the_gate (env : Env) (real : SupabaseClient) (st : AuthState)
    (s : Client.AppState num) :
  configured env = true -> auth_signOut_resolves real = true ->
  let st' := fst (signOut env real st) in
  user st' = None /\ session st' = None /\ subscription st' = None /\
  snd (signOut env real st) = [CallSignOut] /\
  Client.canReview (authValue env st') s = true.
Proof.
  intros Hc Hr. cbv zeta. unfold signOut.
  rewrite Hc, (configured_client env real Hc), Hr. simpl.
  repeat split. apply canReview_no_user. reflexivity.
Qed.

(** The plan badge of the user menu and the upload gate agree: a signed-in
    user (Supabase configured) is refused exactly when the badge reads
    "Free" and the monthly count has reached 3. *)
Theorem plan_badge_matches_gate (mail : string) (plan : option string)
    (s : Client.AppState num) :
  Client.canReview {| Client.user := Some mail; Client.plan_id := plan;
                      Client.isConfigured := true |} s = false <->
  UserMenu.planName plan = "Free" /\ 3 <= Client.reviewsThisMonth s.
Proof.
  unfold Client.canReview, UserMenu.planName.
  cbn [Client.user Client.plan_id Client.isConfigured].
  rewrite (bool_decide_eq_true_2 (is_Some (Some mail))) by eauto. cbn [negb orb].
  destruct (strict_eq_str plan "pro"); simpl.
  - split; [discriminate | intros [Hd _]; discriminate].
  - destruct (strict_eq_str plan "team"); simpl.
    + split; [discriminate | intros [Hd _]; discriminate].
    + unfold Client.FREE_REVIEWS_LIMIT. rewrite Z.ltb_ge. tauto.
Qed.

End Gate.

(** *** Pricing dialog *)

Lemma currentPlan_cases (plan : option string) :
  (Pricing.currentPlan plan = "free" /\ (plan = None \/ plan = Some "" \/ plan = Some "free")) \/
  (plan = Some (Pricing.currentPlan plan) /\ Pricing.currentPlan plan <> "free"
   /\ Pricing.currentPlan plan <> "").
Proof.
  unfold Pricing.currentPlan, truthy_str. destruct plan as [x|]; simpl; [|left; auto].
  destruct (String.eqb_spec x "") as [->|Hx]; simpl; [left; auto|].
  destruct (String.eqb_spec x "free") as [->|Hf]; [left; auto | right; auto].
Qed.

(** A card marked current bears the plan name the user menu shows; one card
    is marked current when the plan is missing, empty, or one of "free",
    "pro" and "team", and none otherwise. *)
Theorem current_card_matches_plan_badge (plan loading : option string) :
  (forall p, In p Pricing.plans ->
             Pricing.card_current (Pricing.card plan loading p) = true ->
             Pricing.name p = UserMenu.planName plan /\
             Pricing.card_disabled (Pricing.card plan loading p) = true /\
             forall q, In q Pricing.plans ->
                       Pricing.card_current (Pricing.card plan loading q) = true ->
                       q = p) /\
  ((exists p, In p Pricing.plans /\
              Pricing.card_current (Pricing.card plan loading p) = true) <->
   In (Pricing.currentPlan plan) ["free"; "pro"; "team"]).
Proof.
  split.
  - intros p Hp Hcur. unfold Pricing.card in *. cbn [Pricing.card_current
      Pricing.card_disabled] in *. rewrite Hcur. split; [|split; [reflexivity|]].
    + apply String.eqb_eq in Hcur.
      destruct (currentPlan_cases plan) as [[Hf Hplan] | (Hplan & Hnf & _)].
      * rewrite Hf in Hcur.
        destruct Hp as [<- | [<- | [<- | []]]]; try discriminate Hcur.
        destruct Hplan as [-> | [-> | ->]]; reflexivity.
      * rewrite Hplan, Hcur.
        destruct Hp as [<- | [<- | [<- | []]]]; reflexivity.
    + intros q Hq Hq'. apply String.eqb_eq in Hcur, Hq'.
      rewrite Hcur in Hq'.
      destruct Hp as [<- | [<- | [<- | []]]];
        destruct Hq as [<- | [<- | [<- | []]]]; try reflexivity; discriminate Hq'.
  - split.
    + intros (p & Hp & Hcur). unfold Pricing.card in Hcur. simpl in Hcur.
      apply String.eqb_eq in Hcur. rewrite Hcur.
      destruct Hp as [<- | [<- | [<- | []]]]; simpl; tauto.
    + intros [Hc | [Hc | [Hc | []]]].
      * exists (nth 0 Pricing.plans (Pricing.Build_Plan "" "" "" "" false)).
        split; [left; reflexivity|]. unfold Pricing.card. simpl. rewrite <- Hc.
        reflexivity.
      * exists (nth 1 Pricing.plans (Pricing.Build_Plan "" "" "" "" false)).
        split; [right; left; reflexivity|]. unfold Pricing.card. simpl. rewrite <- Hc.
        reflexivity.
      * exists (nth 2 Pricing.plans (Pricing.Build_Plan "" "" "" "" false)).
        split; [right; right; left; reflexivity|]. unfold Pricing.card. simpl.
        rewrite <- Hc. reflexivity.
Qed.

Lemma get_remove_ne (k k' : string) (ps : list (string * string)) :
  k <> k' -> Pricing.get_param k' (Pricing.remove_key k ps) = Pricing.get_param k' ps.
Proof.
  intros Hne. induction ps as [|[a b] ps IH]; simpl; [reflexivity|].
  destruct (String.eqb_spec a k) as [->|Ha]; simpl.
  - destruct (String.eqb_spec k k'); [contradiction | exact IH].
  - destruct (String.eqb_spec a k'); [reflexivity | exact IH].
Qed.

Lemma get_set_eq (k v : string) (ps : list (string * string)) :
  Pricing.get_param k (Pricing.set_param k v ps) = Some v.
Proof.
  induction ps as [|[a b] ps IH]; simpl; [now rewrite String.eqb_refl|].
  destruct (String.eqb_spec a k) as [->|Ha]; simpl.
  - now rewrite String.eqb_refl.
  - destruct (String.eqb_spec a k); [contradiction | exact IH].
Qed.

Lemma get_set_ne (k k' v : string) (ps : list (string * string)) :
  k <> k' -> Pricing.get_param k' (Pricing.set_param k v ps) = Pricing.get_param k' ps.
Proof.
  intros Hne. induction ps as [|[a b] ps IH]; simpl.
  - destruct (String.eqb_spec k k'); [contradiction | reflexivity].
  - destruct (String.eqb_spec a k) as [->|Ha]; simpl.
    + destruct (String.eqb_spec k k'); [contradiction|]. now apply get_remove_ne.
    + destruct (String.eqb_spec a k'); [reflexivity | exact IH].
Qed.

(** After [set], the key occurs once. *)
Lemma set_param_once (k v : string) (ps : list (string * string)) :
  List.length (List.filter (fun kv => String.eqb (fst kv) k) (Pricing.set_param k v ps))
  = 1%nat.
Proof.
  assert (Hrm : forall qs, List.filter (fun kv => String.eqb (fst kv) k)
                             (Pricing.remove_key k qs) = []).
  { induction qs as [|[a b] qs IH]; simpl; [reflexivity|].
    destruct (String.eqb a k) eqn:E; simpl; [exact IH|]. now rewrite E. }
  induction ps as [|[a b] ps IH]; simpl; [now rewrite String.eqb_refl|].
  destruct (String.eqb a k) eqn:E; simpl.
  - now rewrite String.eqb_refl, Hrm.
  - now rewrite E.
Qed.

(** A checkout: for a signed-in user and a plan other than "free" whose
    link is set and parses, [handleSelectPlan] marks the plan as loading and
    navigates to the link with [customer_email] set to the user's email and
    the two return addresses set from the page's origin, each exactly once;
    the link's other parameters and everything before the query are kept. *)
Theorem handleSelectPlan_checkout_target (env : Env)
    (parseUrl : string -> option Pricing.Url) (origin mail planId link : string)
    (url : Pricing.Url) (loading : option string) :
  planId <> "free" ->
  Pricing.checkoutLink env planId = Some link -> link <> "" ->
  parseUrl link = Some url ->
  exists target,
    Pricing.handleSelectPlan env parseUrl origin (Some mail) planId loading
    = (Some planId, [Pricing.Navigate target]) /\
    Pricing.base target = Pricing.base url /\
    Pricing.get_param "customer_email" (Pricing.searchParams target) = Some mail /\
    Pricing.get_param "success_url" (Pricing.searchParams target)
    = Some (origin ++ "?checkout=success") /\
    Pricing.get_param "cancel_url" (Pricing.searchParams target)
    = Some (origin ++ "?checkout=cancel") /\
    (forall k, In k ["customer_email"; "success_url"; "cancel_url"] ->
               List.length (List.filter (fun kv => String.eqb (fst kv) k)
                                        (Pricing.searchParams target)) = 1%nat) /\
    (forall k, ~ In k ["customer_email"; "success_url"; "cancel_url"] ->
               Pricing.get_param k (Pricing.searchParams target)
               = Pricing.get_param k (Pricing.searchParams url)).
Proof.
  intros Hfree Hlink Hne Hparse.
  unfold Pricing.handleSelectPlan.
  destruct (String.eqb_spec planId "free"); [contradiction|].
  rewrite Hlink. unfold truthy_str.
  destruct (String.eqb_spec link ""); [contradiction|]. cbn [negb].
  change (default "" (Some link)) with link.
  rewrite Hparse. eexists. split; [reflexivity|].
  unfold Pricing.searchParams_set. cbn [Pricing.base Pricing.searchParams].
  assert (Hfilter : forall k k' v ps, k <> k' ->
            List.filter (fun kv => String.eqb (fst kv) k') (Pricing.set_param k v ps)
            = List.filter (fun kv => String.eqb (fst kv) k') ps).
  { intros k k' v ps Hkk.
    assert (Hrm : forall qs, List.filter (fun kv => String.eqb (fst kv) k')
                               (Pricing.remove_key k qs)
                             = List.filter (fun kv => String.eqb (fst kv) k') qs).
    { induction qs as [|[a b] qs IH]; simpl; [reflexivity|].
      destruct (String.eqb_spec a k) as [->|Ha]; simpl.
      - destruct (String.eqb_spec k k'); [contradiction | exact IH].
      - now rewrite IH. }
    induction ps as [|[a b] ps IH]; simpl.
    - destruct (String.eqb_spec k k'); [contradiction | reflexivity].
    - destruct (String.eqb_spec a k) as [->|Ha]; simpl.
      + destruct (String.eqb_spec k k'); [contradiction | apply Hrm].
      + now rewrite IH. }
  split; [reflexivity|]. split; [|split; [|split; [|split]]].
  - rewrite !get_set_ne by discriminate. apply get_set_eq.
  - rewrite get_set_ne by discriminate. apply get_set_eq.
  - apply get_set_eq.
  - intros k [<- | [<- | [<- | []]]].
    + rewrite !Hfilter by discriminate. apply set_param_once.
    + rewrite Hfilter by discriminate. apply set_param_once.
    + apply set_param_once.
  - intros k Hk. rewrite !get_set_ne; [reflexivity | | |];
      intros <-; apply Hk; simpl; tauto.
Qed.

(** A click on a plan card leaves the page exactly when the card is not the
    current plan's, not already loading and not the free one, a user is
    signed in, and the plan's checkout link is set and parses. *)
Theorem clickCard_navigates_iff (env : Env) (parseUrl : string -> option Pricing.Url)
    (origin : string) (mail plan loading : option string) (p : Pricing.Plan) :
  (exists target,
      In (Pricing.Navigate target)
         (snd (Pricing.clickCard env parseUrl origin mail plan p loading))) <->
  (Pricing.id p <> "free" /\
   Pricing.currentPlan plan <> Pricing.id p /\
   loading <> Some (Pricing.id p) /\
   exists m link url,
     mail = Some m /\ Pricing.checkoutLink env (Pricing.id p) = Some link /\
     link <> "" /\ parseUrl link = Some url).
Proof.
  unfold Pricing.clickCard, Pricing.card. cbn [Pricing.card_disabled].
  assert (Hbusy : strict_eq_str loading (Pricing.id p) = true <->
                  loading = Some (Pricing.id p)).
  { unfold strict_eq_str. destruct loading as [x|]; [|split; discriminate].
    rewrite String.eqb_eq. split; congruence. }
  destruct (String.eqb_spec (Pricing.currentPlan plan) (Pricing.id p)) as [Ec|Ec];
    cbn [orb].
  { split; [intros [t []] | intros (_ & Hn & _); contradiction]. }
  destruct (strict_eq_str loading (Pricing.id p)) eqn:Eb.
  { split; [intros [t []]|]. intros (_ & _ & Hn & _). exfalso. apply Hn, Hbusy. reflexivity. }
  assert (Hl : loading <> Some (Pricing.id p)).
  { intros Hl. apply Hbusy in Hl. discriminate Hl. }
  unfold Pricing.handleSelectPlan.
  destruct (String.eqb_spec (Pricing.id p) "free") as [Ef|Ef].
  { split; [intros [t []] | intros (Hn & _); contradiction]. }
  destruct mail as [m|].
  2:{ split; [intros [t [Hd | []]]; discriminate Hd|].
      intros (_ & _ & _ & m & link & url & Hm & _). discriminate Hm. }
  destruct (Pricing.checkoutLink env (Pricing.id p)) as [link|] eqn:El.
  2:{ simpl. split; [intros [t [Hd | []]]; discriminate Hd|].
      intros (_ & _ & _ & m' & link & url & _ & Hk & _). discriminate Hk. }
  unfold truthy_str. change (default "" (Some link)) with link.
  destruct (String.eqb_spec link "") as [Hemp|Hne]; cbn [negb].
  { split; [intros [t [Hd | []]]; discriminate Hd|].
    intros (_ & _ & _ & m' & link' & url & _ & [= <-] & Hn & _). contradiction. }
  destruct (parseUrl link) as [url|] eqn:Ep.
  - split; [|intros _; eexists; left; reflexivity].
    intros _. repeat split; try assumption. exists m, link, url. auto.
  - split; [intros [t [Hd | []]]; discriminate Hd|].
    intros (_ & _ & _ & m' & link' & url & _ & [= <-] & _ & Hparse). congruence.
Qed.

(** A checkout link that is set but is no URL: the plan is marked as
    loading before [new URL] throws, so the card's button then reads
    "Loading..." and is disabled, and further clicks on it do nothing. *)
Theorem unparseable_link_leaves_card_loading (env : Env)
    (parseUrl : string -> option Pricing.Url) (origin mail link : string)
    (plan loading : option string) (p : Pricing.Plan) :
  Pricing.id p <> "free" ->
  Pricing.card_disabled (Pricing.card plan loading p) = false ->
  Pricing.checkoutLink env (Pricing.id p) = Some link -> link <> "" ->
  parseUrl link = None ->
  let r := Pricing.clickCard env parseUrl origin (Some mail) plan p loading in
  r = (Some (Pricing.id p), [Pricing.ThrowsTypeError]) /\
  Pricing.card_label (Pricing.card plan (fst r) p) = "Loading..." /\
  Pricing.card_disabled (Pricing.card plan (fst r) p) = true /\
  Pricing.clickCard env parseUrl origin (Some mail) plan p (fst r) = (fst r, []).
Proof.
  intros Hfree Hen Hlink Hne Hparse. cbv zeta.
  assert (Hr : Pricing.clickCard env parseUrl origin (Some mail) plan p loading
               = (Some (Pricing.id p), [Pricing.ThrowsTypeError])).
  { unfold Pricing.clickCard. rewrite Hen. unfold Pricing.handleSelectPlan.
    destruct (String.eqb_spec (Pricing.id p) "free"); [contradiction|].
    rewrite Hlink. unfold truthy_str.
    destruct (String.eqb_spec link ""); [contradiction|]. cbn [negb].
  change (default "" (Some link)) with link.
    now rewrite Hparse. }
  rewrite Hr. cbn [fst].
  assert (Hbusy : strict_eq_str (Some (Pricing.id p)) (Pricing.id p) = true).
  { simpl. apply String.eqb_refl. }
  split; [reflexivity|]. unfold Pricing.clickCard, Pricing.card.
  cbn [Pricing.card_label Pricing.card_disabled]. rewrite Hbusy, orb_true_r.
  repeat split.
Qed.

(** *** Sample deployment *)

Definition env_unset : Env :=
  {| VITE_SUPABASE_URL := None; VITE_SUPABASE_ANON_KEY := Some "anon-key";
     VITE_POLAR_PRO_CHECKOUT_URL := None; VITE_POLAR_TEAM_CHECKOUT_URL := None |}.

Definition env_set : Env :=
  {| VITE_SUPABASE_URL := Some "https://project.supabase.co";
     VITE_SUPABASE_ANON_KEY := Some "anon-key";
     VITE_POLAR_PRO_CHECKOUT_URL := Some "https://polar.sh/checkout/pro?ref=app";
     VITE_POLAR_TEAM_CHECKOUT_URL := Some "not a url" |}.

Definition ada : User := {| id := "u1"; email := "ada@example.org" |}.

Definition ada_session : option Session := Some {| session_user := Some ada |}.

Definition pro_row : Subscription :=
  {| sub_user_id := "u0"; plan_id := "pro"; status := "active" |}.

(** A client whose subscription lookup finds no row. *)
Definition no_row_client : SupabaseClient :=
  {| getSession := None;
     subscriptions_single := fun _ => QueryReturned None (Some "PGRST116");
     auth_signUp := fun _ _ => {| data := Some "user"; error := None |};
     auth_signInWithPassword := fun _ _ => {| data := Some "session"; error := None |};
     auth_signInWithOAuth := fun _ _ => {| data := Some "redirect"; error := None |};
     auth_signOut_resolves := true |}.

Definition signed_in_pro : AuthState :=
  {| user := Some {| id := "u0"; email := "bob@example.org" |};
     session := Some {| session_user := Some {| id := "u0"; email := "bob@example.org" |} |};
     loading := false;
     subscription := Some pro_row |}.

(** A parser of the two links of [env_set]. *)
Definition sample_parseUrl (link : string) : option Pricing.Url :=
  if String.eqb link "https://polar.sh/checkout/pro?ref=app"
  then Some {| Pricing.base := "https://polar.sh/checkout/pro";
               Pricing.searchParams := [("ref", "app")] |}
  else None.

Definition pro_card : Pricing.Plan :=
  {| Pricing.id := "pro"; Pricing.name := "Pro"; Pricing.price := "$19";
     Pricing.cta := "Upgrade to Pro"; Pricing.popular := true |}.

Definition team_card : Pricing.Plan :=
  {| Pricing.id := "team"; Pricing.name := "Team"; Pricing.price := "$49";
     Pricing.cta := "Contact Sales"; Pricing.popular := false |}.

Lemma unconfigured_provider_calls_nothing_witness :
  signIn env_unset no_row_client "ada@example.org" "secret" = (notConfigured, []) /\
  signOut env_unset no_row_client signed_in_pro = (signed_in_pro, []).
Proof.
  assert (Hunset : ~ is_set (VITE_SUPABASE_URL env_unset) \/
                   ~ is_set (VITE_SUPABASE_ANON_KEY env_unset)).
  { left. intros (x & Hx & _). discriminate Hx. }
  pose proof (unconfigured_provider_calls_nothing env_unset no_row_client signed_in_pro
                "ada@example.org" "secret" "http://localhost:5173" "u1" Hunset)
    as (_ & _ & Hout & _ & Hin & _).
  split; [exact Hin | exact Hout].
Defined.

Lemma failed_lookup_keeps_old_subscription_witness :
  let st' := fst (authStateChanged env_set no_row_client ada_session signed_in_pro) in
  user st' = Some ada /\ subscription st' = Some pro_row.
Proof.
  assert (Hfail : forall row, subscriptions_single no_row_client (id ada)
                              <> QueryReturned (Some row) None).
  { intros row. discriminate. }
  pose proof (failed_lookup_keeps_old_subscription env_set no_row_client ada_session ada
                signed_in_pro eq_refl eq_refl Hfail) as (Hu & Hs & _).
  split; [exact Hu | exact Hs].
Defined.

Lemma signOut_lifts_the_gate_witness :
  let st' := fst (signOut env_set no_row_client signed_in_pro) in
  user st' = None /\
  Client.canReview (authValue env_set st')
    (Client.setReviewsThisMonth 7 (@Client.initialState Q _)) = true.
Proof.
  pose proof (signOut_lifts_the_gate env_set no_row_client signed_in_pro
                (Client.setReviewsThisMonth 7 (@Client.initialState Q _))
                eq_refl eq_refl) as (Hu & _ & _ & _ & Hgate).
  split; [exact Hu | exact Hgate].
Defined.

Lemma handleSelectPlan_checkout_target_witness :
  exists target,
    Pricing.handleSelectPlan env_set sample_parseUrl "http://localhost:5173"
      (Some "ada@example.org") "pro" None
    = (Some "pro", [Pricing.Navigate target]) /\
    Pricing.get_param "customer_email" (Pricing.searchParams target)
    = Some "ada@example.org" /\
    Pricing.get_param "ref" (Pricing.searchParams target) = Some "app".
Proof.
  assert (Hne : "https://polar.sh/checkout/pro?ref=app" <> "") by discriminate.
  assert (Hfree : "pro" <> "free") by discriminate.
  destruct (handleSelectPlan_checkout_target env_set sample_parseUrl
              "http://localhost:5173" "ada@example.org" "pro"
              "https://polar.sh/checkout/pro?ref=app"
              {| Pricing.base := "https://polar.sh/checkout/pro";
                 Pricing.searchParams := [("ref", "app")] |}
              None Hfree eq_refl Hne eq_refl)
    as (target & Hrun & _ & Hmail & _ & _ & _ & Hrest).
  exists target. split; [exact Hrun|]. split; [exact Hmail|].
  rewrite Hrest; [reflexivity|].
  simpl. intros [Hk | [Hk | [Hk | []]]]; discriminate Hk.
Defined.

Lemma unparseable_link_leaves_card_loading_witness :
  Pricing.clickCard env_set sample_parseUrl "http://localhost:5173"
    (Some "ada@example.org") None team_card None
  = (Some "team", [Pricing.ThrowsTypeError]) /\
  Pricing.card_label (Pricing.card None (Some "team") team_card) = "Loading...".
Proof.
  assert (Hne : "not a url" <> "") by discriminate.
  assert (Hfree : Pricing.id team_card <> "free") by discriminate.
  pose proof (unparseable_link_leaves_card_loading env_set sample_parseUrl
                "http://localhost:5173" "ada@example.org" "not a url" None None
                team_card Hfree eq_refl eq_refl Hne eq_refl) as (Hrun & Hlabel & _).
  split; [exact Hrun | exact Hlabel].
Defined.

End AccountProperties.

(** ** Further properties of the usage functions *)

Module UsageInvariants.
Import Usage.

Lemma usage_record_eta (db : Database) :
  {| auth_users := auth_users db; usage := usage db |} = db.
Proof. destruct db; reflexivity. Qed.

Lemma increment_usage_null_row (m u : string) (db : Database) :
  usage db !! (u, m) = Some None -> increment_usage m u db = SqlOk db.
Proof.
  intros E. unfold increment_usage. rewrite E. cbn [int4pl].
  rewrite insert_id by exact E. now rewrite usage_record_eta.
Qed.

Lemma increment_times_null_row (k : nat) (m u : string) (db : Database) :
  usage db !! (u, m) = Some None ->
  UsageProperties.increment_times k m u db = SqlOk db.
Proof.
  intros E. induction k as [|k IH]; [reflexivity|].
  cbn [UsageProperties.increment_times]. rewrite IH.
  now apply increment_usage_null_row.
Qed.

(** Whether a call of [increment_usage] succeeds or raises, the table it
    leaves satisfies the schema: every usage row belongs to an existing user
    and every counter is [NULL] or a 32-bit integer. *)
Theorem after_increment_usage_keeps_constraints (m u : string) (db : Database) :
  db_constraints db -> db_constraints (after_increment_usage m u db).
Proof.
  intros Hdb. unfold after_increment_usage.
  destruct (increment_usage m u db) as [db'|e] eqn:Hinc; [|exact Hdb].
  exact (UsageProperties.increment_usage_constraints m u db db' Hdb Hinc).
Qed.

(** On a table that satisfies the schema, [increment_usage] raises in two
    cases only: there is no row yet and the user is unknown (foreign key), or
    the counter is at 2147483647 (integer out of range). *)
Theorem increment_usage_raises_iff (m u : string) (db : Database) (e : string) :
  db_constraints db ->
  (increment_usage m u db = SqlError e <->
   (usage db !! (u, m) = None /\ (u ∉ auth_users db) /\
    e = "violates foreign key constraint") \/
   (usage db !! (u, m) = Some (Some INT4_MAX) /\ e = "integer out of range")).
Proof.
  intros [_ Hrange]. unfold increment_usage.
  destruct (usage db !! (u, m)) as [[n|]|] eqn:E.
  - pose proof (Hrange _ _ E) as Hn. simpl in Hn. unfold int4pl.
    destruct (Z.leb_spec INT4_MIN (n + 1)) as [Hlo|Hlo]; [|lia].
    destruct (Z.leb_spec (n + 1) INT4_MAX) as [Hhi|Hhi]; cbn [andb].
    + split; [discriminate|]. intros [(Hd & _) | ([= Hd] & _)]; [discriminate Hd | lia].
    + assert (n = INT4_MAX) as -> by lia.
      split; [intros [= <-]; right; auto | intros [(Hd & _) | (_ & ->)]];
        [discriminate Hd | reflexivity].
  - cbn [int4pl]. split; [discriminate|].
    intros [(Hd & _) | (Hd & _)]; discriminate Hd.
  - case_bool_decide as Hu.
    + split; [discriminate|]. intros [(_ & Hn & _) | (Hd & _)];
        [contradiction | discriminate Hd].
    + split; [intros [= <-]; left; auto | intros [(_ & _ & ->) | (Hd & _)]];
        [reflexivity | discriminate Hd].
Qed.

(** A [NULL] counter is never repaired: however often [increment_usage] is
    called for that user and month, every call succeeds, the row's
    [review_count] is still [NULL] afterwards and [get_monthly_usage] keeps
    returning 0; the counters read for other users and months are as
    before. *)
Theorem null_counter_is_never_counted (k : nat) (m u : string) (db : Database) :
  usage db !! (u, m) = Some None ->
  exists db',
    UsageProperties.increment_times k m u db = SqlOk db' /\
    usage db' !! (u, m) = Some None /\
    get_monthly_usage m u db' = 0 /\
    (forall m' u', get_monthly_usage m' u' db' = get_monthly_usage m' u' db).
Proof.
  intros E. exists db. split; [now apply increment_times_null_row|].
  split; [exact E|]. split; [|reflexivity].
  rewrite UsageProperties.get_monthly_usage_lookup, E. reflexivity.
Qed.

(** Counting from a missing row, for an existing user: [k] calls of
    [increment_usage] in one month succeed and [get_monthly_usage] then
    returns [k], for every [k] up to 2147483647; with more calls the sequence
    raises "integer out of range". *)
Theorem increment_times_reads_back (k : nat) (m u : string) (db : Database) :
  u ∈ auth_users db -> usage db !! (u, m) = None ->
  (Z.of_nat k <= INT4_MAX ->
   exists db', UsageProperties.increment_times k m u db = SqlOk db' /\
               get_monthly_usage m u db' = Z.of_nat k /\
               auth_users db' = auth_users db) /\
  (INT4_MAX < Z.of_nat k ->
   UsageProperties.increment_times k m u db = SqlError "integer out of range").
Proof.
  intros Hu E. split.
  - intros Hmax. destruct k as [|k].
    + exists db. split; [reflexivity|]. split; [|reflexivity].
      now apply UsageProperties.get_monthly_usage_no_row.
    + rewrite (UsageProperties.increment_times_counts (S k) m u db Hu E) by lia.
      eexists. split; [reflexivity|]. split; [|reflexivity].
      rewrite UsageProperties.get_monthly_usage_lookup. cbn [usage].
      now rewrite lookup_insert_eq.
  - induction k as [|k IH]; intros Hover; [unfold INT4_MAX in Hover; lia|].
    cbn [UsageProperties.increment_times].
    destruct (Z_le_gt_dec (Z.of_nat k) INT4_MAX) as [Hle|Hgt].
    + assert (Hk : Z.of_nat k = INT4_MAX) by lia.
      rewrite (UsageProperties.increment_times_counts k m u db Hu E)
        by (unfold INT4_MAX in *; lia).
      unfold increment_usage. cbn [usage auth_users].
      rewrite lookup_insert_eq, Hk. reflexivity.
    + rewrite IH by lia. reflexivity.
Qed.

Lemma after_increment_usage_keeps_constraints_witness :
  db_constraints (after_increment_usage "2026-11" "7f9c24e8" UsageProperties.fresh_db).
Proof.
  apply (after_increment_usage_keeps_constraints "2026-11" "7f9c24e8"
           UsageProperties.fresh_db).
  split; simpl; intros; rewrite lookup_empty in *; discriminate.
Defined.

Lemma increment_usage_raises_iff_witness :
  increment_usage "2026-11" "unknown" UsageProperties.fresh_db
  = SqlError "violates foreign key constraint".
Proof.
  apply (increment_usage_raises_iff "2026-11" "unknown" UsageProperties.fresh_db
           "violates foreign key constraint").
  - split; simpl; intros; rewrite lookup_empty in *; discriminate.
  - left. split; [apply lookup_empty|]. split; [|reflexivity].
    simpl. set_solver.
Defined.

Lemma null_counter_is_never_counted_witness :
  exists db',
    UsageProperties.increment_times 5 "2026-11" "7f9c24e8" UsageProperties.null_db
    = SqlOk db' /\
    usage db' !! ("7f9c24e8", "2026-11") = Some None /\
    get_monthly_usage "2026-11" "7f9c24e8" db' = 0.
Proof.
  destruct (null_counter_is_never_counted 5 "2026-11" "7f9c24e8"
              UsageProperties.null_db)
    as (db' & Hrun & Hrow & Hget & _).
  - unfold UsageProperties.null_db. cbn [usage]. apply lookup_singleton_eq.
  - exists db'. split; [exact Hrun|]. split; [exact Hrow | exact Hget].
Defined.

Lemma increment_times_reads_back_witness :
  exists db', UsageProperties.increment_times 3 "2026-11" "7f9c24e8"
                UsageProperties.fresh_db = SqlOk db' /\
              get_monthly_usage "2026-11" "7f9c24e8" db' = 3.
Proof.
  destruct (increment_times_reads_back 3 "2026-11" "7f9c24e8" UsageProperties.fresh_db
              UsageProperties.sample_user_exists (lookup_empty _))
    as [Hcount _].
  destruct Hcount as (db' & Hrun & Hget & _); [unfold INT4_MAX; lia|].
  exists db'. split; [exact Hrun | exact Hget].
Defined.

End UsageInvariants.

(** ** Properties of whole sessions of [AppContent] *)

Module SessionProperties.
Import Client ClientScreen.

Section Sessions.
Context {num : Type} `{JsNumber num}.

(** An upload changes nothing of what the PDF pane shows. *)
Lemma handleFileUpload_view (auth : AuthContext) (server : Server num)
    (file : option File) (s : AppState num) :
  let s' := fst (handleFileUpload auth server file s) in
  currentPage s' = currentPage s /\ numPages s' = numPages s /\
  scale s' = scale s /\ activeHighlight s' = activeHighlight s /\
  pageSize s' = pageSize s.
Proof.
  cbv zeta. unfold handleFileUpload. destruct file as [f|]; [|repeat split].
  destruct (endsWith (name f) ".pdf"); cbn [negb]; [|repeat split].
  destruct (canReview auth s); cbn [negb]; [|repeat split].
  unfold uploadAndAnalyze.
  destruct (post_upload server f) as [up|msg]; [|repeat split].
  destruct (post_analyze server (up_id up)) as [an|msg]; [|repeat split].
  unfold selectFirstReviewer. destruct (an_reviewers an) as [[|r0 rs]|]; repeat split.
Qed.

(** The actions that set the page or the page count without clamping: a
    click on a comment card ([navigateToHighlight]), a click on a citation,
    and the PDF widget reporting the page count of a document. *)
Definition sets_page_unclamped (a : Action (num := num)) : bool :=
  match a with
  | ClickComment _ | ClickCitation _ _ | DocumentLoaded _ => true
  | _ => false
  end.

Lemma goToPage_in_range (p n : Z) (s : AppState num) :
  numPages s = Some n -> 1 <= n ->
  numPages (goToPage p s) = Some n /\ 1 <= currentPage (goToPage p s) <= n.
Proof.
  intros Hn Hpos. unfold goToPage. cbn [numPages currentPage setCurrentPage].
  rewrite Hn. unfold or_default, truthy_num.
  destruct (Z.eqb_spec n 0); [lia|]. simpl. split; [reflexivity | lia].
Qed.

Lemma step_page_in_range (a : Action) (s : AppState num) (n : Z) :
  sets_page_unclamped a = false ->
  numPages s = Some n -> 1 <= currentPage s <= n ->
  numPages (step a s) = Some n /\ 1 <= currentPage (step a s) <= n.
Proof.
  intros Ha Hn Hp.
  assert (Hup : forall auth server file (s0 : AppState num),
            numPages s0 = Some n -> 1 <= currentPage s0 <= n ->
            numPages (fst (handleFileUpload auth server file s0)) = Some n /\
            1 <= currentPage (fst (handleFileUpload auth server file s0)) <= n).
  { intros auth server file s0 Hn0 Hp0.
    destruct (handleFileUpload_view auth server file s0) as (Hc & Hm & _).
    now rewrite Hc, Hm. }
  destruct a; try discriminate Ha; cbn [step];
    try (split; [exact Hn | exact Hp]).
  - apply Hup; assumption.
  - apply Hup; assumption.
  - unfold handleHighlightClick. destruct (existsb _ _); split; assumption.
  - unfold clickPrev. destruct (prevDisabled s); [split; assumption|].
    apply goToPage_in_range; [assumption | lia].
  - unfold clickNext. destruct (nextDisabled s); [split; assumption|].
    apply goToPage_in_range; [assumption | lia].
  - match goal with t : TimerAction |- _ => destruct t end; split; assumption.
Qed.

(** C8, as the code has it: for every integer [p], [goToPage p] sets the
    current page to [max 1 (min p (numPages || 1))] and changes nothing else,
    so right after the call the page shown lies between 1 and the page count
    (1 while the count is unknown or 0).  With a document loaded and the page
    within it, the page stays within it under every sequence of actions other
    than a click on a comment, a click on a citation and a new page count;
    those set the page or the count without clamping. *)
Theorem goToPage_clamps_each_call (p : Z) (s : AppState num)
    (actions : list Action) (n : Z) :
  currentPage (goToPage p s) = Z.max 1 (Z.min p (or_default (numPages s) 1)) /\
  1 <= currentPage (goToPage p s) <= Z.max 1 (or_default (numPages s) 1) /\
  goToPage p s = setCurrentPage (currentPage (goToPage p s)) s /\
  (numPages s = Some n -> 1 <= currentPage s <= n ->
   forallb (fun a => negb (sets_page_unclamped a)) actions = true ->
   numPages (run actions s) = Some n /\ 1 <= currentPage (run actions s) <= n).
Proof.
  split; [reflexivity|]. split; [unfold goToPage; simpl; lia|].
  split; [reflexivity|].
  revert s. induction actions as [|a actions IH]; intros s Hn Hp Hsafe.
  - split; assumption.
  - cbn [forallb] in Hsafe. apply andb_true_iff in Hsafe as [Ha Hrest].
    apply negb_true_iff in Ha.
    destruct (step_page_in_range a s n Ha Hn Hp) as [Hn' Hp'].
    unfold run in *. cbn [fold_left]. now apply IH.
Qed.

(** "New Review" returns to the upload screen with no review and no
    comments listed, but it resets neither the page, the page count, the
    zoom nor the counter, and the next upload does not reset them either:
    the next paper opens at the page the last one was left on. *)
Theorem newReview_keeps_the_page (auth : AuthContext) (server : Server num)
    (file : option File) (s : AppState num) :
  let s' := fst (handleFileUpload auth server file (newReview s)) in
  screen (newReview s) = UploadScreen /\
  reviewData (newReview s) = None /\
  getReviewerComments (newReview s) = [] /\
  getCurrentPageHighlights (newReview s) = [] /\
  reviewsThisMonth (newReview s) = reviewsThisMonth s /\
  canReview auth (newReview s) = canReview auth s /\
  currentPage s' = currentPage s /\ numPages s' = numPages s /\ scale s' = scale s.
Proof.
  cbv zeta.
  destruct (handleFileUpload_view auth server file (newReview s))
    as (Hp & Hn & Hz & _).
  rewrite Hp, Hn, Hz. repeat split.
Qed.

End Sessions.

(** A review whose one comment names a page the document does not have (the
    page of a comment is the reviewer's best guess). *)
Definition far_comment : Comment :=
  {| c_id := 7; reviewer_type := "methodology_reviewer"; title := "Appendix";
     content := "The ablation in the appendix is not described.";
     severity := "minor"; c_page := Some 99; citations := None;
     highlight_rects := None |}.

Definition far_server : Server Q :=
  {| post_upload := fun f => Resolved {| up_id := "r3"; up_title := Some (name f) |};
     post_analyze := fun _ =>
       Resolved {| an_title := None;
                   an_reviewers :=
                     Some [ {| r_type := "methodology_reviewer";
                               r_status := "completed"; r_summary := None |} ];
                   an_comments := Some [far_comment];
                   an_highlights := None |} |}.

(** A five-page paper is uploaded and loaded. *)
Definition five_page_session : list (Action (num := Q)) :=
  [ Upload ClientProperties.sample_auth far_server [ScreenProperties.paper];
    DocumentLoaded 5 ].

(** The reader pages to the end, starts a new review and a two-page paper is
    loaded. *)
Definition second_paper_session : list (Action (num := Q)) :=
  (five_page_session ++
   [ NextPage; NextPage; NextPage; NextPage; NewReview;
     Upload ClientProperties.sample_auth far_server [ScreenProperties.paper];
     DocumentLoaded 2 ])%list.

(** Paging, zooming and a highlight click on the sample review. *)
Definition paging_session : list (Action (num := Q)) :=
  [ NextPage; NextPage; NextPage; NextPage; ZoomIn;
    ClickHighlight ClientProperties.sample_highlight_p2; PrevPage;
    Timer ClearActiveHighlight ].

Lemma goToPage_clamps_each_call_witness :
  currentPage (goToPage 12 ClientProperties.sample_state) = 5 /\
  numPages (run paging_session ClientProperties.sample_state) = Some 5 /\
  1 <= currentPage (run paging_session ClientProperties.sample_state) <= 5.
Proof.
  destruct (goToPage_clamps_each_call 12 ClientProperties.sample_state paging_session 5)
    as (Hpage & _ & _ & Hsession).
  split; [rewrite Hpage; reflexivity|].
  apply Hsession; [reflexivity | simpl; lia | reflexivity].
Defined.

(** C8 as stated fails: the page shown does not always stay within the
    document.  A click on a listed comment whose [page] is 99 shows "99 / 5";
    and after page 5 of a five-page paper, "New Review" and a two-page paper
    show "5 / 2". *)
Lemma currentPage_leaves_range_counterexample :
  let s := run five_page_session initialState in
  let s' := fst (clickComment far_comment s) in
  let t := run second_paper_session initialState in
  (In far_comment (getReviewerComments s) /\
   numPages s = Some 5 /\ currentPage s = 1 /\
   numPages s' = Some 5 /\ currentPage s' = 99 /\
   ~ (1 <= currentPage s' <= 5)) /\
  (numPages t = Some 2 /\ currentPage t = 5 /\ ~ (1 <= currentPage t <= 2)).
Proof.
  cbv zeta.
  assert (H1 : currentPage (fst (clickComment far_comment
                                   (run five_page_session initialState))) = 99)
    by (vm_compute; reflexivity).
  assert (H2 : currentPage (run second_paper_session initialState) = 5)
    by (vm_compute; reflexivity).
  split.
  - split; [vm_compute; left; reflexivity|].
    split; [vm_compute; reflexivity|]. split; [vm_compute; reflexivity|].
    split; [vm_compute; reflexivity|]. split; [exact H1|]. rewrite H1. lia.
  - split; [vm_compute; reflexivity|]. split; [exact H2|]. rewrite H2. lia.
Qed.

End SessionProperties.
